(** * The AdSmartX bid adapter (modules/adsmartxBidAdapter.js)

    A shallow embedding of the adapter's four entry points
    ([isBidRequestValid], [buildRequests], [interpretResponse],
    [getUserSyncs]) over a small model of the JavaScript values they
    handle, followed by the properties of the adapter's specification. *)

From Stdlib Require Import Ascii QArith Qcanon.
From stdpp Require Import gmap strings pretty list fin_maps.

Set Default Proof Using "Type".
Open Scope string_scope.
Open Scope list_scope.

(** ** JavaScript values *)

(** Numbers are IEEE doubles in the source.  The adapter never computes
    with them: it tests truthiness, [=== 1], [=== 2] and [<= 0], and
    otherwise copies them.  These tests depend only on the rational a
    finite double denotes, so a finite number is modelled by that
    rational. *)
Inductive number :=
| NaN
| Inf (negative : bool)
| Fin (q : Qc).

(** Errors raised by the language ([TypeError]) or by the converter
    library's builders. *)
Inductive error :=
| TypeError
| LibraryError (tag : string).

Inductive result (A : Type) :=
| Ok (a : A)
| Throw (e : error).
Arguments Ok {A} a.
Arguments Throw {A} e.

#[global] Instance result_ret : MRet result := @Ok.
#[global] Instance result_bind : MBind result :=
  λ A B f m, match m with Ok a => f a | Throw e => Throw e end.
#[global] Instance result_fmap : FMap result :=
  λ A B f m, match m with Ok a => Ok (f a) | Throw e => Throw e end.

(** JSON-like data: the values a host hands to the adapter and the
    values a server response parses to.  Objects are finite maps from
    keys to values; a key mapped to [VUndefined] is present in the
    object (as after [{consent: undefined}]), a key outside the map is
    absent.  Functions, accessors and prototypes are outside the
    model.  A string is a sequence of code units below 256. *)
#[warnings="-register-all"]
Inductive value :=
| VUndefined
| VNull
| VBool (b : bool)
| VNum (n : number)
| VStr (s : string)
| VArr (l : list value)
| VObj (o : gmap string value).

Definition num (z : Z) : value := VNum (Fin (Q2Qc (inject_Z z))).

Definition obj (fields : list (string * value)) : value :=
  VObj (list_to_map fields).

Module JS.

(** [ToBoolean]. *)
Definition truthy (v : value) : bool :=
  match v with
  | VUndefined | VNull => false
  | VBool b => b
  | VNum NaN => false
  | VNum (Inf _) => true
  | VNum (Fin q) => negb (Qeq_bool q 0)
  | VStr s => negb (String.eqb s "")
  | VArr _ | VObj _ => true
  end.

(** [v == null]. *)
Definition nullish (v : value) : bool :=
  match v with
  | VUndefined | VNull => true
  | _ => false
  end.

Definition isArray (v : value) : bool :=
  match v with
  | VArr _ => true
  | _ => false
  end.

(** [a || b]. *)
Definition logical_or (a b : value) : value := if truthy a then a else b.

(** [v === z] for a number literal [z]. *)
Definition strict_eq_num (v : value) (z : Z) : bool :=
  match v with
  | VNum (Fin q) => Qeq_bool q (inject_Z z)
  | _ => false
  end.

Definition length_value (n : nat) : value := num (Z.of_nat n).

(** The property [k] of a value that is neither [null] nor
    [undefined].  The keys the adapter reads are data keys and
    [length]; none of them names a member of a prototype, and none is
    an array index (indices are read with [index]). *)
Definition prop (v : value) (k : string) : value :=
  match v with
  | VObj o => default VUndefined (o !! k)
  | VArr l => if String.eqb k "length" then length_value (length l) else VUndefined
  | VStr s => if String.eqb k "length" then length_value (String.length s) else VUndefined
  | _ => VUndefined
  end.

(** [v.k]: a [TypeError] on [null] and [undefined]. *)
Definition get (v : value) (k : string) : result value :=
  if nullish v then Throw TypeError else Ok (prop v k).

(** [v?.k]. *)
Definition get_opt (v : value) (k : string) : value :=
  if nullish v then VUndefined else prop v k.

(** [l[i]] on an array. *)
Definition index (l : list value) (i : nat) : value :=
  default VUndefined (l !! i).

(** [target.k = v] in strict mode (module code): a [TypeError] on a
    primitive.  An array keeps its elements: a named property put on an
    array is not part of the data the model represents. *)
Definition set_prop (target : value) (k : string) (v : value) : result value :=
  match target with
  | VObj o => Ok (VObj (<[k := v]> o))
  | VArr l => Ok (VArr l)
  | _ => Throw TypeError
  end.

(** [const [w, h] = v]: destructuring takes the first two elements of
    an array or the first two code units of a string; any other JSON
    value is not iterable. *)
Definition destructure_pair (v : value) : result (value * value) :=
  match v with
  | VArr l => Ok (index l 0, index l 1)
  | VStr s =>
      let units := (λ c, VStr (String c "")) <$> Strings.String.list_ascii_of_string s in
      Ok (index units 0, index units 1)
  | _ => Throw TypeError
  end.

(** [v.map(f)]: only an array has the method. *)
Definition array_map (f : value → result value) (v : value) : result (list value) :=
  match v with
  | VArr l => mapM f l
  | _ => Throw TypeError
  end.

(** [l.some(p)] and [l.find(p)] with a callback that may throw: the
    scan stops at the first element that matches or throws. *)
Fixpoint some (p : value → result bool) (l : list value) : result bool :=
  match l with
  | [] => Ok false
  | x :: rest => b ← p x; if b : bool then Ok true else some p rest
  end.

Fixpoint find (p : value → result bool) (l : list value) : result value :=
  match l with
  | [] => Ok VUndefined
  | x :: rest => b ← p x; if b : bool then Ok x else find p rest
  end.

(** [{...v}]: the own enumerable properties of [v]. *)
Definition spread (v : value) : gmap string value :=
  match v with
  | VObj o => o
  | VArr l => list_to_map (imap (λ i x, (pretty i, x)) l)
  | VStr s =>
      list_to_map (imap (λ i c, (pretty i, VStr (String c ""))) (Strings.String.list_ascii_of_string s))
  | _ => ∅
  end.

(** [encodeURIComponent] on a string of code units below 256: the
    unreserved marks and alphanumerics stay, every other unit is
    replaced by the percent-escapes of its UTF-8 bytes.  Strings with
    surrogate code units, on which the built-in throws a [URIError]
    when one is unpaired, are outside the strings of the model. *)
Definition unreserved (c : ascii) : bool :=
  let n := nat_of_ascii c in
  ((65 <=? n)%nat && (n <=? 90)%nat) || ((97 <=? n)%nat && (n <=? 122)%nat)
  || ((48 <=? n)%nat && (n <=? 57)%nat)
  || bool_decide (c ∈ Strings.String.list_ascii_of_string "-_.!~*'()").

Definition hex_digit (n : nat) : ascii :=
  default "0"%char (Strings.String.list_ascii_of_string "0123456789ABCDEF" !! n).

Definition percent (byte : nat) : string :=
  String "%" (String (hex_digit (byte / 16)) (String (hex_digit (byte mod 16)) "")).

Definition encode_unit (c : ascii) : string :=
  let n := nat_of_ascii c in
  if unreserved c then String c ""
  else if (n <? 128)%nat then percent n
  else percent (192 + n / 64) +:+ percent (128 + n mod 64).

Fixpoint encodeURIComponent_string (s : string) : string :=
  match s with
  | "" => ""
  | String c rest => encode_unit c +:+ encodeURIComponent_string rest
  end.

(** [JSON.stringify], the language's serializer that a host applies to
    the request it posts, writes the properties of an object whose
    value is not [undefined]: the members of the serialized object. *)
Definition is_undefined (v : value) : bool :=
  match v with
  | VUndefined => true
  | _ => false
  end.

Definition json_members (o : gmap string value) : gmap string value :=
  filter (λ kv, is_undefined kv.2 = false) o.

Section Conversions.

(** [Number::toString] and [StringToNumber] are language built-ins
    whose results depend on the double-precision format; the model is
    parametric in them. *)
Variable NumberToString : number → string.
Variable StringToNumber : string → number.

(** [ToString]; an array joins the strings of its elements, [null] and
    [undefined] elements giving the empty string.  An object is taken
    to have the conversion methods of its prototype: one with an own
    [toString] member that is not callable, on which the language
    throws a [TypeError], is outside the conversions of the model. *)
Fixpoint ToString (v : value) : string :=
  match v with
  | VUndefined => "undefined"
  | VNull => "null"
  | VBool b => if b then "true" else "false"
  | VNum n => NumberToString n
  | VStr s => s
  | VArr l =>
      String.concat "," (map (λ e, if nullish e then "" else ToString e) l)
  | VObj _ => "[object Object]"
  end.

(** [l.join(sep)]. *)
Definition join (sep : string) (l : list value) : string :=
  String.concat sep (map (λ e, if nullish e then "" else ToString e) l).

(** [ToNumber]; an array or object is first turned into its string. *)
Definition ToNumber (v : value) : number :=
  match v with
  | VUndefined => NaN
  | VNull => Fin 0
  | VBool b => Fin (if b then 1 else 0)
  | VNum n => n
  | VStr s => StringToNumber s
  | VArr _ | VObj _ => StringToNumber (ToString v)
  end.

(** [v <= 0]. *)
Definition le_zero (v : value) : bool :=
  match ToNumber v with
  | NaN => false
  | Inf negative => negative
  | Fin q => Qle_bool q 0
  end.

Definition encodeURIComponent (v : value) : string :=
  encodeURIComponent_string (ToString v).

End Conversions.

End JS.

Import JS.

(** ** The adapter *)

Definition BIDDER_CODE : string := "adsmartx".
Definition ENDPOINT_URL : string := "https://ads.adsmartx.com/ads/rtb/prebid/js".
Definition DEFAULT_CURRENCY : string := "USD".
Definition DEFAULT_TTL : Z := 60.
Definition BANNER : string := "banner".
Definition VIDEO : string := "video".

(** Modelled from the spec: [deepAccess] of the host's utilities
    (src/utils.js of the host, absent from the adapter's sources) reads
    the context's "standardized first-party user identifier
    (ortb2.user.id)"; a level that is missing or falsy gives
    [undefined]. *)
Fixpoint deepAccess (o : value) (path : list string) : value :=
  match path with
  | [] => o
  | k :: rest => deepAccess (if truthy o then prop o k else VUndefined) rest
  end.

(** The sync-parameter cache [syncParams]: a module-level variable that
    always holds an object; [{}] when the module is loaded. *)
Definition syncParams_init : gmap string value := ∅.

Definition getPublisherUserId (bidParams bidderRequest : value) : value :=
  if truthy (get_opt bidParams "sspUserId") then prop bidParams "sspUserId"
  else
    let ortb2UserId := deepAccess bidderRequest ["ortb2"; "user"; "id"] in
    if truthy ortb2UserId then ortb2UserId
    else VNull.

(** The [context] option handed to [ortbConverter]. *)
Definition converter_context : value :=
  obj [("netRevenue", VBool true); ("ttl", num DEFAULT_TTL);
       ("currency", VStr DEFAULT_CURRENCY)].

(** [([w, h]) => ({ w, h })]. *)
Definition size_to_format (size : value) : result value :=
  '(w, h) ← destructure_pair size;
  Ok (obj [("w", w); ("h", h)]).

(** The [imp] override of the converter.  [buildImp] is the library's
    builder, handed in as the first argument; it returns the plain
    object it has populated, or throws. *)
Definition imp (buildImp : value → value → result (gmap string value))
    (bidRequest context : value) : result (gmap string value) :=
  imp0 ← buildImp bidRequest context;
  mediaTypes ← get bidRequest "mediaTypes";
  let params := prop bidRequest "params" in
  let imp1 :=
    if truthy params then
      if truthy (prop params "bidfloor")
      then <["bidfloor" := prop params "bidfloor"]> imp0
      else imp0
    else imp0 in
  banner ← get mediaTypes BANNER;
  if truthy banner then
    format ← array_map size_to_format (prop banner "sizes");
    Ok (<["banner" := obj [("format", VArr format)]]> imp1)
  else
    if truthy (prop mediaTypes VIDEO) then
      Ok (<["video" := VObj (spread (prop mediaTypes VIDEO))]> imp1)
    else Ok imp1.

(** [bid => bid.params && bid.params.testMode === 1] and
    [bid => bid.params && bid.params.K]: the callbacks of the three
    scans, as the truth value the scan acts on. *)
Definition has_test_mode (bid : value) : result bool :=
  params ← get bid "params";
  Ok (truthy params && strict_eq_num (prop params "testMode") 1).

Definition carries (k : string) (bid : value) : result bool :=
  params ← get bid "params";
  Ok (truthy params && truthy (prop params k)).

(** [request.ext = request.ext || {}; request.ext.K = v]. *)
Definition set_ext (request : gmap string value) (k : string) (v : value)
    : result (gmap string value) :=
  let ext := logical_or (prop (VObj request) "ext") (obj []) in
  ext' ← set_prop ext k v;
  Ok (<["ext" := ext']> request).

(** Lines 76-96 of the adapter: the three scans over
    [bidderRequest.bids]. *)
Definition scan_bids (request3 : gmap string value) (bidderRequest : value)
    : result (gmap string value) :=
  match prop bidderRequest "bids" with
  | VArr bids =>
      hasTestMode ← some has_test_mode bids;
      request4 ← (if hasTestMode : bool then set_ext request3 "test" (num 1)
                  else Ok request3);
      sspIdBid ← find (carries "sspId") bids;
      request5 ← (if truthy sspIdBid
                  then set_ext request4 "sspId" (prop (prop sspIdBid "params") "sspId")
                  else Ok request4);
      siteIdBid ← find (carries "siteId") bids;
      if truthy siteIdBid
      then set_ext request5 "siteId" (prop (prop siteIdBid "params") "siteId")
      else Ok request5
  | _ => Ok request3
  end.

(** Lines 98-102: the GDPR blocks. *)
Definition add_gdpr (request6 : gmap string value) (bidderRequest : value)
    : gmap string value :=
  let gdprConsent := prop bidderRequest "gdprConsent" in
  if truthy gdprConsent then
    let request7 :=
      <["regs" := obj [("ext", obj [("gdpr", if truthy (prop gdprConsent "gdprApplies")
                                             then num 1 else num 0)])]]> request6 in
    <["user" := obj [("ext", obj [("consent", prop gdprConsent "consentString")])]]>
      request7
  else request6.

(** Lines 104-109: the USP field.  The assignments write through
    [request.regs] and [request.regs.ext]; the updated blocks are put
    back in place. *)
Definition add_usp (request8 : gmap string value) (bidderRequest : value)
    : result (gmap string value) :=
  let uspConsent := prop bidderRequest "uspConsent" in
  if truthy uspConsent then
    let regs1 := logical_or (prop (VObj request8) "regs") (obj []) in
    let ext1 := logical_or (prop regs1 "ext") (obj []) in
    ext2 ← set_prop ext1 "us_privacy" uspConsent;
    regs2 ← set_prop regs1 "ext" ext2;
    Ok (<["regs" := regs2]> request8)
  else Ok request8.

(** The [request] override of the converter; [buildRequest] is the
    library's builder. *)
Definition request
    (buildRequest : list value → value → value → result (gmap string value))
    (imps : list value) (bidderRequest context : value)
    : result (gmap string value) :=
  request0 ← buildRequest imps bidderRequest context;
  let request1 := <["cur" := VArr [VStr DEFAULT_CURRENCY]]> request0 in
  timeout ← get bidderRequest "timeout";
  let request2 := <["tmax" := timeout]> request1 in
  let request3 :=
    <["test" := logical_or (prop bidderRequest "test") (num 0)]> request2 in
  request6 ← scan_bids request3 bidderRequest;
  add_usp (add_gdpr request6 bidderRequest) bidderRequest.

Section Adapter.

(** The language's number conversions (see [JS.ToString]). *)
Variable NumberToString : number → string.
Variable StringToNumber : string → number.

(** The converter library's own builders (libraries/ortbConverter of
    the host, absent from the adapter's sources): they populate the
    protocol's base fields of an impression and of a request. *)
Variable lib_buildImp : value → value → result (gmap string value).
Variable lib_buildRequest : list value → value → value → result (gmap string value).

Definition isBidRequestValid (bid : value) : result bool :=
  mediaTypes ← get bid "mediaTypes";
  if truthy (get_opt mediaTypes VIDEO) then
    video ← get mediaTypes VIDEO;
    let mimes := prop video "mimes" in
    if negb (truthy mimes) || negb (isArray mimes)
       || strict_eq_num (prop mimes "length") 0
    then Ok false
    else if negb (nullish (prop video "w"))
            && le_zero NumberToString StringToNumber (prop video "w")
    then Ok false
    else if negb (nullish (prop video "h"))
            && le_zero NumberToString StringToNumber (prop video "h")
    then Ok false
    else Ok true
  else Ok true.

(** Modelled from the spec: [converter.toORTB] of the converter library
    (absent from the adapter's sources).  "For each descriptor (order
    preserved), construct one impression", then build the request from
    the impressions; the library's builders are passed to the adapter's
    [imp] and [request] overrides.  "All anomalies degrade to ...
    empty/partial result": a descriptor whose impression cannot be
    constructed (the [imp] override, or the library's builder inside
    it, throws) is left out of the request.  Nothing stands between the
    [request] override and the caller: what it throws reaches
    [buildRequests]. *)
Definition built_impression (bidRequest : value) : option (gmap string value) :=
  match imp lib_buildImp bidRequest converter_context with
  | Ok i => Some i
  | Throw _ => None
  end.

Definition toORTB (bidRequests : list value) (bidderRequest : value)
    : result (gmap string value) :=
  let imps := omap built_impression bidRequests in
  request lib_buildRequest (VObj <$> imps) bidderRequest converter_context.

(** [buildRequests] reads and writes the module-level [syncParams]: the
    cache is threaded through, and is part of the outcome also when the
    conversion throws after the cache was written. *)
Definition buildRequests (validBidRequests : list value) (bidderRequest : value)
    (syncParams : gmap string value) : result value * gmap string value :=
  let stored : result (gmap string value) :=
    match validBidRequests with
    | firstBid :: _ =>
        params ← get firstBid "params";
        if truthy params then
          Ok (list_to_map
                [("sspId", prop params "sspId");
                 ("siteId", prop params "siteId");
                 ("sspUserId", getPublisherUserId params bidderRequest)])
        else Ok syncParams
    | [] => Ok syncParams
    end in
  match stored with
  | Throw e => (Throw e, syncParams)
  | Ok syncParams' =>
      (request ← toORTB validBidRequests bidderRequest;
       Ok (obj [("method", VStr "POST");
                ("url", VStr ENDPOINT_URL);
                ("data", VObj request);
                ("options", obj [("endpointCompression", VBool true)])]),
       syncParams')
  end.

(** The body of the [forEach] callback of [interpretResponse] for the
    first record [bid] of a seat group. *)
Definition bidResponse (bidResp bid : value) : result value :=
  impid ← get bid "impid";
  let bidResponse0 : gmap string value :=
    list_to_map
      [("requestId", impid);
       ("cpm", prop bid "price");
       ("currency", logical_or (prop bidResp "cur") (VStr DEFAULT_CURRENCY));
       ("width", prop bid "w");
       ("height", prop bid "h");
       ("ad", prop bid "adm");
       ("creativeId", prop bid "crid");
       ("netRevenue", VBool true);
       ("ttl", num DEFAULT_TTL);
       ("meta", obj [("advertiserDomains",
                      logical_or (prop bid "adomain") (VArr []))])] in
  let bidResponse1 :=
    if nullish (prop bid "mtype")
    then <["mediaType" := VStr BANNER]> bidResponse0
    else bidResponse0 in
  let bidResponse2 :=
    if strict_eq_num (prop bid "mtype") 1
    then <["mediaType" := VStr BANNER]> bidResponse1
    else if strict_eq_num (prop bid "mtype") 2
    then <["vastXml" := prop bid "adm"]> (<["mediaType" := VStr VIDEO]> bidResponse1)
    else bidResponse1 in
  let bidResponse3 :=
    if truthy (prop bid "dealid")
    then <["dealId" := prop bid "dealid"]> bidResponse2
    else bidResponse2 in
  Ok (VObj bidResponse3).

(** [bidResp.seatbid.forEach(seatbid => { ... responses.push(...) })]. *)
Fixpoint forEach_seatbid (bidResp : value) (seatbids : list value)
    (responses : list value) : result (list value) :=
  match seatbids with
  | [] => Ok responses
  | seatbid :: rest =>
      bids ← get seatbid "bid";
      responses' ←
        match bids with
        | VArr (bid :: _) =>
            (* a list of length > 0, [bid] being [seatbid.bid[0]] *)
            r ← bidResponse bidResp bid;
            Ok (responses ++ [r])
        | _ => Ok responses
        end;
      forEach_seatbid bidResp rest responses'
  end.

Definition interpretResponse (serverResponse request : value) : result (list value) :=
  let bidResp :=
    if truthy serverResponse then prop serverResponse "body" else serverResponse in
  if negb (truthy bidResp) || negb (isArray (prop bidResp "seatbid")) then Ok []
  else
    match prop bidResp "seatbid" with
    | VArr seatbids => forEach_seatbid bidResp seatbids []
    | _ => Ok []
    end.

(** The query parameters of the sync URL, in the order they are pushed. *)
Definition sync_query (syncParams : gmap string value)
    (syncOptions gdprConsent uspConsent gppConsent : value) : result (list string) :=
  let enc := encodeURIComponent NumberToString in
  let params0 : list string := [] in
  let params1 :=
    if truthy gdprConsent then
      params0
      ++ ["gdpr=" +:+ (if truthy (prop gdprConsent "gdprApplies") then "1" else "0")]
      ++ ["gdpr_consent="
          +:+ enc (logical_or (prop gdprConsent "consentString") (VStr ""))]
    else params0 in
  let params2 :=
    if truthy uspConsent then params1 ++ ["us_privacy=" +:+ enc uspConsent]
    else params1 in
  params3 ←
    (if truthy (get_opt gppConsent "gppString")
        && truthy (get_opt (get_opt gppConsent "applicableSections") "length")
     then
       match prop gppConsent "applicableSections" with
       | VArr sections =>
           Ok (params2
               ++ ["gpp=" +:+ enc (prop gppConsent "gppString")]
               ++ ["gpp_sid=" +:+ enc (VStr (join NumberToString "," sections))])
       | _ => Throw TypeError
       end
     else Ok params2);
  let params4 :=
    if truthy (prop (VObj syncParams) "sspId")
    then params3 ++ ["ssp_id=" +:+ enc (prop (VObj syncParams) "sspId")]
    else params3 in
  let params5 :=
    if truthy (prop (VObj syncParams) "siteId")
    then params4 ++ ["ssp_site_id=" +:+ enc (prop (VObj syncParams) "siteId")]
    else params4 in
  let params6 :=
    if truthy (prop (VObj syncParams) "sspUserId")
    then params5 ++ ["ssp_user_id=" +:+ enc (prop (VObj syncParams) "sspUserId")]
    else params5 in
  Ok (params6
      ++ ["iframe_enabled="
          +:+ (if truthy (prop syncOptions "iframeEnabled") then "true" else "false")]).

Definition getUserSyncs (syncParams : gmap string value)
    (syncOptions serverResponses gdprConsent uspConsent gppConsent : value)
    : result (list value) :=
  iframeEnabled ← get syncOptions "iframeEnabled";
  if negb (truthy iframeEnabled) && negb (truthy (prop syncOptions "pixelEnabled"))
  then Ok []
  else
    let syncType := if truthy iframeEnabled then "iframe" else "image" in
    let syncUrl := "https://ads.adsmartx.com/sync" in
    params ← sync_query syncParams syncOptions gdprConsent uspConsent gppConsent;
    let queryString :=
      if bool_decide (length params = 0) then ""
      else "?" +:+ String.concat "&" params in
    let finalUrl := syncUrl +:+ queryString in
    Ok [obj [("type", VStr syncType); ("url", VStr finalUrl)]].

(** ** Notions of the specification *)

(** The video spec a descriptor declares: [mediaTypes?.video]. *)
Definition video_of (bid : value) : value :=
  get_opt (prop bid "mediaTypes") VIDEO.

Definition declares_video (bid : value) : Prop :=
  truthy (video_of bid) = true.

(** "mimes missing, not a list, or an empty list". *)
Definition mimes_unusable (video : value) : Prop :=
  ∀ l, prop video "mimes" = VArr l → l = [].

(** "present, non-null and <= 0". *)
Definition dimension_rejected (d : value) : Prop :=
  d ≠ VUndefined ∧ d ≠ VNull ∧ le_zero NumberToString StringToNumber d = true.

(** The format spec a descriptor declares under [k] in [mediaTypes]. *)
Definition media_spec (k : string) (bid : value) : value :=
  prop (prop bid "mediaTypes") k.

(** The descriptors [build] makes an impression of: those on which the
    [imp] override returns, in order. *)
Definition eligible (bidRequests : list value) : list value :=
  filter (λ bid, is_Some (built_impression bid)) bidRequests.

(** What the [imp] override makes of the library's impression [imp0]
    for the descriptor [bid]: with a banner spec declared it sets the
    banner block and leaves the video entry as the library built it;
    without one it leaves the banner entry, and sets the video block to
    a copy of the declared video spec when there is one. *)
Definition override_applied (bid : value) (imp0 i : gmap string value) : Prop :=
  if truthy (media_spec BANNER bid)
  then is_Some (i !! "banner") ∧ i !! "video" = imp0 !! "video"
  else i !! "banner" = imp0 !! "banner"
       ∧ i !! "video"
         = if truthy (media_spec VIDEO bid)
           then Some (VObj (spread (media_spec VIDEO bid)))
           else imp0 !! "video".

(** The library's request builder starts the request from the
    impressions it is handed: they are its [imp] list. *)
Definition base_request_lists_imps : Prop :=
  ∀ imps bidderRequest context base,
    lib_buildRequest imps bidderRequest context = Ok base →
    base !! "imp" = Some (VArr imps).

(** A block of the request ([ext], [regs], [regs.ext]) as the library
    may leave it: absent (or falsy), or a plain object. *)
Definition plain_block (v : value) : Prop :=
  truthy v = false ∨ ∃ o, v = VObj o.

(** The fields of the request's extension block. *)
Definition ext_fields (request : gmap string value) : gmap string value :=
  match prop (VObj request) "ext" with
  | VObj o => o
  | _ => ∅
  end.

(** The library's request builder leaves [ext] absent or a plain
    object; likewise [regs] and [regs.ext]. *)
Definition base_ext_plain : Prop :=
  ∀ imps bidderRequest context base,
    lib_buildRequest imps bidderRequest context = Ok base →
    plain_block (prop (VObj base) "ext").

Definition base_regs_plain : Prop :=
  ∀ imps bidderRequest context base,
    lib_buildRequest imps bidderRequest context = Ok base →
    plain_block (prop (VObj base) "regs")
    ∧ plain_block (prop (prop (VObj base) "regs") "ext").

(** The library's builders return (they do not throw). *)
Definition base_builders_return : Prop :=
  (∀ bid context, ∃ imp0, lib_buildImp bid context = Ok imp0)
  ∧ (∀ imps bidderRequest context,
       ∃ base, lib_buildRequest imps bidderRequest context = Ok base).

(** A descriptor with a [mediaTypes] object whose banner spec, when it
    declares one, has a [sizes] list of size pairs (lists). *)
Definition descriptor_formed (bid : value) : Prop :=
  nullish (prop bid "mediaTypes") = false
  ∧ (truthy (media_spec BANNER bid) = true →
     ∃ sizes, prop (media_spec BANNER bid) "sizes" = VArr sizes
              ∧ Forall (λ size, isArray size = true) sizes).


(** [partnerParams.K] of a descriptor, and the conditions of the three
    scans. *)
Definition param (k : string) (bid : value) : value :=
  prop (prop bid "params") k.

Definition test_mode (bid : value) : Prop := param "testMode" bid = num 1.

Definition none_carrying (k : string) (bids : list value) : Prop :=
  Forall (λ bid, truthy (param k bid) = false) bids.

Definition first_carrying (k : string) (bids : list value) (bid : value) : Prop :=
  ∃ before after,
    bids = before ++ bid :: after
    ∧ none_carrying k before
    ∧ truthy (param k bid) = true.

(** The context's standardized first-party user identifier
    [ortb2.user.id]. *)
Definition first_party_user_id (bidderRequest : value) : value :=
  prop (prop (prop bidderRequest "ortb2") "user") "id".

(** [needle] occurs in [text]. *)
Definition contains (needle text : string) : Prop :=
  ∃ before after, text = before +:+ needle +:+ after.

(** Syncing is enabled by the sync options. *)
Definition sync_enabled (syncOptions : value) : Prop :=
  truthy (prop syncOptions "iframeEnabled") = true
  ∨ truthy (prop syncOptions "pixelEnabled") = true.

(** The applicable sections of the GPP argument, when it has any, are a
    list. *)
Definition sections_listed (gppConsent : value) : Prop :=
  nullish (get_opt gppConsent "applicableSections") = true
  ∨ isArray (get_opt gppConsent "applicableSections") = true.

(** The query parameters the cache contributes to the sync URL. *)
Definition cache_query (syncParams : gmap string value) : list string :=
  let field name k :=
    let v := prop (VObj syncParams) k in
    if truthy v then [name +:+ "=" +:+ encodeURIComponent NumberToString v]
    else [] in
  field "ssp_id" "sspId" ++ field "ssp_site_id" "siteId"
  ++ field "ssp_user_id" "sspUserId".

(** The first record of a seat group whose [bid] field is a non-empty
    list; [None] for a group whose [bid] field is missing, not a list
    or empty. *)
Definition first_record (seatbid : value) : option value :=
  match prop seatbid "bid" with
  | VArr (bid :: _) => Some bid
  | _ => None
  end.

Definition accepted_records (seatbids : list value) : list value :=
  omap first_record seatbids.

(** The seat groups and the first records of a response are objects
    (neither [null] nor [undefined]). *)
Definition seat_groups_formed (seatbids : list value) : Prop :=
  Forall (λ seatbid, nullish seatbid = false) seatbids
  ∧ Forall (λ bid, nullish bid = false) (accepted_records seatbids).

(** The list of normalized bids the specification assigns to a list of
    seat groups: in seat-group order, nothing for a group whose [bid]
    field is not a non-empty list, and for any other group the one bid
    mapped from its first record. *)
Inductive interprets (bidResp : value) : list value → list value → Prop :=
| interprets_nil : interprets bidResp [] []
| interprets_skip seatbid rest out :
    (∀ bid others, prop seatbid "bid" ≠ VArr (bid :: others)) →
    interprets bidResp rest out →
    interprets bidResp (seatbid :: rest) out
| interprets_take seatbid rest out bid others r :
    prop seatbid "bid" = VArr (bid :: others) →
    bidResponse bidResp bid = Ok r →
    interprets bidResp rest out →
    interprets bidResp (seatbid :: rest) (r :: out).

(** The media type of the normalized bid [r] is resolved from the
    markup-type code of the record [bid]. *)
Definition media_type_resolved (bid r : value) : Prop :=
  ∃ o, r = VObj o
    ∧ (prop bid "mtype" = num 1 → o !! "mediaType" = Some (VStr BANNER))
    ∧ (prop bid "mtype" = num 2 →
       o !! "mediaType" = Some (VStr VIDEO)
       ∧ o !! "vastXml" = Some (prop bid "adm"))
    ∧ (nullish (prop bid "mtype") = true →
       o !! "mediaType" = Some (VStr BANNER))
    ∧ (nullish (prop bid "mtype") = false →
       prop bid "mtype" ≠ num 1 → prop bid "mtype" ≠ num 2 →
       o !! "mediaType" = None).

(** ** Further notions *)

(** A value an array pattern can take elements from: a list or a
    string. *)
Definition iterable (v : value) : bool :=
  match v with
  | VArr _ | VStr _ => true
  | _ => false
  end.

(** The [sizes] of a banner spec are a list whose entries can be
    destructured. *)
Definition sizes_usable (banner : value) : Prop :=
  ∃ sizes,
    prop banner "sizes" = VArr sizes
    ∧ Forall (λ size, iterable size = true) sizes.

(** The format entry of a size given as a list: its first two elements
    as [w] and [h]. *)
Definition format_entry (size f : value) : Prop :=
  ∀ l, size = VArr l → f = obj [("w", index l 0); ("h", index l 1)].

(** The fields of a block of the request: those of a plain object,
    none for an absent (falsy) block. *)
Definition block_fields (v : value) : gmap string value :=
  match v with
  | VObj o => o
  | _ => ∅
  end.

(** The request object [build] returns around a payload. *)
Definition envelope (data : gmap string value) : value :=
  obj [("method", VStr "POST");
       ("url", VStr ENDPOINT_URL);
       ("data", VObj data);
       ("options", obj [("endpointCompression", VBool true)])].

(** The cache [build] stores for a first descriptor with [params]. *)
Definition cache_of (params bidderRequest : value) : gmap string value :=
  list_to_map
    [("sspId", prop params "sspId");
     ("siteId", prop params "siteId");
     ("sspUserId",
      if truthy (prop params "sspUserId") then prop params "sspUserId"
      else if truthy (first_party_user_id bidderRequest)
           then first_party_user_id bidderRequest
           else VNull)].

(** The body [interpretResponse] reads ([serverResponse &&
    serverResponse.body]) and the seat groups it loops over: those of
    the body's [seatbid] list, none when the body is falsy or has no
    such list. *)
Definition response_body (serverResponse : value) : value :=
  if truthy serverResponse then prop serverResponse "body" else serverResponse.

Definition seat_groups (serverResponse : value) : list value :=
  let bidResp := response_body serverResponse in
  if truthy bidResp then
    match prop bidResp "seatbid" with
    | VArr seatbids => seatbids
    | _ => []
    end
  else [].

(** The fields every normalized bid [r] carries, mapped from the record
    [bid] and the body [bidResp]. *)
Definition fields_mapped (bidResp bid r : value) : Prop :=
  ∃ o, r = VObj o
    ∧ o !! "requestId" = Some (prop bid "impid")
    ∧ o !! "cpm" = Some (prop bid "price")
    ∧ o !! "currency"
      = Some (if truthy (prop bidResp "cur") then prop bidResp "cur" else VStr "USD")
    ∧ o !! "width" = Some (prop bid "w")
    ∧ o !! "height" = Some (prop bid "h")
    ∧ o !! "ad" = Some (prop bid "adm")
    ∧ o !! "creativeId" = Some (prop bid "crid")
    ∧ o !! "netRevenue" = Some (VBool true)
    ∧ o !! "ttl" = Some (num 60)
    ∧ o !! "meta"
      = Some (obj [("advertiserDomains",
                    if truthy (prop bid "adomain") then prop bid "adomain"
                    else VArr [])]).

(** The optional keys of a normalized bid: [dealId] exactly for a
    truthy [dealid], [vastXml] exactly for the markup-type code 2. *)
Definition deal_mapped (bid r : value) : Prop :=
  ∃ o, r = VObj o
    ∧ o !! "dealId"
      = if truthy (prop bid "dealid") then Some (prop bid "dealid") else None.

Definition vast_mapped (bid r : value) : Prop :=
  ∃ o, r = VObj o
    ∧ (prop bid "mtype" = num 2 → o !! "vastXml" = Some (prop bid "adm"))
    ∧ (prop bid "mtype" ≠ num 2 → o !! "vastXml" = None).

(** The query string of a sync URL as its receiver reads it: split at
    each [&], and each piece at its first [=]. *)
Fixpoint split_on (sep : ascii) (s : string) : list string :=
  match s with
  | "" => [""]
  | String c rest =>
      if Ascii.eqb c sep then "" :: split_on sep rest
      else match split_on sep rest with
           | piece :: pieces => String c piece :: pieces
           | [] => [String c ""]
           end
  end.

Fixpoint param_name (p : string) : string :=
  match p with
  | "" => ""
  | String c rest => if Ascii.eqb c "=" then "" else String c (param_name rest)
  end.

Fixpoint param_value (p : string) : string :=
  match p with
  | "" => ""
  | String c rest => if Ascii.eqb c "=" then rest else param_value rest
  end.

Definition parse_query (q : string) : list (string * string) :=
  (λ p, (param_name p, param_value p)) <$> split_on "&" q.

(** A parameter as it is written into the query. *)
Definition render (p : string * string) : string := p.1 +:+ "=" +:+ p.2.

(** [c] occurs in [s]. *)
Fixpoint occurs (c : ascii) (s : string) : bool :=
  match s with
  | "" => false
  | String x rest => Ascii.eqb x c || occurs c rest
  end.

(** A string of unreserved characters and percent signs only: one that
    holds no delimiter of a URL or of its query. *)
Fixpoint url_safe (s : string) : bool :=
  match s with
  | "" => true
  | String c rest => (unreserved c || Ascii.eqb c "%") && url_safe rest
  end.

(** The GPP argument carries a string and a [length]-bearing list of
    applicable sections:
    [gppConsent?.gppString && gppConsent?.applicableSections?.length]. *)
Definition gpp_given (gppConsent : value) : bool :=
  truthy (get_opt gppConsent "gppString")
  && truthy (get_opt (get_opt gppConsent "applicableSections") "length").

Definition sections_of (gppConsent : value) : list value :=
  match prop gppConsent "applicableSections" with
  | VArr sections => sections
  | _ => []
  end.

(** The name/value pairs of the sync URL's query, in order: the privacy
    signals that are given, the cached identifiers that are truthy, and
    the [iframe_enabled] flag. *)
Definition query_pairs (syncParams : gmap string value)
    (syncOptions gdprConsent uspConsent gppConsent : value)
    : list (string * string) :=
  let enc := encodeURIComponent NumberToString in
  let cached name k :=
    let v := prop (VObj syncParams) k in
    if truthy v then [(name, enc v)] else [] in
  (if truthy gdprConsent then
     [("gdpr", if truthy (prop gdprConsent "gdprApplies") then "1" else "0");
      ("gdpr_consent",
       enc (if truthy (prop gdprConsent "consentString")
            then prop gdprConsent "consentString" else VStr ""))]
   else [])
  ++ (if truthy uspConsent then [("us_privacy", enc uspConsent)] else [])
  ++ (if gpp_given gppConsent then
        [("gpp", enc (prop gppConsent "gppString"));
         ("gpp_sid", enc (VStr (join NumberToString "," (sections_of gppConsent))))]
      else [])
  ++ cached "ssp_id" "sspId"
  ++ cached "ssp_site_id" "siteId"
  ++ cached "ssp_user_id" "sspUserId"
  ++ [("iframe_enabled",
       if truthy (prop syncOptions "iframeEnabled") then "true" else "false")].

(** The names of the query's parameters, by what is given: GDPR
    consent, a USP string, GPP string and sections, and the three
    cached identifiers. *)
Definition query_names (gdpr usp gpp sspId siteId sspUserId : bool) : list string :=
  (if gdpr then ["gdpr"; "gdpr_consent"] else [])
  ++ (if usp then ["us_privacy"] else [])
  ++ (if gpp then ["gpp"; "gpp_sid"] else [])
  ++ (if sspId then ["ssp_id"] else [])
  ++ (if siteId then ["ssp_site_id"] else [])
  ++ (if sspUserId then ["ssp_user_id"] else [])
  ++ ["iframe_enabled"].

(** The one sync [getUserSyncs] returns for a query string. *)
Definition sync_for (syncOptions : value) (q : string) : value :=
  obj [("type", VStr (if truthy (prop syncOptions "iframeEnabled")
                      then "iframe" else "image"));
       ("url", VStr ("https://ads.adsmartx.com/sync?" +:+ q))].

(** ** Sample inputs *)

(** Instances of the two number conversions for running the model on
    examples; they agree with the language on integers, on the empty
    string and on strings that are no numeric literal. *)
Definition sample_NumberToString (n : number) : string :=
  match n with
  | NaN => "NaN"
  | Inf negative => if negative then "-Infinity" else "Infinity"
  | Fin q => pretty (Qnum q)
  end.

Definition sample_StringToNumber (s : string) : number :=
  if String.eqb s "" then Fin 0 else NaN.

(** Modelled from the spec: the library's impression builder (absent
    from the adapter's sources) "populate[s] the protocol's base
    fields"; here an instance that sets the impression id alone, taken
    from the descriptor's correlation identifier.  What a library
    builder puts on the impression besides is left open: the theorems
    take the builder as a parameter ([filling_buildImp] is an instance
    that fills a format block). *)
Definition base_buildImp (bidRequest context : value) : result (gmap string value) :=
  Ok {[ "id" := prop bidRequest "bidId" ]}.

(** Modelled from the spec: the library's request builder (absent from
    the adapter's sources) starts the request from its "ordered list of
    impression objects". *)
Definition base_buildRequest (imps : list value) (bidderRequest context : value)
    : result (gmap string value) :=
  Ok {[ "imp" := VArr imps ]}.

(** A library impression builder that, besides the id, fills the video
    block from the declared video spec before the override runs: an
    instance of a builder that populates format blocks of its own. *)
Definition filling_buildImp (bidRequest context : value)
    : result (gmap string value) :=
  let video := get_opt (prop bidRequest "mediaTypes") VIDEO in
  Ok (if truthy video
      then <["video" := VObj (spread video)]> {[ "id" := prop bidRequest "bidId" ]}
      else {[ "id" := prop bidRequest "bidId" ]}).

Definition banner_spec : value :=
  obj [("sizes", VArr [VArr [num 300; num 250]; VArr [num 728; num 90]])].

Definition video_spec (w : value) : value :=
  obj [("mimes", VArr [VStr "video/mp4"]); ("w", w); ("h", num 480)].

Definition banner_bid : value :=
  obj [("bidder", VStr BIDDER_CODE);
       ("params", obj [("publisherId", VStr "12345")]);
       ("mediaTypes", obj [(BANNER, banner_spec)]);
       ("bidId", VStr "1abc")].

Definition video_bid : value :=
  obj [("bidder", VStr BIDDER_CODE);
       ("mediaTypes", obj [(VIDEO, video_spec (num 640))]);
       ("bidId", VStr "2bcd")].

Definition video_bid_zero_width : value :=
  obj [("bidder", VStr BIDDER_CODE);
       ("mediaTypes", obj [(VIDEO, video_spec (num 0))]);
       ("bidId", VStr "2bcd")].

Definition multi_format_bid : value :=
  obj [("bidder", VStr BIDDER_CODE);
       ("mediaTypes", obj [(BANNER, banner_spec); (VIDEO, video_spec (num 640))]);
       ("bidId", VStr "3cde")].

Definition bid_without_mediaTypes : value :=
  obj [("bidder", VStr BIDDER_CODE); ("bidId", VStr "4def")].


Definition bid_with_partner_params : value :=
  obj [("bidder", VStr BIDDER_CODE);
       ("params", obj [("testMode", num 1); ("sspId", VStr "ssp123");
                       ("siteId", VStr "site456"); ("sspUserId", VStr "A")]);
       ("mediaTypes", obj [(BANNER, banner_spec)]);
       ("bidId", VStr "6fab")].

Definition context_plain : value := obj [("timeout", num 3000)].

Definition context_gdpr : value :=
  obj [("timeout", num 3000);
       ("gdprConsent", obj [("gdprApplies", VBool true)]);
       ("uspConsent", VStr "1YNN")].

Definition context_bids : value :=
  obj [("timeout", num 3000);
       ("bids", VArr [banner_bid; bid_with_partner_params])].


Definition context_first_party : value :=
  obj [("timeout", num 3000);
       ("ortb2", obj [("user", obj [("id", VStr "B")])])].

Definition stored_params : gmap string value :=
  list_to_map [("sspId", VStr "ssp789"); ("siteId", VStr "site012");
               ("sspUserId", VStr "user345")].

Definition sample_seatbids : list value :=
  [ obj [("bid", VArr [])];
    obj [("bid", VArr [obj [("id", VStr "1abc"); ("impid", VStr "1abc");
                            ("price", VNum (Fin (Q2Qc (3 # 2))));
                            ("adm", VStr "<div>Ad1</div>"); ("mtype", num 1)];
                       obj [("id", VStr "extra"); ("impid", VStr "1abc")]])];
    obj [("bid", VStr "invalid")];
    obj [("bid", VArr [obj [("id", VStr "2bcd"); ("impid", VStr "2bcd");
                            ("adm", VStr "<VAST/>"); ("mtype", num 2)]])];
    obj [("bid", VArr [obj [("id", VStr "3cde"); ("impid", VStr "3cde");
                            ("mtype", num 999)]])];
    obj [("seat", VStr "s")] ].

Definition sample_response : value :=
  obj [("body", obj [("id", VStr "2def"); ("seatbid", VArr sample_seatbids)])].

Definition bid_with_floor : value :=
  obj [("bidder", VStr BIDDER_CODE);
       ("params", obj [("bidfloor", VNum (Fin (Q2Qc (1 # 2))))]);
       ("mediaTypes", obj [(BANNER, banner_spec)]);
       ("bidId", VStr "7abc")].

(** A library request builder that has set first-party blocks of its
    own, for running the override on a request that carries some. *)
Definition rich_buildRequest (imps : list value) (bidderRequest context : value)
    : result (gmap string value) :=
  Ok (list_to_map
        [("imp", VArr imps);
         ("site", obj [("page", VStr "https://example.com/")]);
         ("cur", VArr [VStr "EUR"]);
         ("regs", obj [("coppa", num 1); ("ext", obj [("dsa", num 2)])]);
         ("user", obj [("id", VStr "B")])]).

Definition context_usp : value :=
  obj [("timeout", num 3000); ("uspConsent", VStr "1YNN")].

Definition context_gdpr_only : value :=
  obj [("timeout", num 3000);
       ("gdprConsent", obj [("gdprApplies", VBool true); ("consentString", VStr "CO")])].

Definition deal_seatbids : list value :=
  [ obj [("bid", VArr [obj [("impid", VStr "1abc"); ("price", num 2);
                            ("w", num 300); ("h", num 250);
                            ("adm", VStr "<div>Ad1</div>"); ("crid", VStr "c1");
                            ("mtype", num 1); ("dealid", VStr "deal123");
                            ("adomain", VArr [VStr "example.com"])]])];
    obj [("bid", VArr [obj [("impid", VStr "2bcd"); ("adm", VStr "<VAST/>");
                            ("mtype", num 2)]])] ].

Definition deal_response : value :=
  obj [("body", obj [("cur", VStr "EUR"); ("seatbid", VArr deal_seatbids)])].

Definition response_null_group : value :=
  obj [("body", obj [("seatbid", VArr (deal_seatbids ++ [VNull]))])].

Definition sync_iframe : value := obj [("iframeEnabled", VBool true)].

Definition sync_pixel : value := obj [("pixelEnabled", VBool true)].

Definition gdpr_without_string : value := obj [("gdprApplies", VBool false)].

Definition gpp_sample : value :=
  obj [("gppString", VStr "GPP_STRING"); ("applicableSections", VArr [num 7; num 8])].

Definition gpp_sections_text : value :=
  obj [("gppString", VStr "GPP_STRING"); ("applicableSections", VStr "7,8")].

(** A cache whose values hold query delimiters. *)
Definition hostile_params : gmap string value :=
  list_to_map [("sspId", VStr "a&gdpr=0"); ("siteId", VStr "s 1");
               ("sspUserId", VNull)].

Definition bid_with_site_only : value :=
  obj [("bidder", VStr BIDDER_CODE);
       ("params", obj [("siteId", VStr "site456")]);
       ("mediaTypes", obj [(BANNER, banner_spec)]);
       ("bidId", VStr "8bcd")].

Definition gdpr_sample : value :=
  obj [("gdprApplies", VBool true); ("consentString", VStr "CO/NS")].

(** A library request builder that has set an extension block of its
    own. *)
Definition ext_buildRequest (imps : list value) (bidderRequest context : value)
    : result (gmap string value) :=
  Ok (list_to_map
        [("imp", VArr imps);
         ("ext", obj [("source", VStr "host"); ("sspId", VStr "stale")])]).

(** ** Properties *)

Lemma bind_Ok {A B} (m : result A) (f : A → result B) (b : B) :
  m ≫= f = Ok b ↔ ∃ a, m = Ok a ∧ f a = Ok b.
Proof.
  destruct m as [a|e]; cbn.
  - split; [by exists a | by intros (a' & [= <-] & H)].
  - split; [done | by intros (a' & [=] & _)].
Qed.

Lemma mapM_Ok {A B} (f : A → result B) (l : list A) (k : list B) :
  mapM f l = Ok k ↔ Forall2 (λ x y, f x = Ok y) l k.
Proof.
  revert k. induction l as [|x l IH]; intros k; cbn.
  - split; [intros [= <-]; constructor | by inversion 1].
  - rewrite bind_Ok. split.
    + intros (y & Hy & H). apply bind_Ok in H as (k' & Hk' & [= <-]).
      constructor; [done | by apply IH].
    + inversion 1 as [|x' y l' k' Hy Hk]; subst.
      exists y. split; [done|]. apply bind_Ok. exists k'.
      split; [by apply IH | done].
Qed.

Lemma get_Ok (v : value) (k : string) :
  nullish v = false → get v k = Ok (prop v k).
Proof. unfold get. by intros ->. Qed.

Lemma truthy_not_nullish (v : value) : truthy v = true → nullish v = false.
Proof. by destruct v. Qed.

Lemma get_opt_prop (v : value) (k : string) :
  nullish v = false → get_opt v k = prop v k.
Proof. unfold get_opt. by intros ->. Qed.

Lemma get_opt_truthy (v : value) (k : string) :
  truthy (get_opt v k) = true → nullish v = false ∧ get_opt v k = prop v k.
Proof. unfold get_opt. by destruct (nullish v). Qed.

Lemma Q2Qc_inject_Z_eq (z z' : Z) :
  Qeq_bool (Q2Qc (inject_Z z)) (inject_Z z') = true ↔ z = z'.
Proof.
  rewrite Qeq_bool_iff. simpl. rewrite Qred_correct.
  split; [apply inject_Z_injective | by intros ->].
Qed.

Lemma strict_eq_num_spec (v : value) (z : Z) :
  strict_eq_num v z = true ↔ v = num z.
Proof.
  unfold num. split.
  - destruct v as [| | |[| |q]| | |]; simpl; try done.
    intros H%Qeq_bool_iff. do 2 f_equal. apply Qc_is_canon.
    simpl. by rewrite Qred_correct.
  - intros ->. by apply Q2Qc_inject_Z_eq.
Qed.

Lemma strict_eq_num_length (l : list value) :
  strict_eq_num (prop (VArr l) "length") 0 = bool_decide (l = []).
Proof.
  change (prop (VArr l) "length") with (length_value (length l)).
  unfold length_value, num, strict_eq_num.
  destruct l as [|x l]; cbn [length].
  - by apply Q2Qc_inject_Z_eq.
  - apply not_true_is_false. rewrite Q2Qc_inject_Z_eq. lia.
Qed.

Lemma mimes_check (m : value) :
  negb (truthy m) || negb (isArray m) || strict_eq_num (prop m "length") 0 = true
  ↔ (∀ l, m = VArr l → l = []).
Proof.
  destruct m as [| |b|n|s|l|o];
    try (split; [by intros _ l [=] | intros _; cbn [isArray negb]; by rewrite orb_true_r]).
  rewrite strict_eq_num_length. cbn [truthy isArray negb orb].
  rewrite bool_decide_eq_true. split.
  - by intros -> l' [= <-].
  - intros H. by apply H.
Qed.

Lemma dimension_check (d : value) :
  negb (nullish d) && le_zero NumberToString StringToNumber d = true
  ↔ dimension_rejected d.
Proof.
  unfold dimension_rejected. rewrite andb_true_iff, negb_true_iff.
  split.
  - intros [Hn Hle]. by destruct d.
  - intros (H1 & H2 & Hle). by destruct d.
Qed.

(** On a finite number the rejection of a dimension is the comparison
    of rationals. *)
Lemma dimension_rejected_number (q : Qc) :
  dimension_rejected (VNum (Fin q)) ↔ (q <= 0)%Qc.
Proof.
  unfold dimension_rejected, le_zero. cbn [ToNumber].
  rewrite Qle_bool_iff. unfold Qcle. by split; [intros (_ & _ & ?)|].
Qed.

(** C1. For a descriptor (an object) that declares a video spec,
    [isBidRequestValid] returns [false] exactly when the spec's [mimes]
    is missing, not a list or an empty list, or its width is present,
    non-null and [<= 0], or its height is; a spec with a non-empty
    [mimes] list and null or absent width and height is accepted; and a
    descriptor that declares no video spec (also one without
    [mediaTypes]) is accepted.  The validator returns a boolean in all
    these cases. *)
Theorem isBidRequestValid_spec (bid : value) :
  nullish bid = false →
  (∃ b, isBidRequestValid bid = Ok b)
  ∧ (declares_video bid →
     (isBidRequestValid bid = Ok false ↔
        mimes_unusable (video_of bid)
        ∨ dimension_rejected (prop (video_of bid) "w")
        ∨ dimension_rejected (prop (video_of bid) "h"))
     ∧ (¬ mimes_unusable (video_of bid) →
        nullish (prop (video_of bid) "w") = true →
        nullish (prop (video_of bid) "h") = true →
        isBidRequestValid bid = Ok true))
  ∧ (¬ declares_video bid → isBidRequestValid bid = Ok true).
Proof.
  intros Hbid. unfold isBidRequestValid, declares_video, video_of.
  rewrite (get_Ok _ _ Hbid). cbn [mbind result_bind].
  set (mt := prop bid "mediaTypes").
  destruct (truthy (get_opt mt VIDEO)) eqn:Hv.
  2:{ split; [by eexists|]. by split. }
  apply get_opt_truthy in Hv as [Hmt Hv']. rewrite Hv', (get_Ok _ _ Hmt).
  cbn [mbind result_bind]. set (video := prop mt VIDEO).
  pose proof (mimes_check (prop video "mimes")) as Hm.
  pose proof (dimension_check (prop video "w")) as Hw.
  pose proof (dimension_check (prop video "h")) as Hh.
  unfold mimes_unusable.
  destruct (negb (truthy (prop video "mimes")) || negb (isArray (prop video "mimes"))
            || strict_eq_num (prop (prop video "mimes") "length") 0).
  { split; [by eexists|]. split; [|done]. intros _. split.
    - split; [|done]. intros _. left. by apply Hm.
    - intros Hn. exfalso. apply Hn. by apply Hm. }
  destruct (negb (nullish (prop video "w"))
            && le_zero NumberToString StringToNumber (prop video "w")) eqn:Ew.
  { split; [by eexists|]. split; [|done]. intros _. split.
    - split; [|done]. intros _. right; left. by apply Hw.
    - intros _ Hnw. by rewrite Hnw in Ew. }
  destruct (negb (nullish (prop video "h"))
            && le_zero NumberToString StringToNumber (prop video "h")) eqn:Eh.
  { split; [by eexists|]. split; [|done]. intros _. split.
    - split; [|done]. intros _. right; right. by apply Hh.
    - intros _ _ Hnh. by rewrite Hnh in Eh. }
  split; [by eexists|]. split; [|done]. intros _. split; [|done].
  split; [done|]. intros [H|[H|H]].
  - apply Hm in H. done.
  - apply Hw in H. done.
  - apply Hh in H. done.
Qed.

Lemma get_Ok_inv (v : value) (k : string) (x : value) :
  get v k = Ok x → nullish v = false ∧ x = prop v k.
Proof. unfold get. destruct (nullish v); [done | by intros [= <-]]. Qed.

Lemma prop_insert_eq (o : gmap string value) (k : string) (v : value) :
  prop (VObj (<[k := v]> o)) k = v.
Proof. cbn [prop]. by rewrite lookup_insert_eq. Qed.

Lemma prop_insert_ne (o : gmap string value) (k k' : string) (v : value) :
  k ≠ k' → prop (VObj (<[k := v]> o)) k' = prop (VObj o) k'.
Proof. intros. cbn [prop]. by rewrite lookup_insert_ne. Qed.

Lemma obj_cons (k : string) (v : value) (l : list (string * value)) :
  obj ((k, v) :: l) = VObj (<[k := v]> (list_to_map l)).
Proof. done. Qed.

Lemma obj_nil : obj [] = VObj ∅.
Proof. done. Qed.

Lemma logical_or_object (o : gmap string value) (b : value) :
  logical_or (VObj o) b = VObj o.
Proof. done. Qed.

Lemma prop_defined_object (v : value) (k : string) :
  prop v k ≠ VUndefined → k ≠ "length" → ∃ o, v = VObj o.
Proof.
  intros Hd Hk. destruct v as [| | | |s|l|o]; try done; [| |by eexists].
  all: cbn [prop] in Hd; apply String.eqb_neq in Hk; by rewrite Hk in Hd.
Qed.

Lemma truthy_defined (v : value) : truthy v = true → v ≠ VUndefined.
Proof. by intros H ->. Qed.

Lemma has_test_mode_spec (bid : value) (b : bool) :
  has_test_mode bid = Ok b → (b = true ↔ test_mode bid).
Proof.
  unfold has_test_mode, test_mode, param. intros H.
  apply bind_Ok in H as (p & [_ ->]%get_Ok_inv & [= <-]).
  rewrite andb_true_iff, strict_eq_num_spec. split; [by intros [_ ?]|].
  intros H. split; [|done].
  destruct (prop_defined_object (prop bid "params") "testMode") as [o ->];
    [by rewrite H|done|done].
Qed.

Lemma carries_spec (k : string) (bid : value) (b : bool) :
  k ≠ "length" →
  carries k bid = Ok b → b = truthy (param k bid).
Proof.
  unfold carries, param. intros Hk H.
  apply bind_Ok in H as (p & [_ ->]%get_Ok_inv & [= <-]).
  destruct (truthy (prop (prop bid "params") k)) eqn:E;
    [|by rewrite andb_false_r].
  apply truthy_defined in E.
  by destruct (prop_defined_object _ _ E Hk) as [o ->].
Qed.

Lemma carries_object (k : string) (bid : value) :
  truthy (param k bid) = true → truthy bid = true.
Proof.
  unfold param. intros H%truthy_defined.
  assert (prop bid "params" ≠ VUndefined) as Hp.
  { intros E. rewrite E in H. by destruct (String.eqb k "length"). }
  by destruct (prop_defined_object _ _ Hp) as [o ->].
Qed.

Lemma some_has_test_mode_spec (bids : list value) (b : bool) :
  some has_test_mode bids = Ok b →
  (b = true ∧ Exists test_mode bids) ∨ (b = false ∧ Forall (λ x, ¬ test_mode x) bids).
Proof.
  induction bids as [|x bids IH]; cbn [some].
  - intros [= <-]. right. by split.
  - intros H. apply bind_Ok in H as (bx & Hx & H).
    apply has_test_mode_spec in Hx. destruct bx.
    + injection H as <-. left. split; [done|]. left. by apply Hx.
    + destruct (IH H) as [[-> Hex]|[-> Hall]].
      * left. split; [done|]. by right.
      * right. split; [done|]. constructor; [|done].
        intros Ht. by apply Hx in Ht.
Qed.

Lemma find_carries_spec (k : string) (bids : list value) (x : value) :
  k ≠ "length" →
  find (carries k) bids = Ok x →
  (truthy x = true ∧ first_carrying k bids x)
  ∨ (x = VUndefined ∧ none_carrying k bids).
Proof.
  intros Hk. induction bids as [|y bids IH]; cbn [find].
  - intros [= <-]. right. split; [done|constructor].
  - intros H. apply bind_Ok in H as (by' & Hy & H).
    apply carries_spec in Hy; [|done]. subst by'.
    destruct (truthy (param k y)) eqn:Ey.
    + injection H as <-. left. split; [by eapply carries_object|].
      exists [], bids. split; [done|]. split; [constructor|done].
    + destruct (IH H) as [[Hx (pre & post & -> & Hpre & Hc)]|[-> Hnone]].
      * left. split; [done|]. exists (y :: pre), post.
        split; [done|]. split; [by constructor|done].
      * right. split; [done|]. by constructor.
Qed.

Lemma ext_fields_insert_ext (r o : gmap string value) :
  ext_fields (<["ext" := VObj o]> r) = o.
Proof. unfold ext_fields. by rewrite prop_insert_eq. Qed.

Lemma plain_block_logical_or (v : value) :
  plain_block v →
  ∃ o, logical_or v (obj []) = VObj o
       ∧ o = match v with VObj o' => o' | _ => ∅ end.
Proof.
  unfold logical_or. intros [Hf|[o ->]].
  - rewrite Hf. exists ∅. split; [done|]. by destruct v.
  - by exists o.
Qed.

Lemma set_ext_plain (r : gmap string value) (k : string) (v : value) :
  plain_block (prop (VObj r) "ext") →
  set_ext r k v = Ok (<["ext" := VObj (<[k := v]> (ext_fields r))]> r).
Proof.
  intros (o & Ho & Eo)%plain_block_logical_or. unfold set_ext, ext_fields.
  cbv zeta. rewrite Ho. cbn. by rewrite Eo.
Qed.

Lemma plain_block_object (o : gmap string value) : plain_block (VObj o).
Proof. right. by eexists. Qed.

(** The outcome of the three scans on a request whose extension block
    is absent or a plain object. *)
Lemma scan_bids_spec (r3 r6 : gmap string value) (bidderRequest : value)
    (bids : list value) :
  plain_block (prop (VObj r3) "ext") →
  prop bidderRequest "bids" = VArr bids →
  scan_bids r3 bidderRequest = Ok r6 →
  (∀ k, k ≠ "ext" → r6 !! k = r3 !! k)
  ∧ ((Exists test_mode bids ∧ ext_fields r6 !! "test" = Some (num 1))
     ∨ (Forall (λ x, ¬ test_mode x) bids
        ∧ ext_fields r6 !! "test" = ext_fields r3 !! "test"))
  ∧ (∀ k, k = "sspId" ∨ k = "siteId" →
     (∃ bid, first_carrying k bids bid ∧ ext_fields r6 !! k = Some (param k bid))
     ∨ (none_carrying k bids ∧ ext_fields r6 !! k = ext_fields r3 !! k))
  ∧ ((Forall (λ x, ¬ test_mode x) bids ∧ none_carrying "sspId" bids
      ∧ none_carrying "siteId" bids) → r6 !! "ext" = r3 !! "ext").
Proof.
  intros Hplain Hbids. unfold scan_bids. rewrite Hbids. intros H.
  apply bind_Ok in H as (b1 & Hb1 & H).
  apply bind_Ok in H as (r4 & Hr4 & H).
  apply bind_Ok in H as (x & Hx & H).
  apply bind_Ok in H as (r5 & Hr5 & H).
  apply bind_Ok in H as (y & Hy & H).
  apply some_has_test_mode_spec in Hb1.
  apply find_carries_spec in Hx; [|done].
  apply find_carries_spec in Hy; [|done].
  set (e0 := ext_fields r3).
  assert (∃ e4, (∀ k, k ≠ "ext" → r4 !! k = r3 !! k)
                ∧ plain_block (prop (VObj r4) "ext") ∧ ext_fields r4 = e4
                ∧ e4 = (if b1 then <["test" := num 1]> e0 else e0)
                ∧ (b1 = false → r4 = r3))
    as (e4 & K4 & P4 & E4 & D4 & U4).
  { destruct b1.
    - rewrite set_ext_plain in Hr4 by done. injection Hr4 as <-.
      eexists. split; [by intros k ?; rewrite lookup_insert_ne|].
      rewrite prop_insert_eq, ext_fields_insert_ext.
      split; [apply plain_block_object|]. by split.
    - injection Hr4 as <-. by exists e0. }
  assert (∃ e5, (∀ k, k ≠ "ext" → r5 !! k = r4 !! k)
                ∧ plain_block (prop (VObj r5) "ext") ∧ ext_fields r5 = e5
                ∧ e5 = (if truthy x then <["sspId" := param "sspId" x]> e4 else e4)
                ∧ (truthy x = false → r5 = r4))
    as (e5 & K5 & P5 & E5 & D5 & U5).
  { destruct (truthy x).
    - rewrite set_ext_plain in Hr5 by done. injection Hr5 as <-.
      eexists. split; [by intros k ?; rewrite lookup_insert_ne|].
      rewrite prop_insert_eq, ext_fields_insert_ext, E4.
      split; [apply plain_block_object|]. by split.
    - injection Hr5 as <-. by exists e4. }
  assert (∃ e6, (∀ k, k ≠ "ext" → r6 !! k = r5 !! k)
                ∧ ext_fields r6 = e6
                ∧ e6 = (if truthy y then <["siteId" := param "siteId" y]> e5 else e5)
                ∧ (truthy y = false → r6 = r5))
    as (e6 & K6 & E6 & D6 & U6).
  { destruct (truthy y).
    - rewrite set_ext_plain in H by done. injection H as <-.
      eexists. split; [by intros k ?; rewrite lookup_insert_ne|].
      rewrite ext_fields_insert_ext, E5. by split.
    - injection H as <-. by exists e5. }
  rewrite E6.
  assert (e6 !! "test" = if b1 then Some (num 1) else e0 !! "test") as T6.
  { rewrite D6, D5, D4.
    destruct (truthy y), (truthy x), b1;
      by rewrite ?lookup_insert_eq, ?lookup_insert_ne, ?lookup_insert_eq by done. }
  assert (e6 !! "sspId" = if truthy x then Some (param "sspId" x) else e0 !! "sspId")
    as S6.
  { rewrite D6, D5, D4.
    destruct (truthy y), (truthy x), b1;
      by rewrite ?lookup_insert_eq, ?lookup_insert_ne, ?lookup_insert_eq by done. }
  assert (e6 !! "siteId" = if truthy y then Some (param "siteId" y) else e0 !! "siteId")
    as I6.
  { rewrite D6, D5, D4.
    destruct (truthy y), (truthy x), b1;
      by rewrite ?lookup_insert_eq, ?lookup_insert_ne, ?lookup_insert_eq by done. }
  split; [by intros k Hk; rewrite K6, K5, K4|]. split; [|split].
  - rewrite T6. destruct Hb1 as [[-> ?]|[-> ?]]; [by left|by right].
  - intros k [->| ->].
    + rewrite S6. destruct Hx as [[-> ?]|[-> ?]]; [left; by eexists|by right].
    + rewrite I6. destruct Hy as [[-> ?]|[-> ?]]; [left; by eexists|by right].
  - intros (Ht & Hs & Hi).
    assert (b1 = false) as ->.
    { destruct Hb1 as [[_ Hex]|[? _]]; [|done].
      apply Exists_exists in Hex as (z & Hz & Tz).
      rewrite Forall_forall in Ht. by destruct (Ht z Hz). }
    assert (∀ k z, none_carrying k bids → first_carrying k bids z → False) as Hno.
    { intros k z Hn (pre & post & -> & _ & Hc).
      apply Forall_app in Hn as [_ Hn]. apply Forall_cons in Hn as [Hn _].
      congruence. }
    assert (truthy x = false) as Tx.
    { destruct Hx as [[_ Hf]|[-> _]]; [|done]. by destruct (Hno _ _ Hs Hf). }
    assert (truthy y = false) as Ty.
    { destruct Hy as [[_ Hf]|[-> _]]; [|done]. by destruct (Hno _ _ Hi Hf). }
    by rewrite (U6 Ty), (U5 Tx), U4.
Qed.

Lemma add_gdpr_lookup (r : gmap string value) (bidderRequest : value) (k : string) :
  k ≠ "regs" → k ≠ "user" →
  add_gdpr r bidderRequest !! k = r !! k.
Proof.
  intros. unfold add_gdpr. cbv zeta.
  destruct (truthy (prop bidderRequest "gdprConsent")); [|done].
  by rewrite !lookup_insert_ne.
Qed.

Lemma add_usp_lookup (r r' : gmap string value) (bidderRequest : value) (k : string) :
  add_usp r bidderRequest = Ok r' → k ≠ "regs" → r' !! k = r !! k.
Proof.
  unfold add_usp. cbv zeta. intros H Hk.
  destruct (truthy (prop bidderRequest "uspConsent")); [|by injection H as <-].
  apply bind_Ok in H as (ext2 & _ & H). apply bind_Ok in H as (regs2 & _ & [= <-]).
  by rewrite lookup_insert_ne.
Qed.

Lemma request_Ok_inv buildRequest (imps : list value) (bidderRequest context : value)
    (r : gmap string value) :
  request buildRequest imps bidderRequest context = Ok r →
  ∃ base r3 r6,
    buildRequest imps bidderRequest context = Ok base
    ∧ (∀ k, k ≠ "cur" → k ≠ "tmax" → k ≠ "test" → r3 !! k = base !! k)
    ∧ scan_bids r3 bidderRequest = Ok r6
    ∧ add_usp (add_gdpr r6 bidderRequest) bidderRequest = Ok r.
Proof.
  unfold request. intros H.
  apply bind_Ok in H as (base & Hbase & H). cbv zeta in H.
  apply bind_Ok in H as (timeout & _ & H).
  apply bind_Ok in H as (r6 & Hr6 & H).
  eexists base, _, r6. split; [done|]. split; [|by split].
  intros k ? ? ?. by rewrite !lookup_insert_ne.
Qed.

Lemma buildRequests_Ok_inv (validBidRequests : list value) (bidderRequest : value)
    (syncParams : gmap string value) (out : value) :
  fst (buildRequests validBidRequests bidderRequest syncParams) = Ok out →
  ∃ imps data,
    imps = omap built_impression validBidRequests
    ∧ request lib_buildRequest (VObj <$> imps) bidderRequest converter_context = Ok data
    ∧ prop out "data" = VObj data.
Proof.
  unfold buildRequests.
  match goal with |- context [match ?s with Ok _ => _ | Throw _ => _ end] =>
    destruct s as [sp|e]; [|done] end.
  cbn [fst]. intros H. apply bind_Ok in H as (data & Hdata & [= <-]).
  unfold toORTB in Hdata. cbv zeta in Hdata.
  by exists (omap built_impression validBidRequests), data.
Qed.

Lemma json_members_lookup (o : gmap string value) (k : string) :
  json_members o !! k
  = match o !! k with
    | Some v => if is_undefined v then None else Some v
    | None => None
    end.
Proof.
  unfold json_members. rewrite map_lookup_filter.
  destruct (o !! k) as [v|]; [|done]. cbn.
  destruct (is_undefined v); [by rewrite option_guard_False|].
  by rewrite option_guard_True.
Qed.

(** C6 (as the code has it). Whenever the context carries GDPR consent
    information (any truthy value, an object in particular), the
    request [build] returns has a [regs.ext] block whose [gdpr] field
    is 1 if [gdprApplies] is truthy and 0 otherwise, and a [user.ext]
    block whose [consent] key holds the raw consent string.  When the
    consent string is undefined the key is set all the same and holds
    [undefined]: no empty string is put in its place, and the key is
    not a member of the block's JSON serialization. *)
Theorem build_gdpr_blocks (validBidRequests : list value) (bidderRequest : value)
    (syncParams : gmap string value) (out : value) :
  fst (buildRequests validBidRequests bidderRequest syncParams) = Ok out →
  truthy (prop bidderRequest "gdprConsent") = true →
  ∃ regs_ext user_ext,
    prop (prop (prop out "data") "regs") "ext" = VObj regs_ext
    ∧ regs_ext !! "gdpr"
      = Some (if truthy (prop (prop bidderRequest "gdprConsent") "gdprApplies")
              then num 1 else num 0)
    ∧ prop (prop (prop out "data") "user") "ext" = VObj user_ext
    ∧ user_ext !! "consent"
      = Some (prop (prop bidderRequest "gdprConsent") "consentString")
    ∧ (prop (prop bidderRequest "gdprConsent") "consentString" = VUndefined →
       user_ext !! "consent" = Some VUndefined
       ∧ json_members user_ext !! "consent" = None).
Proof.
  intros (imps & data & _ & Hdata & ->)%buildRequests_Ok_inv Hg.
  apply request_Ok_inv in Hdata as (base & r3 & r6 & _ & _ & _ & H).
  unfold add_gdpr, add_usp in H. rewrite Hg in H. cbv zeta in H.
  set (g := if truthy (prop (prop bidderRequest "gdprConsent") "gdprApplies")
            then num 1 else num 0) in *.
  set (cs := prop (prop bidderRequest "gdprConsent") "consentString") in *.
  assert (∀ user_ext : gmap string value,
            user_ext !! "consent" = Some cs →
            cs = VUndefined →
            user_ext !! "consent" = Some VUndefined
            ∧ json_members user_ext !! "consent" = None) as Hjson.
  { intros user_ext Hu Hcs. rewrite json_members_lookup, Hu, Hcs. by split. }
  destruct (truthy (prop bidderRequest "uspConsent")).
  - rewrite prop_insert_ne, prop_insert_eq in H by done.
    rewrite !obj_cons in H.
    rewrite logical_or_object, prop_insert_eq, logical_or_object in H.
    cbn [set_prop mbind result_bind] in H. injection H as <-.
    rewrite prop_insert_eq, prop_insert_eq.
    rewrite prop_insert_ne, prop_insert_eq, prop_insert_eq by done.
    eexists _, _. split; [done|].
    rewrite lookup_insert_ne, lookup_insert_eq by done. split; [done|].
    split; [done|]. split; [by rewrite lookup_insert_eq|].
    apply Hjson. by rewrite lookup_insert_eq.
  - injection H as <-. rewrite !obj_cons.
    rewrite prop_insert_ne, !prop_insert_eq by done.
    eexists _, _. split; [done|]. rewrite lookup_insert_eq. split; [done|].
    split; [done|]. split; [by rewrite lookup_insert_eq|].
    apply Hjson. by rewrite lookup_insert_eq.
Qed.

(** C9. The extension block of the built request comes from the
    context's [bids] list alone: when the context has no [bids] array,
    the request's [ext] entry is exactly what the library's builder
    left (absent when it left none), whatever [testMode], [sspId] or
    [siteId] the descriptors of the descriptor list carry. *)
Theorem build_ext_untouched_without_context_bids
    (validBidRequests : list value) (bidderRequest : value)
    (syncParams : gmap string value) (out : value) :
  fst (buildRequests validBidRequests bidderRequest syncParams) = Ok out →
  isArray (prop bidderRequest "bids") = false →
  ∃ imps base data,
    lib_buildRequest imps bidderRequest converter_context = Ok base
    ∧ prop out "data" = VObj data
    ∧ data !! "ext" = base !! "ext".
Proof.
  intros (imps & data & _ & Hdata & ->)%buildRequests_Ok_inv Hb.
  apply request_Ok_inv in Hdata as (base & r3 & r6 & Hbase & K3 & Hscan & Husp).
  exists (VObj <$> imps), base, data. split; [done|]. split; [done|].
  rewrite (add_usp_lookup _ _ _ _ Husp), add_gdpr_lookup by done.
  unfold scan_bids in Hscan.
  destruct (prop bidderRequest "bids"); try done; injection Hscan as <-; by apply K3.
Qed.

(** C7 (as the code has it). When the context's [bids] list is an
    array, the three extension fields of the built request are set from
    that list (not from the descriptor-list argument): [ext.test] is 1
    if any entry carries [params.testMode === 1]; [ext.sspId] is the
    [sspId] of the first entry, in list order, carrying a truthy
    [sspId], and likewise [ext.siteId]; a field whose scan matches no
    entry is as the library's builder left it, and so absent when the
    library set none.  The library's builder is taken to leave [ext]
    absent or a plain object. *)
Theorem build_ext_scans_context_bids
    (validBidRequests : list value) (bidderRequest : value)
    (syncParams : gmap string value) (out : value) (bids : list value) :
  base_ext_plain →
  fst (buildRequests validBidRequests bidderRequest syncParams) = Ok out →
  prop bidderRequest "bids" = VArr bids →
  ∃ imps base data,
    lib_buildRequest imps bidderRequest converter_context = Ok base
    ∧ prop out "data" = VObj data
    ∧ ((Exists test_mode bids ∧ ext_fields data !! "test" = Some (num 1))
       ∨ (Forall (λ bid, ¬ test_mode bid) bids
          ∧ ext_fields data !! "test" = ext_fields base !! "test"))
    ∧ (∀ k, k = "sspId" ∨ k = "siteId" →
       (∃ bid, first_carrying k bids bid
               ∧ ext_fields data !! k = Some (param k bid))
       ∨ (none_carrying k bids ∧ ext_fields data !! k = ext_fields base !! k))
    ∧ (Forall (λ bid, ¬ test_mode bid) bids ∧ none_carrying "sspId" bids
       ∧ none_carrying "siteId" bids →
       data !! "ext" = base !! "ext").
Proof.
  intros Hlib (imps & data & _ & Hdata & ->)%buildRequests_Ok_inv Hbids.
  apply request_Ok_inv in Hdata as (base & r3 & r6 & Hbase & K3 & Hscan & Husp).
  exists (VObj <$> imps), base, data. split; [done|]. split; [done|].
  pose proof (Hlib _ _ _ _ Hbase) as Pext.
  assert (prop (VObj r3) "ext" = prop (VObj base) "ext") as E3.
  { cbn [prop]. by rewrite K3. }
  assert (ext_fields r3 = ext_fields base) as F3.
  { unfold ext_fields. by rewrite E3. }
  assert (ext_fields data = ext_fields r6) as F6.
  { unfold ext_fields. cbn [prop].
    by rewrite (add_usp_lookup _ _ _ _ Husp), add_gdpr_lookup. }
  rewrite <- E3 in Pext.
  destruct (scan_bids_spec _ _ _ _ Pext Hbids Hscan) as (_ & Ht & Hk & Hnone).
  rewrite F6, <- F3. split; [done|]. split; [done|]. intros Hno.
  rewrite (add_usp_lookup _ _ _ _ Husp), add_gdpr_lookup by done.
  rewrite (Hnone Hno). by apply K3.
Qed.

Lemma append_assoc (a b c : string) : (a +:+ b) +:+ c = a +:+ (b +:+ c).
Proof.
  induction a as [|x a IH]; [done|].
  change (String x ((a +:+ b) +:+ c) = String x (a +:+ (b +:+ c))). by f_equal.
Qed.

Lemma append_nil_r (a : string) : a +:+ "" = a.
Proof.
  induction a as [|x a IH]; [done|].
  change (String x (a +:+ "") = String x a). by f_equal.
Qed.

Lemma contains_concat (sep p : string) (ps : list string) :
  In p ps → contains p (String.concat sep ps).
Proof.
  unfold contains. induction ps as [|x ps IH]; [done|].
  intros [->|Hin].
  - destruct ps as [|y ps].
    + exists "", "". cbn. by rewrite append_nil_r.
    + by exists "", (sep +:+ String.concat sep (y :: ps)).
  - destruct (IH Hin) as (pre & post & E).
    destruct ps as [|y ps]; [done|].
    exists (x +:+ sep +:+ pre), post.
    change (String.concat sep (x :: y :: ps))
      with (x +:+ sep +:+ String.concat sep (y :: ps)).
    by rewrite E, !append_assoc.
Qed.

Lemma contains_prefix (a p text : string) : contains p text → contains p (a +:+ text).
Proof.
  intros (pre & post & ->). exists (a +:+ pre), post. by rewrite append_assoc.
Qed.

Lemma prop_falsy (v : value) (k : string) :
  truthy v = false → k ≠ "length" → prop v k = VUndefined.
Proof.
  intros Hf Hk%String.eqb_neq.
  destruct v as [| | | |s|l|o]; try done; cbn [prop]; by rewrite Hk.
Qed.

Lemma deepAccess_first_party (bidderRequest : value) :
  deepAccess bidderRequest ["ortb2"; "user"; "id"]
  = first_party_user_id bidderRequest.
Proof.
  unfold first_party_user_id. cbn [deepAccess].
  assert (∀ v k, k ≠ "length" →
            (if truthy v then prop v k else VUndefined) = prop v k) as E.
  { intros v k Hk. destruct (truthy v) eqn:T; [done|]. by rewrite prop_falsy. }
  by rewrite !E.
Qed.

(** The shape of the query: the consent parameters, then the cache's
    parameters, then [iframe_enabled]. *)
Lemma sync_query_shape (syncParams : gmap string value)
    (syncOptions gdprConsent uspConsent gppConsent : value) :
  sections_listed gppConsent →
  ∃ consent,
    sync_query syncParams syncOptions gdprConsent uspConsent gppConsent
    = Ok (consent ++ cache_query syncParams
          ++ ["iframe_enabled="
              +:+ (if truthy (prop syncOptions "iframeEnabled")
                   then "true" else "false")]).
Proof.
  intros Hs. unfold sync_query. cbv zeta.
  match goal with |- context [?m ≫= _] =>
    assert (∃ params3, m = Ok params3) as [params3 ->] end.
  { destruct (truthy (get_opt gppConsent "gppString")) eqn:G; [|by eexists].
    apply get_opt_truthy in G as [Hn _]. unfold sections_listed in Hs.
    rewrite (get_opt_prop _ _ Hn) in Hs. rewrite (get_opt_prop _ "applicableSections" Hn).
    destruct Hs as [Hs|Hs].
    - destruct (prop gppConsent "applicableSections"); try done; by eexists.
    - destruct (prop gppConsent "applicableSections") eqn:E; try done.
      destruct (_ && _); by eexists. }
  cbn [mbind result_bind]. exists params3. f_equal.
  unfold cache_query. cbv zeta.
  destruct (truthy (prop (VObj syncParams) "sspId")),
    (truthy (prop (VObj syncParams) "siteId")),
    (truthy (prop (VObj syncParams) "sspUserId"));
    cbn [app]; by rewrite <- ?app_assoc, ?app_nil_r.
Qed.

Lemma getUserSyncs_url (syncParams : gmap string value)
    (syncOptions serverResponses gdprConsent uspConsent gppConsent : value) :
  sync_enabled syncOptions →
  sections_listed gppConsent →
  ∃ ty url,
    getUserSyncs syncParams syncOptions serverResponses gdprConsent uspConsent
      gppConsent
    = Ok [obj [("type", VStr ty); ("url", VStr url)]]
    ∧ ∀ p, In p (cache_query syncParams) → contains p url.
Proof.
  intros Hen Hs. unfold getUserSyncs.
  assert (nullish syncOptions = false) as Hn.
  { destruct Hen as [H|H]; by destruct syncOptions. }
  rewrite (get_Ok _ _ Hn). cbn [mbind result_bind].
  assert (negb (truthy (prop syncOptions "iframeEnabled"))
          && negb (truthy (prop syncOptions "pixelEnabled")) = false) as ->.
  { destruct Hen as [-> | ->]; [done|by rewrite andb_false_r]. }
  destruct (sync_query_shape syncParams syncOptions gdprConsent uspConsent
              gppConsent Hs) as [consent ->].
  cbn [mbind result_bind]. cbv zeta.
  rewrite bool_decide_eq_false_2.
  2:{ rewrite !length_app. cbn [length]. lia. }
  eexists _, _. split; [done|]. intros p Hp.
  apply contains_prefix, contains_prefix, contains_concat.
  apply in_or_app. right. apply in_or_app. by left.
Qed.

(** C8. With a first descriptor that carries a [params] bag, [build]
    stores [{sspId, siteId, sspUserId}] of that bag in the cache, the
    user identifier being [params.sspUserId] when that is present
    (truthy), else the context's [ortb2.user.id] when that is, else
    none ([null]); so after a build whose first descriptor has
    [params.sspUserId = "A"] while the context has
    [ortb2.user.id = "B"], a [getUserSyncs] call with syncing enabled
    returns one sync whose URL contains [ssp_user_id=A]. *)
Theorem build_stores_sync_params (firstBid : value) (others : list value)
    (bidderRequest : value) (syncParams : gmap string value) :
  nullish firstBid = false →
  truthy (prop firstBid "params") = true →
  let params := prop firstBid "params" in
  let stored := snd (buildRequests (firstBid :: others) bidderRequest syncParams) in
  stored !! "sspId" = Some (prop params "sspId")
  ∧ stored !! "siteId" = Some (prop params "siteId")
  ∧ stored !! "sspUserId"
    = Some (if truthy (prop params "sspUserId") then prop params "sspUserId"
            else if truthy (first_party_user_id bidderRequest)
                 then first_party_user_id bidderRequest
                 else VNull)
  ∧ (prop params "sspUserId" = VStr "A" →
     first_party_user_id bidderRequest = VStr "B" →
     ∀ syncOptions serverResponses gdprConsent uspConsent gppConsent,
       sync_enabled syncOptions →
       sections_listed gppConsent →
       ∃ ty url,
         getUserSyncs stored syncOptions serverResponses gdprConsent uspConsent
           gppConsent
         = Ok [obj [("type", VStr ty); ("url", VStr url)]]
         ∧ contains "ssp_user_id=A" url).
Proof.
  intros Hn Hp params stored.
  assert (stored
          = list_to_map
              [("sspId", prop params "sspId");
               ("siteId", prop params "siteId");
               ("sspUserId", getPublisherUserId params bidderRequest)]) as E.
  { subst stored params. unfold buildRequests. rewrite (get_Ok _ _ Hn).
    cbn [mbind result_bind]. by rewrite Hp. }
  assert (getPublisherUserId params bidderRequest
          = (if truthy (prop params "sspUserId") then prop params "sspUserId"
             else if truthy (first_party_user_id bidderRequest)
                  then first_party_user_id bidderRequest
                  else VNull)) as EU.
  { unfold getPublisherUserId. cbv zeta. rewrite deepAccess_first_party.
    rewrite get_opt_prop; [done|]. by apply truthy_not_nullish. }
  assert (stored !! "sspUserId" = Some (getPublisherUserId params bidderRequest))
    as EL by by rewrite E.
  split; [by rewrite E|]. split; [by rewrite E|]. split; [by rewrite EL, EU|].
  intros HA HB syncOptions serverResponses gdprConsent uspConsent gppConsent
    Hen Hs.
  destruct (getUserSyncs_url stored syncOptions serverResponses gdprConsent
              uspConsent gppConsent Hen Hs) as (ty & url & -> & Hc).
  exists ty, url. split; [done|]. apply Hc.
  unfold cache_query. cbv zeta. cbn [prop]. rewrite EL, EU, HA.
  apply in_or_app. right. apply in_or_app. right. by left.
Qed.

(** C10. With a non-empty descriptor list whose first descriptor has no
    [params] bag, [build] leaves the cache as it was: each of the three
    fields keeps the value an earlier build stored, and a later
    [getUserSyncs] returns what it would have returned before this
    build, its URL carrying [ssp_id], [ssp_site_id] and [ssp_user_id]
    from those earlier values. *)
Theorem build_without_params_keeps_sync_params (firstBid : value)
    (others : list value) (bidderRequest : value)
    (syncParams : gmap string value) :
  nullish firstBid = false →
  truthy (prop firstBid "params") = false →
  let kept := snd (buildRequests (firstBid :: others) bidderRequest syncParams) in
  kept = syncParams
  ∧ (∀ syncOptions serverResponses gdprConsent uspConsent gppConsent,
       getUserSyncs kept syncOptions serverResponses gdprConsent uspConsent
         gppConsent
       = getUserSyncs syncParams syncOptions serverResponses gdprConsent
           uspConsent gppConsent)
  ∧ (∀ syncOptions serverResponses gdprConsent uspConsent gppConsent,
       sync_enabled syncOptions →
       sections_listed gppConsent →
       ∃ ty url,
         getUserSyncs kept syncOptions serverResponses gdprConsent uspConsent
           gppConsent
         = Ok [obj [("type", VStr ty); ("url", VStr url)]]
         ∧ ∀ p, In p (cache_query syncParams) → contains p url).
Proof.
  intros Hn Hp kept.
  assert (kept = syncParams) as ->.
  { subst kept. unfold buildRequests. rewrite (get_Ok _ _ Hn).
    cbn [mbind result_bind]. rewrite Hp.
    by destruct (toORTB (firstBid :: others) bidderRequest). }
  split; [done|]. split; [done|].
  intros. by apply getUserSyncs_url.
Qed.

Lemma bidResponse_media_type (bidResp bid : value) :
  nullish bid = false →
  ∃ r, bidResponse bidResp bid = Ok r ∧ media_type_resolved bid r.
Proof.
  intros Hn. unfold bidResponse. rewrite (get_Ok _ _ Hn).
  cbn [mbind result_bind]. cbv zeta.
  eexists. split; [done|]. eexists. split; [done|].
  pose proof (strict_eq_num_spec (prop bid "mtype") 1) as H1.
  pose proof (strict_eq_num_spec (prop bid "mtype") 2) as H2.
  assert (num 1 ≠ num 2) as H12.
  { intros E. by apply (strict_eq_num_spec (num 1) 2) in E. }
  destruct (strict_eq_num (prop bid "mtype") 1) eqn:E1.
  { assert (prop bid "mtype" = num 1) as Hm by by apply H1.
    rewrite Hm. cbn [nullish num].
    destruct (truthy (prop bid "dealid"));
      rewrite ?lookup_insert_eq, ?lookup_insert_ne, ?lookup_insert_eq by done;
      by repeat split. }
  destruct (strict_eq_num (prop bid "mtype") 2) eqn:E2.
  { assert (prop bid "mtype" = num 2) as Hm by by apply H2.
    rewrite Hm. cbn [nullish num].
    destruct (truthy (prop bid "dealid"));
      rewrite ?lookup_insert_ne, ?lookup_insert_eq, ?lookup_insert_ne,
        ?lookup_insert_eq by done;
      repeat split; try done; by intros E. }
  assert (prop bid "mtype" ≠ num 1) as N1 by (intros E; apply H1 in E; congruence).
  assert (prop bid "mtype" ≠ num 2) as N2 by (intros E; apply H2 in E; congruence).
  destruct (nullish (prop bid "mtype")) eqn:En;
    destruct (truthy (prop bid "dealid"));
    rewrite ?lookup_insert_ne, ?lookup_insert_eq by done;
    by repeat split.
Qed.

Lemma first_record_None (seatbid : value) :
  first_record seatbid = None →
  ∀ bid others, prop seatbid "bid" ≠ VArr (bid :: others).
Proof.
  unfold first_record. intros H bid others E. by rewrite E in H.
Qed.

Lemma first_record_Some (seatbid bid : value) :
  first_record seatbid = Some bid →
  ∃ others, prop seatbid "bid" = VArr (bid :: others).
Proof.
  unfold first_record. destruct (prop seatbid "bid") as [| | | | |[|b l]|]; try done.
  intros [= <-]. by eexists.
Qed.

(** The [forEach] loop pushes, after the bids already collected, the
    bids the specification assigns to the seat groups. *)
Lemma forEach_seatbid_spec (bidResp : value) (seatbids responses : list value) :
  seat_groups_formed seatbids →
  ∃ out,
    forEach_seatbid bidResp seatbids responses = Ok (responses ++ out)
    ∧ interprets bidResp seatbids out
    ∧ Forall2 media_type_resolved (accepted_records seatbids) out.
Proof.
  unfold seat_groups_formed, accepted_records.
  revert responses. induction seatbids as [|seatbid rest IH]; intros responses [Hs Hr].
  - exists []. cbn. rewrite app_nil_r. repeat split; constructor.
  - apply Forall_cons in Hs as [Hs Hrest]. cbn [forEach_seatbid omap list_omap] in *.
    rewrite (get_Ok _ _ Hs). cbn [mbind result_bind].
    destruct (first_record seatbid) as [bid|] eqn:Ef.
    + apply Forall_cons in Hr as [Hb Hr].
      destruct (first_record_Some _ _ Ef) as [others Eb]. rewrite Eb.
      destruct (bidResponse_media_type bidResp bid Hb) as (r & Er & Hm).
      rewrite Er. cbn [mbind result_bind].
      destruct (IH (responses ++ [r]) (conj Hrest Hr)) as (out & -> & Hi & Hf).
      exists (r :: out). rewrite <- app_assoc. split; [done|].
      split; [by econstructor|by constructor].
    + pose proof (first_record_None _ Ef) as Hnone.
      destruct (IH responses (conj Hrest Hr)) as (out & E & Hi & Hf).
      exists out. split; [|split; [by constructor|done]].
      destruct (prop seatbid "bid") as [| | | | |[|b l]|]; try done.
      by destruct (Hnone b l).
Qed.

Lemma interpretResponse_seatbids (serverResponse request : value)
    (seatbids : list value) :
  truthy serverResponse = true →
  truthy (prop serverResponse "body") = true →
  prop (prop serverResponse "body") "seatbid" = VArr seatbids →
  interpretResponse serverResponse request
  = forEach_seatbid (prop serverResponse "body") seatbids [].
Proof.
  intros Hr Hb Hs. unfold interpretResponse. cbv zeta. by rewrite Hr, Hb, Hs.
Qed.


(** C4. For a response whose seat groups and first records are objects,
    every accepted record (the first record of a seat group holding a
    non-empty [bid] list) yields a normalized bid, and that bid's media
    type follows the record's markup-type code: code 1 gives [banner];
    code 2 gives [video] and a [vastXml] field equal to the markup
    payload; a null or absent code gives [banner]; any other code
    leaves the [mediaType] key unset, the bid being returned all the
    same. *)
Theorem interpretResponse_media_type (serverResponse request : value)
    (seatbids : list value) :
  truthy serverResponse = true →
  truthy (prop serverResponse "body") = true →
  prop (prop serverResponse "body") "seatbid" = VArr seatbids →
  seat_groups_formed seatbids →
  ∃ out,
    interpretResponse serverResponse request = Ok out
    ∧ Forall2 media_type_resolved (accepted_records seatbids) out.
Proof.
  intros Hr Hb Hs Hf.
  rewrite (interpretResponse_seatbids _ _ _ Hr Hb Hs).
  destruct (forEach_seatbid_spec (prop serverResponse "body") seatbids [] Hf)
    as (out & E & Hi & Hm).
  by exists out.
Qed.

Lemma prop_nullish (v : value) (k : string) :
  nullish v = true → prop v k = VUndefined.
Proof. by destruct v. Qed.

Lemma mapM_total {A B} (f : A → result B) (l : list A) :
  Forall (λ x, ∃ y, f x = Ok y) l → ∃ k, mapM f l = Ok k.
Proof.
  induction 1 as [|x l [y Hy] _ [k Hk]]; [by exists []|].
  exists (y :: k). cbn. rewrite Hy. cbn. by rewrite Hk.
Qed.








(** ** Further properties of the [imp] override *)

Lemma size_to_format_iterable (size : value) :
  (∃ f, size_to_format size = Ok f) ↔ iterable size = true.
Proof.
  unfold size_to_format. destruct size; cbn; split; try done;
    try (by intros [? ?]); intros _; by eexists.
Qed.

Lemma array_map_sizes (v : value) :
  (∃ format, array_map size_to_format v = Ok format)
  ↔ ∃ sizes, v = VArr sizes ∧ Forall (λ size, iterable size = true) sizes.
Proof.
  split.
  - intros [format H]. destruct v as [| | | | |sizes|]; try done.
    exists sizes. split; [done|]. cbn [array_map] in H.
    apply mapM_Ok in H. induction H as [|s f ss fs Hs _ IH]; constructor; [|done].
    apply size_to_format_iterable. by exists f.
  - intros (sizes & -> & Hall). cbn [array_map]. apply mapM_total.
    eapply Forall_impl; [done|]. intros s Hs. by apply size_to_format_iterable.
Qed.

(** The [imp] override, step by step: the outcome of the library's
    builder, the floor, then the banner or the video block. *)
Lemma imp_Ok_shape buildImp (bid context : value) (i : gmap string value) :
  imp buildImp bid context = Ok i ↔
  ∃ imp0,
    buildImp bid context = Ok imp0
    ∧ nullish (prop bid "mediaTypes") = false
    ∧ let imp1 := if truthy (param "bidfloor" bid)
                  then <["bidfloor" := param "bidfloor" bid]> imp0 else imp0 in
      if truthy (media_spec BANNER bid)
      then ∃ format,
             array_map size_to_format (prop (media_spec BANNER bid) "sizes")
             = Ok format
             ∧ i = <["banner" := obj [("format", VArr format)]]> imp1
      else if truthy (media_spec VIDEO bid)
           then i = <["video" := VObj (spread (media_spec VIDEO bid))]> imp1
           else i = imp1.
Proof.
  unfold imp, media_spec, param.
  assert (∀ imp0 : gmap string value,
    (if truthy (prop bid "params")
     then if truthy (prop (prop bid "params") "bidfloor")
          then <["bidfloor" := prop (prop bid "params") "bidfloor"]> imp0
          else imp0
     else imp0)
    = (if truthy (prop (prop bid "params") "bidfloor")
       then <["bidfloor" := prop (prop bid "params") "bidfloor"]> imp0
       else imp0)) as E.
  { intros imp0. destruct (truthy (prop bid "params")) eqn:P; [done|].
    by rewrite (prop_falsy _ "bidfloor" P). }
  split.
  - intros H. apply bind_Ok in H as (imp0 & Himp0 & H).
    apply bind_Ok in H as (mt & [Hb ->]%get_Ok_inv & H). cbv zeta in H.
    apply bind_Ok in H as (banner & [Hm ->]%get_Ok_inv & H).
    rewrite E in H. exists imp0. split; [done|]. split; [done|]. cbv zeta.
    destruct (truthy (prop (prop bid "mediaTypes") BANNER)).
    + apply bind_Ok in H as (format & Hf & [= <-]). by exists format.
    + destruct (truthy (prop (prop bid "mediaTypes") VIDEO)); by injection H as <-.
  - intros (imp0 & Himp0 & Hm & H). cbv zeta in H.
    assert (nullish bid = false) as Hb.
    { destruct (nullish bid) eqn:N; [|done]. by rewrite prop_nullish in Hm. }
    rewrite Himp0, (get_Ok _ _ Hb). cbn [mbind result_bind]. cbv zeta.
    rewrite (get_Ok _ _ Hm), E. cbn [mbind result_bind].
    destruct (truthy (prop (prop bid "mediaTypes") BANNER)).
    + destruct H as (format & -> & ->). done.
    + destruct (truthy (prop (prop bid "mediaTypes") VIDEO)); by subst i.
Qed.

(** X1. The [imp] override returns an impression exactly when the
    library's builder returns one, the descriptor has a [mediaTypes]
    that is neither [null] nor [undefined], and the banner spec, when
    one is declared, has a [sizes] list whose entries are lists or
    strings; in every other case it throws. *)
Theorem imp_returns_iff buildImp (bid context : value) :
  (∃ i, imp buildImp bid context = Ok i)
  ↔ (∃ imp0, buildImp bid context = Ok imp0)
    ∧ nullish (prop bid "mediaTypes") = false
    ∧ (truthy (media_spec BANNER bid) = true
       → sizes_usable (media_spec BANNER bid)).
Proof.
  unfold sizes_usable. split.
  - intros [i (imp0 & Himp0 & Hm & H)%imp_Ok_shape]. cbv zeta in H.
    split; [by exists imp0|]. split; [done|]. intros Hb. rewrite Hb in H.
    destruct H as (format & Hf & _). apply array_map_sizes. by exists format.
  - intros ([imp0 Himp0] & Hm & Hs).
    destruct (truthy (media_spec BANNER bid)) eqn:Hb.
    + destruct (proj2 (array_map_sizes _) (Hs eq_refl)) as [format Hf].
      eexists. apply imp_Ok_shape. exists imp0. split; [done|]. split; [done|].
      cbv zeta. rewrite Hb. by exists format.
    + destruct (truthy (media_spec VIDEO bid)) eqn:Hv;
        eexists; apply imp_Ok_shape; exists imp0; (split; [done|]);
        (split; [done|]); cbv zeta; by rewrite Hb, Hv.
Qed.

(** X2. The impression carries the descriptor's [params.bidfloor] as
    its [bidfloor] exactly when that value is truthy; a floor that is
    absent, zero or otherwise falsy (or a descriptor without [params])
    leaves [bidfloor] as the library's builder set it. *)
Theorem imp_bidfloor buildImp (bid context : value) (i : gmap string value) :
  imp buildImp bid context = Ok i →
  ∃ imp0,
    buildImp bid context = Ok imp0
    ∧ i !! "bidfloor"
      = if truthy (param "bidfloor" bid) then Some (param "bidfloor" bid)
        else imp0 !! "bidfloor".
Proof.
  intros (imp0 & Himp0 & _ & H)%imp_Ok_shape. cbv zeta in H.
  exists imp0. split; [done|].
  assert (i !! "bidfloor"
          = (if truthy (param "bidfloor" bid)
             then <["bidfloor" := param "bidfloor" bid]> imp0 else imp0)
            !! "bidfloor") as ->.
  { destruct (truthy (media_spec BANNER bid)).
    - destruct H as (format & _ & ->). by rewrite lookup_insert_ne.
    - destruct (truthy (media_spec VIDEO bid)); subst i; [|done].
      by rewrite lookup_insert_ne. }
  destruct (truthy (param "bidfloor" bid)); [|done]. by rewrite lookup_insert_eq.
Qed.

(** X3. The [imp] override changes nothing but [bidfloor], [banner]
    and [video]: every other field of the impression is the one the
    library's builder produced, and is absent when the library set
    none. *)
Theorem imp_keeps_library_fields buildImp (bid context : value)
    (i : gmap string value) :
  imp buildImp bid context = Ok i →
  ∃ imp0,
    buildImp bid context = Ok imp0
    ∧ ∀ k, k ≠ "bidfloor" → k ≠ "banner" → k ≠ "video" → i !! k = imp0 !! k.
Proof.
  intros (imp0 & Himp0 & _ & H)%imp_Ok_shape. cbv zeta in H.
  exists imp0. split; [done|]. intros k K1 K2 K3.
  assert ((if truthy (param "bidfloor" bid)
           then <["bidfloor" := param "bidfloor" bid]> imp0 else imp0) !! k
          = imp0 !! k) as <-.
  { destruct (truthy (param "bidfloor" bid)); [|done]. by rewrite lookup_insert_ne. }
  destruct (truthy (media_spec BANNER bid)).
  - destruct H as (format & _ & ->). by rewrite lookup_insert_ne.
  - destruct (truthy (media_spec VIDEO bid)); subst i; [|done].
    by rewrite lookup_insert_ne.
Qed.

(** X4. For a descriptor that declares a banner spec, the impression's
    banner block is [{format: [...]}] with one entry per declared size,
    in the declared order, the entry of a size [[w, h, ...]] being
    [{w, h}] (a size with fewer than two elements leaves the missing
    dimension undefined). *)
Theorem imp_banner_format buildImp (bid context : value) (i : gmap string value) :
  imp buildImp bid context = Ok i →
  truthy (media_spec BANNER bid) = true →
  ∃ sizes format,
    prop (media_spec BANNER bid) "sizes" = VArr sizes
    ∧ i !! "banner" = Some (obj [("format", VArr format)])
    ∧ length format = length sizes
    ∧ Forall2 format_entry sizes format.
Proof.
  intros (imp0 & _ & _ & H)%imp_Ok_shape Hb. cbv zeta in H. rewrite Hb in H.
  destruct H as (format & Hf & ->).
  destruct (prop (media_spec BANNER bid) "sizes") as [| | | | |sizes|]; try done.
  cbn [array_map] in Hf. apply mapM_Ok in Hf.
  exists sizes, format. split; [done|]. rewrite lookup_insert_eq. split; [done|].
  split; [symmetry; by eapply Forall2_length|].
  eapply Forall2_impl; [exact Hf|]. intros size f Hsf l ->.
  cbn in Hsf. by injection Hsf as <-.
Qed.

(** X5. For a descriptor that declares a video spec (an object) and no
    banner spec, the impression's video block is that spec, field for
    field; when the validator has accepted the descriptor, the block
    therefore carries a non-empty [mimes] list and no width or height
    that is [<= 0]. *)
Theorem imp_video_block buildImp (bid context : value) (i : gmap string value)
    (video : gmap string value) :
  imp buildImp bid context = Ok i →
  truthy (media_spec BANNER bid) = false →
  media_spec VIDEO bid = VObj video →
  i !! "video" = Some (VObj video)
  ∧ (isBidRequestValid bid = Ok true →
     (∃ m ms, video !! "mimes" = Some (VArr (m :: ms)))
     ∧ ¬ dimension_rejected (prop (VObj video) "w")
     ∧ ¬ dimension_rejected (prop (VObj video) "h")).
Proof.
  intros (imp0 & _ & Hm & H)%imp_Ok_shape Hb Hv. cbv zeta in H.
  rewrite Hb, Hv in H. cbn [truthy spread] in H. subst i.
  split; [by rewrite lookup_insert_eq|].
  unfold isBidRequestValid, media_spec in *.
  assert (nullish bid = false) as Hn.
  { destruct (nullish bid) eqn:N; [|done]. by rewrite prop_nullish in Hm. }
  rewrite (get_Ok _ _ Hn). cbn [mbind result_bind].
  rewrite (get_opt_prop _ _ Hm), (get_Ok _ _ Hm), Hv. cbn [truthy mbind result_bind].
  cbv zeta.
  destruct (negb (truthy (prop (VObj video) "mimes"))
            || negb (isArray (prop (VObj video) "mimes"))
            || strict_eq_num (prop (prop (VObj video) "mimes") "length") 0) eqn:M;
    [done|].
  destruct (negb (nullish (prop (VObj video) "w"))
            && le_zero NumberToString StringToNumber (prop (VObj video) "w")) eqn:W;
    [done|].
  destruct (negb (nullish (prop (VObj video) "h"))
            && le_zero NumberToString StringToNumber (prop (VObj video) "h")) eqn:Hh;
    [done|].
  intros _. split; [|split].
  - assert (¬ (∀ l, prop (VObj video) "mimes" = VArr l → l = [])) as Hne.
    { intros Hall%mimes_check. congruence. }
    cbn [prop] in Hne.
    destruct (video !! "mimes") as [[| | | | |[|m ms]|]|]; cbn [default] in Hne;
      try (exfalso; apply Hne; by intros l [=]).
    by exists m, ms.
  - intros R%dimension_check. congruence.
  - intros R%dimension_check. congruence.
Qed.

(** ** Further properties of the [request] override and of [build] *)

Lemma set_ext_frame (r r' : gmap string value) (k : string) (v : value) :
  set_ext r k v = Ok r' → ∀ k', k' ≠ "ext" → r' !! k' = r !! k'.
Proof.
  unfold set_ext. cbv zeta. intros H k' Hk.
  apply bind_Ok in H as (e & _ & [= <-]). by rewrite lookup_insert_ne.
Qed.

(** The scans write to the extension block only. *)
Lemma scan_bids_frame (r3 r6 : gmap string value) (bidderRequest : value) :
  scan_bids r3 bidderRequest = Ok r6 → ∀ k, k ≠ "ext" → r6 !! k = r3 !! k.
Proof.
  unfold scan_bids. intros H k Hk.
  destruct (prop bidderRequest "bids") as [| | | | |bids|];
    try by injection H as <-.
  apply bind_Ok in H as (b & _ & H). apply bind_Ok in H as (r4 & H4 & H).
  apply bind_Ok in H as (x & _ & H). apply bind_Ok in H as (r5 & H5 & H).
  apply bind_Ok in H as (y & _ & H).
  assert (r4 !! k = r3 !! k) as E4.
  { destruct b; [by eapply set_ext_frame|by injection H4 as <-]. }
  assert (r5 !! k = r4 !! k) as E5.
  { destruct (truthy x); [by eapply set_ext_frame|by injection H5 as <-]. }
  assert (r6 !! k = r5 !! k) as E6.
  { destruct (truthy y); [by eapply set_ext_frame|by injection H as <-]. }
  congruence.
Qed.

(** The steps of the [request] override on a run that returns. *)
Lemma request_Ok_steps buildRequest (imps : list value)
    (bidderRequest context : value) (r : gmap string value) :
  request buildRequest imps bidderRequest context = Ok r →
  ∃ base r6,
    buildRequest imps bidderRequest context = Ok base
    ∧ nullish bidderRequest = false
    ∧ scan_bids
        (<["test" := logical_or (prop bidderRequest "test") (num 0)]>
           (<["tmax" := prop bidderRequest "timeout"]>
              (<["cur" := VArr [VStr DEFAULT_CURRENCY]]> base)))
        bidderRequest = Ok r6
    ∧ add_usp (add_gdpr r6 bidderRequest) bidderRequest = Ok r.
Proof.
  unfold request. intros H.
  apply bind_Ok in H as (base & Hbase & H). cbv zeta in H.
  apply bind_Ok in H as (timeout & [Hn ->]%get_Ok_inv & H).
  apply bind_Ok in H as (r6 & Hr6 & H).
  by exists base, r6.
Qed.

(** What [build] returns is the envelope around the payload the
    [request] override returned for the impressions of the [imp]
    override. *)
Lemma buildRequests_Ok_envelope (validBidRequests : list value)
    (bidderRequest : value) (syncParams : gmap string value) (out : value) :
  fst (buildRequests validBidRequests bidderRequest syncParams) = Ok out →
  ∃ imps data,
    imps = omap built_impression validBidRequests
    ∧ request lib_buildRequest (VObj <$> imps) bidderRequest converter_context = Ok data
    ∧ out = envelope data.
Proof.
  unfold buildRequests.
  match goal with |- context [match ?s with Ok _ => _ | Throw _ => _ end] =>
    destruct s as [sp|e]; [|done] end.
  cbn [fst]. intros H. apply bind_Ok in H as (data & Hdata & [= <-]).
  unfold toORTB in Hdata. cbv zeta in Hdata.
  by exists (omap built_impression validBidRequests), data.
Qed.

(** X6. Every request [build] returns is a POST to the fixed endpoint
    with endpoint compression switched on, and its payload carries
    [cur = ["USD"]], [tmax] = the context's [timeout] (the key is set
    even when the context has none) and [test] = the context's [test]
    when that is truthy and [0] otherwise, whatever the library's
    builder had put under these keys and whatever consents or bids the
    context carries. *)
Theorem build_envelope_and_payload_constants (validBidRequests : list value)
    (bidderRequest : value) (syncParams : gmap string value) (out : value) :
  fst (buildRequests validBidRequests bidderRequest syncParams) = Ok out →
  ∃ data,
    out = obj [("method", VStr "POST");
               ("url", VStr "https://ads.adsmartx.com/ads/rtb/prebid/js");
               ("data", VObj data);
               ("options", obj [("endpointCompression", VBool true)])]
    ∧ data !! "cur" = Some (VArr [VStr "USD"])
    ∧ data !! "tmax" = Some (prop bidderRequest "timeout")
    ∧ data !! "test"
      = Some (if truthy (prop bidderRequest "test")
              then prop bidderRequest "test" else num 0).
Proof.
  intros (imps & data & _ & Hdata & ->)%buildRequests_Ok_envelope.
  exists data. split; [done|].
  apply request_Ok_steps in Hdata as (base & r6 & _ & _ & H6 & H).
  assert (∀ k, k ≠ "ext" → k ≠ "regs" → k ≠ "user" →
            data !! k
            = (<["test" := logical_or (prop bidderRequest "test") (num 0)]>
                 (<["tmax" := prop bidderRequest "timeout"]>
                    (<["cur" := VArr [VStr DEFAULT_CURRENCY]]> base))) !! k) as E.
  { intros k K1 K2 K3. rewrite (add_usp_lookup _ _ _ k H K2).
    rewrite add_gdpr_lookup by done. by apply (scan_bids_frame _ _ _ H6). }
  rewrite !E by done.
  rewrite lookup_insert_ne, lookup_insert_ne, lookup_insert_eq by done.
  rewrite lookup_insert_ne, lookup_insert_eq by done.
  by rewrite lookup_insert_eq.
Qed.

(** X7. The [request] override writes to six fields only: every field
    of its result other than [cur], [tmax], [test], [ext], [regs] and
    [user] (the impression list, a site or device block, ...) is the
    one the library's builder produced, and is absent when the library
    set none. *)
Theorem request_keeps_library_fields buildRequest (imps : list value)
    (bidderRequest context : value) (r : gmap string value) :
  request buildRequest imps bidderRequest context = Ok r →
  ∃ base,
    buildRequest imps bidderRequest context = Ok base
    ∧ ∀ k, k ∉ ["cur"; "tmax"; "test"; "ext"; "regs"; "user"] →
           r !! k = base !! k.
Proof.
  intros (base & r6 & Hbase & _ & H6 & H)%request_Ok_steps.
  exists base. split; [done|]. intros k Hk.
  rewrite !not_elem_of_cons in Hk. destruct Hk as (K1 & K2 & K3 & K4 & K5 & K6 & _).
  rewrite (add_usp_lookup _ _ _ k H K5), add_gdpr_lookup by done.
  rewrite (scan_bids_frame _ _ _ H6 k K4). by rewrite !lookup_insert_ne.
Qed.

(** X8. Without consent signals (the context's [gdprConsent] and
    [uspConsent] both falsy) the [request] override adds no regulatory
    or user block: [regs] and [user] of its result are the ones the
    library's builder produced, absent when the library set none. *)
Theorem request_without_consent buildRequest (imps : list value)
    (bidderRequest context : value) (r : gmap string value) :
  request buildRequest imps bidderRequest context = Ok r →
  truthy (prop bidderRequest "gdprConsent") = false →
  truthy (prop bidderRequest "uspConsent") = false →
  ∃ base,
    buildRequest imps bidderRequest context = Ok base
    ∧ r !! "regs" = base !! "regs"
    ∧ r !! "user" = base !! "user".
Proof.
  intros (base & r6 & Hbase & _ & H6 & H)%request_Ok_steps Hg Hu.
  exists base. split; [done|].
  unfold add_usp, add_gdpr in H. cbv zeta in H. rewrite Hg, Hu in H.
  injection H as <-.
  rewrite !(scan_bids_frame _ _ _ H6) by done. by rewrite !lookup_insert_ne.
Qed.

(** X9. With GDPR consent in the context (any truthy value) the
    [request] override replaces the regulatory and the user block
    wholesale: [user] is exactly [{ext: {consent}}] and [regs] exactly
    [{ext: {gdpr}}], with [us_privacy] beside [gdpr] when the context
    also carries a USP string; whatever the library's builder had put
    into [regs] and [user] (a first-party user id, say) is gone. *)
Theorem request_gdpr_replaces_blocks buildRequest (imps : list value)
    (bidderRequest context : value) (r : gmap string value) :
  request buildRequest imps bidderRequest context = Ok r →
  truthy (prop bidderRequest "gdprConsent") = true →
  let gdprConsent := prop bidderRequest "gdprConsent" in
  let gdpr := if truthy (prop gdprConsent "gdprApplies") then num 1 else num 0 in
  r !! "user" = Some (obj [("ext", obj [("consent", prop gdprConsent "consentString")])])
  ∧ r !! "regs"
    = Some (obj [("ext",
                  obj (("gdpr", gdpr)
                       :: if truthy (prop bidderRequest "uspConsent")
                          then [("us_privacy", prop bidderRequest "uspConsent")]
                          else []))]).
Proof.
  intros (base & r6 & _ & _ & _ & H)%request_Ok_steps Hg. cbv zeta.
  unfold add_usp, add_gdpr in H. cbv zeta in H. rewrite Hg in H.
  rewrite !obj_cons, !obj_nil in H. rewrite !obj_cons, ?obj_nil.
  destruct (truthy (prop bidderRequest "uspConsent")); cbn [list_to_map].
  - rewrite prop_insert_ne, prop_insert_eq in H by done.
    rewrite logical_or_object, prop_insert_eq, logical_or_object in H.
    cbn [set_prop mbind result_bind] in H. injection H as <-.
    split.
    + by rewrite lookup_insert_ne, lookup_insert_eq.
    + rewrite lookup_insert_eq. do 2 f_equal.
  - injection H as <-. split.
    + by rewrite lookup_insert_eq.
    + by rewrite lookup_insert_ne, lookup_insert_eq.
Qed.

(** X10. With a USP string and no GDPR consent in the context, the
    [request] override merges: [regs.ext.us_privacy] is set to the
    string, every other field of the library's [regs] and [regs.ext]
    is kept, and [user] is the library's.  The library's [regs] and
    [regs.ext] are taken to be absent or plain objects. *)
Theorem request_usp_merges buildRequest (imps : list value)
    (bidderRequest context : value) (base r : gmap string value) :
  buildRequest imps bidderRequest context = Ok base →
  plain_block (prop (VObj base) "regs") →
  plain_block (prop (prop (VObj base) "regs") "ext") →
  request buildRequest imps bidderRequest context = Ok r →
  truthy (prop bidderRequest "gdprConsent") = false →
  truthy (prop bidderRequest "uspConsent") = true →
  let regs0 := block_fields (prop (VObj base) "regs") in
  let ext0 := block_fields (prop (VObj regs0) "ext") in
  r !! "regs"
  = Some (VObj (<["ext" := VObj (<["us_privacy" := prop bidderRequest "uspConsent"]>
                                   ext0)]> regs0))
  ∧ r !! "user" = base !! "user".
Proof.
  intros Hbase Hregs Hext (base' & r6 & Hbase' & _ & H6 & H)%request_Ok_steps Hg Hu.
  assert (base' = base) as -> by congruence. cbv zeta.
  unfold add_usp, add_gdpr in H. cbv zeta in H. rewrite Hg, Hu in H.
  assert (prop (VObj r6) "regs" = prop (VObj base) "regs") as E.
  { cbn [prop]. rewrite (scan_bids_frame _ _ _ H6) by done.
    by rewrite !lookup_insert_ne. }
  rewrite E in H.
  destruct (plain_block_logical_or _ Hregs) as (regs1 & E1 & D1).
  rewrite E1 in H.
  assert (regs1 = block_fields (prop (VObj base) "regs")) as -> by done.
  assert (plain_block (prop (VObj (block_fields (prop (VObj base) "regs"))) "ext"))
    as (ext1 & E2 & D2)%plain_block_logical_or.
  { destruct (prop (VObj base) "regs"); try done; by left. }
  rewrite E2 in H.
  assert (ext1 = block_fields
                   (prop (VObj (block_fields (prop (VObj base) "regs"))) "ext"))
    as -> by done.
  cbn [set_prop mbind result_bind] in H. injection H as <-.
  rewrite lookup_insert_eq. split; [done|].
  rewrite lookup_insert_ne by done.
  rewrite (scan_bids_frame _ _ _ H6) by done. by rewrite !lookup_insert_ne.
Qed.

Lemma getPublisherUserId_spec (bidParams bidderRequest : value) :
  getPublisherUserId bidParams bidderRequest
  = if truthy (prop bidParams "sspUserId") then prop bidParams "sspUserId"
    else if truthy (first_party_user_id bidderRequest)
         then first_party_user_id bidderRequest
         else VNull.
Proof.
  unfold getPublisherUserId. cbv zeta. rewrite deepAccess_first_party.
  unfold get_opt. destruct (nullish bidParams) eqn:N; [|done].
  by rewrite prop_nullish.
Qed.

(** The cache [build] leaves behind for a first descriptor with
    [params], whatever it returns or throws. *)
Lemma buildRequests_cache (firstBid : value) (others : list value)
    (bidderRequest : value) (syncParams : gmap string value) :
  truthy (prop firstBid "params") = true →
  snd (buildRequests (firstBid :: others) bidderRequest syncParams)
  = cache_of (prop firstBid "params") bidderRequest.
Proof.
  intros Hp. unfold buildRequests, cache_of.
  assert (nullish firstBid = false) as N.
  { destruct (nullish firstBid) eqn:N; [|done]. by rewrite prop_nullish in Hp. }
  rewrite (get_Ok _ _ N). cbn [mbind result_bind]. rewrite Hp.
  cbn [snd]. by rewrite getPublisherUserId_spec.
Qed.

(** X11. The cache after a [build] call is determined by the first
    descriptor's [params] and the context alone: with a truthy
    [params] it is exactly [{sspId, siteId, sspUserId}] read from them
    (nothing of the earlier cache survives, and a field [params] lacks
    is stored as undefined); with a falsy or missing [params], a null
    first descriptor or an empty descriptor list it is the earlier
    cache.  Neither the library's builders nor the outcome of the
    conversion (returned or thrown) has a part in it. *)
Theorem build_cache_transition (validBidRequests : list value)
    (bidderRequest : value) (syncParams : gmap string value) :
  snd (buildRequests validBidRequests bidderRequest syncParams)
  = match validBidRequests with
    | firstBid :: _ =>
        if truthy (prop firstBid "params")
        then cache_of (prop firstBid "params") bidderRequest
        else syncParams
    | [] => syncParams
    end.
Proof.
  destruct validBidRequests as [|firstBid others]; [done|].
  destruct (truthy (prop firstBid "params")) eqn:Hp;
    [by apply buildRequests_cache|].
  unfold buildRequests, get. destruct (nullish firstBid); [done|].
  cbn [mbind result_bind]. by rewrite Hp.
Qed.

(** X12. Called without a context ([null] or [undefined]), [build]
    never returns a request: it throws, whatever the descriptors and
    the library's builders; with well-formed descriptors and library
    builders that return, what it throws is the [TypeError] of reading
    [timeout] off the missing context. *)
Theorem build_throws_without_context (validBidRequests : list value)
    (bidderRequest : value) (syncParams : gmap string value) :
  nullish bidderRequest = true →
  (∃ e, fst (buildRequests validBidRequests bidderRequest syncParams) = Throw e)
  ∧ (base_builders_return →
     Forall descriptor_formed validBidRequests →
     fst (buildRequests validBidRequests bidderRequest syncParams)
     = Throw TypeError).
Proof.
  intros N. split.
  - destruct (fst (buildRequests validBidRequests bidderRequest syncParams))
      as [out|e] eqn:E; [|by exists e].
    apply buildRequests_Ok_envelope in E as (imps & data & _ & Hdata & _).
    apply request_Ok_steps in Hdata as (_ & _ & _ & Hn & _). congruence.
  - intros Hret Hds.
    assert (toORTB validBidRequests bidderRequest = Throw TypeError) as T.
    { unfold toORTB, request. cbv zeta.
      destruct (proj2 Hret (VObj <$> omap built_impression validBidRequests)
                  bidderRequest converter_context) as [base ->].
      cbn [mbind result_bind]. unfold get. by rewrite N. }
    unfold buildRequests. rewrite T.
    destruct validBidRequests as [|firstBid others]; [done|].
    apply Forall_cons in Hds as [[Hmt _] _].
    assert (nullish firstBid = false) as Hn.
    { destruct (nullish firstBid) eqn:E; [|done]. by rewrite prop_nullish in Hmt. }
    rewrite (get_Ok _ _ Hn). cbn [mbind result_bind].
    by destruct (truthy (prop firstBid "params")).
Qed.

(** ** Further properties of [interpretResponse] *)

Lemma interpretResponse_forEach (serverResponse request : value) :
  interpretResponse serverResponse request
  = forEach_seatbid (response_body serverResponse) (seat_groups serverResponse) [].
Proof.
  unfold interpretResponse, seat_groups, response_body. cbv zeta.
  destruct (truthy (if truthy serverResponse then prop serverResponse "body"
                    else serverResponse)); [|done].
  cbn [negb orb].
  by destruct (prop (if truthy serverResponse then prop serverResponse "body"
                     else serverResponse) "seatbid").
Qed.

Lemma accepted_records_cons (seatbid : value) (rest : list value) :
  accepted_records (seatbid :: rest)
  = match first_record seatbid with
    | Some bid => bid :: accepted_records rest
    | None => accepted_records rest
    end.
Proof. unfold accepted_records. cbn. by destruct (first_record seatbid). Qed.

Lemma bidResponse_Ok_nullish (bidResp bid r : value) :
  bidResponse bidResp bid = Ok r → nullish bid = false.
Proof.
  unfold bidResponse. intros H. by apply bind_Ok in H as (x & [? _]%get_Ok_inv & _).
Qed.

(** A loop that returns has met objects only, and has pushed the bid of
    each accepted record, in order. *)
Lemma forEach_seatbid_Ok_inv (bidResp : value) (seatbids responses out : list value) :
  forEach_seatbid bidResp seatbids responses = Ok out →
  seat_groups_formed seatbids
  ∧ ∃ new,
      out = responses ++ new
      ∧ Forall2 (λ bid r, bidResponse bidResp bid = Ok r)
          (accepted_records seatbids) new.
Proof.
  unfold seat_groups_formed.
  revert responses. induction seatbids as [|seatbid rest IH]; intros responses H.
  - injection H as <-. split; [by split|]. exists []. by rewrite app_nil_r.
  - cbn [forEach_seatbid] in H.
    apply bind_Ok in H as (bids & [Hs ->]%get_Ok_inv & H).
    apply bind_Ok in H as (responses' & H' & H).
    apply IH in H as ([Hrest Hrec] & new & -> & Hnew).
    rewrite accepted_records_cons. unfold first_record.
    destruct (prop seatbid "bid") as [| | | | |[|bid others]|];
      try (injection H' as <-; split; [split; [by constructor|done]|by exists new]).
    apply bind_Ok in H' as (r & Hr & [= <-]).
    split.
    + split; constructor; try done. by eapply bidResponse_Ok_nullish.
    + exists (r :: new). rewrite <- app_assoc. split; [done|]. by constructor.
Qed.

Lemma forEach_seatbid_Throw (bidResp : value) (seatbids responses : list value)
    (e : error) :
  forEach_seatbid bidResp seatbids responses = Throw e → e = TypeError.
Proof.
  revert responses. induction seatbids as [|seatbid rest IH]; intros responses H;
    [done|].
  cbn [forEach_seatbid] in H. unfold get in H.
  destruct (nullish seatbid); [by injection H as <-|].
  cbn [mbind result_bind] in H.
  destruct (prop seatbid "bid") as [| | | | |[|bid others]|];
    cbn [mbind result_bind] in H; try by eapply IH.
  unfold bidResponse, get in H. destruct (nullish bid); [by injection H as <-|].
  cbn [mbind result_bind] in H. by eapply IH.
Qed.

Lemma bidResponse_fields (bidResp bid r : value) :
  bidResponse bidResp bid = Ok r →
  fields_mapped bidResp bid r ∧ deal_mapped bid r ∧ vast_mapped bid r.
Proof.
  intros H. pose proof (bidResponse_Ok_nullish _ _ _ H) as Hn.
  unfold bidResponse in H. rewrite (get_Ok _ _ Hn) in H.
  cbn [mbind result_bind] in H. cbv zeta in H. injection H as <-.
  unfold fields_mapped, deal_mapped, vast_mapped, logical_or, DEFAULT_CURRENCY,
    DEFAULT_TTL.
  pose proof (strict_eq_num_spec (prop bid "mtype") 1) as H1.
  pose proof (strict_eq_num_spec (prop bid "mtype") 2) as H2.
  assert (num 1 ≠ num 2) as H12.
  { intros E. by apply (strict_eq_num_spec (num 1) 2) in E. }
  destruct (strict_eq_num (prop bid "mtype") 1) eqn:E1;
    destruct (strict_eq_num (prop bid "mtype") 2) eqn:E2;
    [exfalso; apply H12; rewrite <- (proj1 H1 eq_refl); by apply H2| | |];
    destruct (nullish (prop bid "mtype"));
    destruct (truthy (prop bid "dealid"));
    destruct (truthy (prop bidResp "cur"));
    destruct (truthy (prop bid "adomain"));
    (split; [eexists; split; [reflexivity|]; repeat split; reflexivity|]);
    (split; [eexists; split; reflexivity|]);
    (eexists; split; [reflexivity|]; split; intros Hm;
     [try reflexivity; apply H2 in Hm; congruence
     |try reflexivity; exfalso; apply Hm; by apply H2]).
Qed.

(** X13. [interpretResponse] returns exactly when every seat group it
    loops over is an object and each group's first record (of a
    non-empty [bid] list) is an object; on a [null] or [undefined]
    group or first record it throws, and what it throws is a
    [TypeError]: the bids collected from the groups before are lost
    with it. *)
Theorem interpretResponse_returns_iff (serverResponse request : value) :
  ((∃ out, interpretResponse serverResponse request = Ok out)
   ↔ seat_groups_formed (seat_groups serverResponse))
  ∧ (∀ e, interpretResponse serverResponse request = Throw e → e = TypeError).
Proof.
  rewrite interpretResponse_forEach. split; [split|].
  - intros [out H]. by apply forEach_seatbid_Ok_inv in H as [? _].
  - intros Hf.
    destruct (forEach_seatbid_spec (response_body serverResponse)
                (seat_groups serverResponse) [] Hf) as (out & E & _).
    by exists out.
  - intros e H. by eapply forEach_seatbid_Throw.
Qed.

(** X14. Each bid [interpretResponse] returns is mapped field by field
    from the first record of its seat group: [requestId], [cpm],
    [width], [height], [ad], [creativeId] are the record's [impid],
    [price], [w], [h], [adm], [crid] (a field the record lacks is
    carried as undefined), [currency] is the body's [cur] when truthy
    and ["USD"] otherwise, [netRevenue] is [true], [ttl] is 60, and
    [meta.advertiserDomains] is the record's [adomain] when truthy and
    the empty list otherwise. *)
Theorem interpretResponse_field_mapping (serverResponse request : value)
    (out : list value) :
  interpretResponse serverResponse request = Ok out →
  Forall2 (fields_mapped (response_body serverResponse))
    (accepted_records (seat_groups serverResponse)) out.
Proof.
  rewrite interpretResponse_forEach.
  intros (_ & new & -> & H)%forEach_seatbid_Ok_inv. cbn [app].
  eapply Forall2_impl; [exact H|]. intros bid r Hr.
  by apply bidResponse_fields in Hr as (? & _ & _).
Qed.

(** X15. A bid [interpretResponse] returns has a [dealId] key exactly
    when the record's [dealid] is truthy, and then carries that value;
    for a missing, empty or otherwise falsy [dealid] the key is left
    out rather than set to an empty value. *)
Theorem interpretResponse_deal_id (serverResponse request : value)
    (out : list value) :
  interpretResponse serverResponse request = Ok out →
  Forall2 deal_mapped (accepted_records (seat_groups serverResponse)) out.
Proof.
  rewrite interpretResponse_forEach.
  intros (_ & new & -> & H)%forEach_seatbid_Ok_inv. cbn [app].
  eapply Forall2_impl; [exact H|]. intros bid r Hr.
  by apply bidResponse_fields in Hr as (_ & ? & _).
Qed.

(** X16. A bid [interpretResponse] returns has a [vastXml] key exactly
    when the record's markup-type code is 2, and the key then holds the
    record's markup ([adm], the same value as [ad]); banner bids and
    bids of an unknown code never carry [vastXml]. *)
Theorem interpretResponse_vast_xml (serverResponse request : value)
    (out : list value) :
  interpretResponse serverResponse request = Ok out →
  Forall2 vast_mapped (accepted_records (seat_groups serverResponse)) out.
Proof.
  rewrite interpretResponse_forEach.
  intros (_ & new & -> & H)%forEach_seatbid_Ok_inv. cbn [app].
  eapply Forall2_impl; [exact H|]. intros bid r Hr.
  by apply bidResponse_fields in Hr as (_ & _ & ?).
Qed.

(** ** Further properties of [getUserSyncs] *)

Lemma occurs_append (c : ascii) (a b : string) :
  occurs c (a +:+ b) = occurs c a || occurs c b.
Proof.
  induction a as [|x a IH]; [done|].
  change (occurs c (String x (a +:+ b)) = occurs c (String x a) || occurs c b).
  cbn [occurs]. by rewrite IH, orb_assoc.
Qed.

Lemma url_safe_append (a b : string) :
  url_safe (a +:+ b) = url_safe a && url_safe b.
Proof.
  induction a as [|x a IH]; [done|].
  change (url_safe (String x (a +:+ b)) = url_safe (String x a) && url_safe b).
  cbn [url_safe]. by rewrite IH, andb_assoc.
Qed.

Lemma hex_digit_unreserved (n : nat) : unreserved (hex_digit n) = true.
Proof.
  unfold hex_digit. do 16 (destruct n as [|n]; [reflexivity|]). reflexivity.
Qed.

Lemma url_safe_percent (byte : nat) : url_safe (percent byte) = true.
Proof.
  unfold percent. cbn [url_safe]. by rewrite !hex_digit_unreserved.
Qed.

Lemma url_safe_encode_unit (c : ascii) : url_safe (encode_unit c) = true.
Proof.
  unfold encode_unit. cbv zeta. destruct (unreserved c) eqn:U.
  - cbn [url_safe]. by rewrite U.
  - destruct (_ <? 128)%nat; [apply url_safe_percent|].
    by rewrite url_safe_append, !url_safe_percent.
Qed.

(** An encoded value holds unreserved characters and percent signs
    only. *)
Lemma url_safe_encodeURIComponent (v : value) :
  url_safe (encodeURIComponent NumberToString v) = true.
Proof.
  unfold encodeURIComponent.
  induction (ToString NumberToString v) as [|c s IH]; [done|].
  cbn [encodeURIComponent_string]. by rewrite url_safe_append, url_safe_encode_unit.
Qed.

Lemma url_safe_occurs (s : string) (c : ascii) :
  url_safe s = true → unreserved c = false → Ascii.eqb c "%" = false →
  occurs c s = false.
Proof.
  intros Hs Hu Hp. induction s as [|x s IH]; [done|].
  cbn [url_safe occurs] in *. apply andb_true_iff in Hs as [Hx Hs].
  rewrite (IH Hs), orb_false_r. destruct (Ascii.eqb x c) eqn:E; [|done].
  apply Ascii.eqb_eq in E as ->. by rewrite Hu, Hp in Hx.
Qed.

Lemma split_on_no_sep (sep : ascii) (p : string) :
  occurs sep p = false → split_on sep p = [p].
Proof.
  induction p as [|c p IH]; [done|]. cbn [occurs split_on].
  intros [-> Hp]%orb_false_elim. by rewrite (IH Hp).
Qed.

Lemma split_on_append (sep : ascii) (p rest : string) :
  occurs sep p = false →
  split_on sep (p +:+ String sep rest) = p :: split_on sep rest.
Proof.
  induction p as [|c p IH].
  - intros _. change ("" +:+ String sep rest) with (String sep rest).
    cbn [split_on]. by rewrite Ascii.eqb_refl.
  - cbn [occurs]. intros [Hc Hp]%orb_false_elim.
    change (String c p +:+ String sep rest) with (String c (p +:+ String sep rest)).
    cbn [split_on]. by rewrite Hc, (IH Hp).
Qed.

Lemma split_on_concat (sep : ascii) (ps : list string) :
  ps ≠ [] →
  Forall (λ p, occurs sep p = false) ps →
  split_on sep (String.concat (String sep "") ps) = ps.
Proof.
  induction ps as [|p ps IH]; [done|]. intros _ [Hp Hps]%Forall_cons.
  destruct ps as [|p' ps'].
  - by apply split_on_no_sep.
  - change (String.concat (String sep "") (p :: p' :: ps'))
      with (p +:+ String sep (String.concat (String sep "") (p' :: ps'))).
    rewrite (split_on_append _ _ _ Hp). f_equal. by apply IH.
Qed.

Lemma param_name_render (n v : string) :
  occurs "=" n = false → param_name (render (n, v)) = n.
Proof.
  unfold render. cbn [fst snd]. induction n as [|c n IH]; [done|].
  cbn [occurs]. intros [Hc Hn]%orb_false_elim.
  change (String c n +:+ "=" +:+ v) with (String c (n +:+ "=" +:+ v)).
  cbn [param_name]. by rewrite Hc, (IH Hn).
Qed.

Lemma param_value_render (n v : string) :
  occurs "=" n = false → param_value (render (n, v)) = v.
Proof.
  unfold render. cbn [fst snd]. induction n as [|c n IH]; [done|].
  cbn [occurs]. intros [Hc Hn]%orb_false_elim.
  change (String c n +:+ "=" +:+ v) with (String c (n +:+ "=" +:+ v)).
  cbn [param_value]. by rewrite Hc, (IH Hn).
Qed.

Lemma occurs_render (c : ascii) (n v : string) :
  occurs c (render (n, v)) = occurs c n || (Ascii.eqb "=" c || occurs c v).
Proof. unfold render. cbn [fst snd]. by rewrite occurs_append. Qed.

(** Parsing a query written from name/value pairs of safe strings gives
    the pairs back. *)
Lemma parse_query_render (pairs : list (string * string)) :
  pairs ≠ [] →
  Forall (λ p, url_safe p.1 = true ∧ url_safe p.2 = true) pairs →
  parse_query (String.concat "&" (render <$> pairs)) = pairs.
Proof.
  intros Hne Hsafe. unfold parse_query.
  rewrite (split_on_concat "&" (render <$> pairs)).
  - rewrite <- list_fmap_compose.
    rewrite <- (list_fmap_id pairs) at 2. apply Forall_fmap_ext_1.
    eapply Forall_impl; [exact Hsafe|]. intros [n v] [Hn Hv]. cbn [fst snd] in *.
    assert (occurs "=" n = false) as En by by apply url_safe_occurs.
    cbn. by rewrite (param_name_render _ _ En), (param_value_render _ _ En).
  - by destruct pairs.
  - apply Forall_fmap. eapply Forall_impl; [exact Hsafe|].
    intros [n v] [Hn Hv]. cbn [fst snd compose] in *. rewrite occurs_render.
    by rewrite !url_safe_occurs.
Qed.

Lemma query_pairs_safe (syncParams : gmap string value)
    (syncOptions gdprConsent uspConsent gppConsent : value) :
  Forall (λ p, url_safe p.1 = true ∧ url_safe p.2 = true)
    (query_pairs syncParams syncOptions gdprConsent uspConsent gppConsent).
Proof.
  unfold query_pairs. cbv zeta.
  repeat (apply Forall_app; split);
    repeat match goal with
           | |- Forall _ (if ?b then _ else _) => destruct b
           end;
    repeat (apply Forall_cons; split); try (apply Forall_nil; exact I);
    cbn [fst snd]; (split; [reflexivity|]);
    try apply url_safe_encodeURIComponent.
  - by destruct (truthy (prop gdprConsent "gdprApplies")).
  - by destruct (truthy (prop syncOptions "iframeEnabled")).
Qed.

Lemma query_pairs_nonempty (syncParams : gmap string value)
    (syncOptions gdprConsent uspConsent gppConsent : value) :
  query_pairs syncParams syncOptions gdprConsent uspConsent gppConsent ≠ [].
Proof.
  unfold query_pairs. cbv zeta. intros E%(f_equal length).
  rewrite !length_app in E. cbn [length] in E. lia.
Qed.

Lemma query_pairs_names (syncParams : gmap string value)
    (syncOptions gdprConsent uspConsent gppConsent : value) :
  (query_pairs syncParams syncOptions gdprConsent uspConsent gppConsent).*1
  = query_names (truthy gdprConsent) (truthy uspConsent) (gpp_given gppConsent)
      (truthy (prop (VObj syncParams) "sspId"))
      (truthy (prop (VObj syncParams) "siteId"))
      (truthy (prop (VObj syncParams) "sspUserId")).
Proof.
  unfold query_pairs, query_names. cbv zeta. rewrite !fmap_app.
  by destruct (truthy gdprConsent), (truthy uspConsent), (gpp_given gppConsent),
    (truthy (prop (VObj syncParams) "sspId")),
    (truthy (prop (VObj syncParams) "siteId")),
    (truthy (prop (VObj syncParams) "sspUserId")).
Qed.

Ltac name_in :=
  repeat first [apply list_elem_of_here | apply list_elem_of_further].

Ltac name_not_in H :=
  repeat (apply elem_of_cons in H as [H|H]; [discriminate H|]);
  by apply elem_of_nil in H.

(** Which names occur in the query. *)
Lemma query_names_member (gdpr usp gpp sspId siteId sspUserId : bool) :
  let names := query_names gdpr usp gpp sspId siteId sspUserId in
  ("gdpr" ∈ names ↔ gdpr = true)
  ∧ ("gdpr_consent" ∈ names ↔ gdpr = true)
  ∧ ("us_privacy" ∈ names ↔ usp = true)
  ∧ ("gpp" ∈ names ↔ gpp = true)
  ∧ ("gpp_sid" ∈ names ↔ gpp = true)
  ∧ ("ssp_id" ∈ names ↔ sspId = true)
  ∧ ("ssp_site_id" ∈ names ↔ siteId = true)
  ∧ ("ssp_user_id" ∈ names ↔ sspUserId = true).
Proof.
  destruct gdpr, usp, gpp, sspId, siteId, sspUserId; cbv zeta;
    unfold query_names; cbn [app];
    repeat split;
    match goal with
    | |- _ ∈ _ → _ => intros H; first [reflexivity | name_not_in H]
    | |- _ = true → _ => intros H; first [discriminate H | solve [name_in]]
    end.
Qed.

(** The parameters [sync_query] pushes are the rendered pairs; it
    throws exactly on applicable sections that bear a [length] and are
    no list. *)
Lemma sync_query_pairs (syncParams : gmap string value)
    (syncOptions gdprConsent uspConsent gppConsent : value) (params : list string) :
  sync_query syncParams syncOptions gdprConsent uspConsent gppConsent = Ok params
  ↔ (gpp_given gppConsent = true
     → isArray (prop gppConsent "applicableSections") = true)
    ∧ params
      = render <$> query_pairs syncParams syncOptions gdprConsent uspConsent
                     gppConsent.
Proof.
  unfold sync_query, query_pairs, gpp_given, sections_of, logical_or. cbv zeta.
  destruct (truthy (get_opt gppConsent "gppString")
            && truthy (get_opt (get_opt gppConsent "applicableSections") "length"));
    [destruct (prop gppConsent "applicableSections") as [| | | | |sections|]|];
    destruct (truthy gdprConsent), (truthy uspConsent),
      (truthy (prop (VObj syncParams) "sspId")),
      (truthy (prop (VObj syncParams) "siteId")),
      (truthy (prop (VObj syncParams) "sspUserId"));
    cbn [mbind result_bind app fmap list_fmap isArray];
    first
      [ split; [intros [= <-]; split; [done|reflexivity]|intros [_ ->]; reflexivity]
      | split; [done|intros [Hs _]; by specialize (Hs eq_refl)] ].
Qed.

Lemma sync_query_Throw (syncParams : gmap string value)
    (syncOptions gdprConsent uspConsent gppConsent : value) (e : error) :
  sync_query syncParams syncOptions gdprConsent uspConsent gppConsent = Throw e →
  e = TypeError.
Proof.
  unfold sync_query. cbv zeta.
  destruct (truthy (get_opt gppConsent "gppString")
            && truthy (get_opt (get_opt gppConsent "applicableSections") "length"));
    [|done].
  destruct (prop gppConsent "applicableSections"); try done;
    cbn [mbind result_bind]; by intros [= <-].
Qed.

Lemma sync_enabled_bool (syncOptions : value) :
  sync_enabled syncOptions
  ↔ truthy (prop syncOptions "iframeEnabled")
    || truthy (prop syncOptions "pixelEnabled") = true.
Proof. unfold sync_enabled. by rewrite orb_true_iff. Qed.

(** The outcome of [getUserSyncs], case by case. *)
Lemma getUserSyncs_Ok_shape (syncParams : gmap string value)
    (syncOptions serverResponses gdprConsent uspConsent gppConsent : value)
    (syncs : list value) :
  getUserSyncs syncParams syncOptions serverResponses gdprConsent uspConsent
    gppConsent = Ok syncs
  ↔ nullish syncOptions = false
    ∧ if truthy (prop syncOptions "iframeEnabled")
         || truthy (prop syncOptions "pixelEnabled")
      then (gpp_given gppConsent = true
            → isArray (prop gppConsent "applicableSections") = true)
           ∧ syncs
             = [sync_for syncOptions
                  (String.concat "&"
                     (render <$> query_pairs syncParams syncOptions gdprConsent
                                   uspConsent gppConsent))]
      else syncs = [].
Proof.
  unfold getUserSyncs, get.
  destruct (nullish syncOptions); [by split; [|intros [? _]]|].
  cbn [mbind result_bind]. rewrite <- negb_orb.
  destruct (truthy (prop syncOptions "iframeEnabled")
            || truthy (prop syncOptions "pixelEnabled")); cbn [negb].
  2:{ split; [by intros [= <-]|by intros [_ ->]]. }
  cbv zeta. rewrite bind_Ok. split.
  - intros (params & [Hs ->]%sync_query_pairs & H). split; [done|]. split; [done|].
    rewrite bool_decide_eq_false_2 in H.
    + by injection H as <-.
    + rewrite length_fmap. intros E%length_zero_iff_nil.
      by apply query_pairs_nonempty in E.
  - intros (_ & Hs & ->). eexists. split; [by apply sync_query_pairs|].
    rewrite bool_decide_eq_false_2; [done|].
    rewrite length_fmap. intros E%length_zero_iff_nil.
    by apply query_pairs_nonempty in E.
Qed.

(** The query of the one sync of a run with syncing enabled parses into
    the pairs of [query_pairs]. *)
Lemma getUserSyncs_parse (syncParams : gmap string value)
    (syncOptions serverResponses gdprConsent uspConsent gppConsent : value)
    (syncs : list value) :
  getUserSyncs syncParams syncOptions serverResponses gdprConsent uspConsent
    gppConsent = Ok syncs →
  sync_enabled syncOptions →
  ∃ q,
    syncs = [sync_for syncOptions q]
    ∧ parse_query q
      = query_pairs syncParams syncOptions gdprConsent uspConsent gppConsent.
Proof.
  intros [_ H]%getUserSyncs_Ok_shape He%sync_enabled_bool. rewrite He in H.
  destruct H as [_ ->]. eexists. split; [done|].
  apply parse_query_render; [apply query_pairs_nonempty|apply query_pairs_safe].
Qed.

(** X17. [getUserSyncs] throws a [TypeError] on sync options that are
    [null] or [undefined]; with syncing disabled (neither
    [iframeEnabled] nor [pixelEnabled] truthy) it returns no sync and
    does not look at the consent arguments, whatever they are; with
    syncing enabled it throws whenever the GPP argument carries a
    truthy [gppString] and applicable sections that bear a truthy
    [length] without being a list (a string of sections, say, which
    has no [join]). *)
Theorem getUserSyncs_disabled_or_malformed (syncParams : gmap string value)
    (syncOptions serverResponses gdprConsent uspConsent gppConsent : value) :
  (nullish syncOptions = true →
   getUserSyncs syncParams syncOptions serverResponses gdprConsent uspConsent
     gppConsent = Throw TypeError)
  ∧ (nullish syncOptions = false → ¬ sync_enabled syncOptions →
     getUserSyncs syncParams syncOptions serverResponses gdprConsent uspConsent
       gppConsent = Ok [])
  ∧ (sync_enabled syncOptions → gpp_given gppConsent = true →
     isArray (prop gppConsent "applicableSections") = false →
     ∃ e,
       getUserSyncs syncParams syncOptions serverResponses gdprConsent uspConsent
         gppConsent = Throw e).
Proof.
  split; [|split].
  - intros N. unfold getUserSyncs, get. by rewrite N.
  - intros N Hd. apply getUserSyncs_Ok_shape. split; [done|].
    destruct (truthy (prop syncOptions "iframeEnabled")
              || truthy (prop syncOptions "pixelEnabled")) eqn:E; [|done].
    destruct Hd. by apply sync_enabled_bool.
  - intros He%sync_enabled_bool Hg Hs.
    destruct (getUserSyncs syncParams syncOptions serverResponses gdprConsent
                uspConsent gppConsent) as [syncs|e] eqn:E; [|by exists e].
    apply getUserSyncs_Ok_shape in E as [_ H]. rewrite He in H.
    destruct H as [Hl _]. specialize (Hl Hg). congruence.
Qed.

(** X18. [getUserSyncs] returns no sync when neither [iframeEnabled]
    nor [pixelEnabled] is truthy, and otherwise exactly one: of type
    [iframe] when [iframeEnabled] is truthy (also when [pixelEnabled]
    is, too) and of type [image] otherwise, at the fixed sync endpoint,
    with a query whose last parameter [iframe_enabled] repeats that
    choice as [true] or [false]. *)
Theorem getUserSyncs_one_sync (syncParams : gmap string value)
    (syncOptions serverResponses gdprConsent uspConsent gppConsent : value)
    (syncs : list value) :
  getUserSyncs syncParams syncOptions serverResponses gdprConsent uspConsent
    gppConsent = Ok syncs →
  (¬ sync_enabled syncOptions → syncs = [])
  ∧ (sync_enabled syncOptions →
     ∃ q,
       syncs
       = [obj [("type", VStr (if truthy (prop syncOptions "iframeEnabled")
                              then "iframe" else "image"));
               ("url", VStr ("https://ads.adsmartx.com/sync?" +:+ q))]]
       ∧ last (parse_query q)
         = Some ("iframe_enabled",
                 if truthy (prop syncOptions "iframeEnabled")
                 then "true" else "false")).
Proof.
  intros H. split.
  - intros Hd. apply getUserSyncs_Ok_shape in H as [_ H].
    destruct (truthy (prop syncOptions "iframeEnabled")
              || truthy (prop syncOptions "pixelEnabled")) eqn:E; [|done].
    destruct Hd. by apply sync_enabled_bool.
  - intros He. destruct (getUserSyncs_parse _ _ _ _ _ _ _ H He) as (q & -> & Hq).
    exists q. split; [done|]. rewrite Hq. unfold query_pairs. cbv zeta.
    by rewrite !app_assoc, last_snoc.
Qed.

(** X19. The query of the sync URL parses back (split at [&], each
    piece at its first [=]) into exactly the name/value pairs the
    function means to send, in a fixed order: [gdpr] and
    [gdpr_consent] when GDPR consent is given, [us_privacy] when a USP
    string is, [gpp] and [gpp_sid] when the GPP argument has both a
    string and applicable sections, [ssp_id], [ssp_site_id] and
    [ssp_user_id] for the cached fields that are truthy, and
    [iframe_enabled] last.  Every name and value consists of unreserved
    characters and percent signs only, so no consent string or cached
    identifier can add, split or shadow a parameter. *)
Theorem getUserSyncs_query_round_trip (syncParams : gmap string value)
    (syncOptions serverResponses gdprConsent uspConsent gppConsent : value)
    (syncs : list value) :
  getUserSyncs syncParams syncOptions serverResponses gdprConsent uspConsent
    gppConsent = Ok syncs →
  sync_enabled syncOptions →
  ∃ q,
    syncs = [sync_for syncOptions q]
    ∧ parse_query q
      = query_pairs syncParams syncOptions gdprConsent uspConsent gppConsent
    ∧ Forall (λ p, url_safe p.1 = true ∧ url_safe p.2 = true) (parse_query q)
    ∧ (parse_query q).*1
      = query_names (truthy gdprConsent) (truthy uspConsent) (gpp_given gppConsent)
          (truthy (prop (VObj syncParams) "sspId"))
          (truthy (prop (VObj syncParams) "siteId"))
          (truthy (prop (VObj syncParams) "sspUserId")).
Proof.
  intros H He. destruct (getUserSyncs_parse _ _ _ _ _ _ _ H He) as (q & -> & Hq).
  exists q. split; [done|]. split; [done|]. rewrite Hq.
  split; [apply query_pairs_safe|apply query_pairs_names].
Qed.

(** X20. With GDPR consent given (any truthy value) the sync URL
    carries [gdpr=1] when [gdprApplies] is truthy and [gdpr=0]
    otherwise, and a [gdpr_consent] parameter that is always present:
    the encoded consent string, or the empty value when the consent
    string is missing or falsy.  Without GDPR consent neither parameter
    appears. *)
Theorem getUserSyncs_gdpr_parameters (syncParams : gmap string value)
    (syncOptions serverResponses gdprConsent uspConsent gppConsent : value)
    (syncs : list value) :
  getUserSyncs syncParams syncOptions serverResponses gdprConsent uspConsent
    gppConsent = Ok syncs →
  sync_enabled syncOptions →
  ∃ q,
    syncs = [sync_for syncOptions q]
    ∧ (truthy gdprConsent = true →
       ("gdpr", if truthy (prop gdprConsent "gdprApplies") then "1" else "0")
       ∈ parse_query q
       ∧ (truthy (prop gdprConsent "consentString") = true →
          ("gdpr_consent",
           encodeURIComponent NumberToString (prop gdprConsent "consentString"))
          ∈ parse_query q)
       ∧ (truthy (prop gdprConsent "consentString") = false →
          ("gdpr_consent", "") ∈ parse_query q))
    ∧ (truthy gdprConsent = false →
       ("gdpr" ∉ (parse_query q).*1) ∧ ("gdpr_consent" ∉ (parse_query q).*1)).
Proof.
  intros H He. destruct (getUserSyncs_parse _ _ _ _ _ _ _ H He) as (q & -> & Hq).
  exists q. split; [done|]. rewrite Hq. split.
  - intros Hg. unfold query_pairs. cbv zeta. rewrite Hg.
    split; [apply elem_of_app; left; by left|].
    split; intros Hc; rewrite Hc; apply elem_of_app; left; right; by left.
  - intros Hg. rewrite query_pairs_names.
    destruct (query_names_member (truthy gdprConsent) (truthy uspConsent)
                (gpp_given gppConsent) (truthy (prop (VObj syncParams) "sspId"))
                (truthy (prop (VObj syncParams) "siteId"))
                (truthy (prop (VObj syncParams) "sspUserId")))
      as (N1 & N2 & _).
    split; [intros Hin%N1|intros Hin%N2]; congruence.
Qed.

(** X21. The [gpp] and [gpp_sid] parameters of the sync URL come
    together or not at all: both appear exactly when the GPP argument
    has a truthy [gppString] and applicable sections with a truthy
    [length] (on a returned call: a non-empty list), and [gpp_sid] is
    then the sections joined by commas, the commas percent-encoded
    with the rest; a GPP string without sections, or sections without
    a string, sends neither. *)
Theorem getUserSyncs_gpp_parameters (syncParams : gmap string value)
    (syncOptions serverResponses gdprConsent uspConsent gppConsent : value)
    (syncs : list value) :
  getUserSyncs syncParams syncOptions serverResponses gdprConsent uspConsent
    gppConsent = Ok syncs →
  sync_enabled syncOptions →
  ∃ q,
    syncs = [sync_for syncOptions q]
    ∧ ("gpp" ∈ (parse_query q).*1 ↔ gpp_given gppConsent = true)
    ∧ ("gpp_sid" ∈ (parse_query q).*1 ↔ gpp_given gppConsent = true)
    ∧ (gpp_given gppConsent = true →
       ∃ section sections,
         prop gppConsent "applicableSections" = VArr (section :: sections)
         ∧ ("gpp", encodeURIComponent NumberToString (prop gppConsent "gppString"))
           ∈ parse_query q
         ∧ ("gpp_sid",
            encodeURIComponent NumberToString
              (VStr (join NumberToString "," (section :: sections))))
           ∈ parse_query q).
Proof.
  intros H He. destruct (getUserSyncs_parse _ _ _ _ _ _ _ H He) as (q & -> & Hq).
  exists q. split; [done|]. rewrite Hq, query_pairs_names.
  destruct (query_names_member (truthy gdprConsent) (truthy uspConsent)
              (gpp_given gppConsent) (truthy (prop (VObj syncParams) "sspId"))
              (truthy (prop (VObj syncParams) "siteId"))
              (truthy (prop (VObj syncParams) "sspUserId")))
    as (_ & _ & _ & N4 & N5 & _).
  split; [exact N4|]. split; [exact N5|].
  - intros Hg. apply getUserSyncs_Ok_shape in H as [_ H].
    apply sync_enabled_bool in He. rewrite He in H. destruct H as [Hs _].
    specialize (Hs Hg). pose proof Hg as Hg'. unfold gpp_given in Hg'.
    apply andb_true_iff in Hg' as [Hstr Hlen].
    apply get_opt_truthy in Hstr as [Hn _].
    rewrite (get_opt_prop _ "applicableSections" Hn) in Hlen.
    destruct (prop gppConsent "applicableSections") as [| | | | |[|section sections]|]
      eqn:E; try done.
    exists section, sections. split; [done|].
    unfold query_pairs, sections_of. cbv zeta. rewrite Hg, E.
    split; apply elem_of_app; right; apply elem_of_app; right; apply elem_of_app;
      left; name_in.
Qed.

(** X22. After a [build] whose first descriptor carries [params], the
    identifier parameters of the next sync URL are decided by that
    descriptor and the context alone: [ssp_id] appears exactly when
    [params.sspId] is truthy, [ssp_site_id] exactly when
    [params.siteId] is, and [ssp_user_id] exactly when
    [params.sspUserId] or the context's [ortb2.user.id] is; nothing of
    an earlier cache is sent, and a missing user identifier is left
    out rather than written as [null]. *)
Theorem build_then_sync_identifiers (firstBid : value) (others : list value)
    (bidderRequest : value) (syncParams : gmap string value)
    (syncOptions serverResponses gdprConsent uspConsent gppConsent : value)
    (syncs : list value) :
  truthy (prop firstBid "params") = true →
  getUserSyncs
    (snd (buildRequests (firstBid :: others) bidderRequest syncParams))
    syncOptions serverResponses gdprConsent uspConsent gppConsent = Ok syncs →
  sync_enabled syncOptions →
  ∃ q,
    syncs = [sync_for syncOptions q]
    ∧ ("ssp_id" ∈ (parse_query q).*1 ↔ truthy (param "sspId" firstBid) = true)
    ∧ ("ssp_site_id" ∈ (parse_query q).*1
       ↔ truthy (param "siteId" firstBid) = true)
    ∧ ("ssp_user_id" ∈ (parse_query q).*1
       ↔ truthy (param "sspUserId" firstBid) = true
         ∨ truthy (first_party_user_id bidderRequest) = true).
Proof.
  intros Hp H He. rewrite (buildRequests_cache _ _ _ _ Hp) in H.
  destruct (getUserSyncs_parse _ _ _ _ _ _ _ H He) as (q & -> & Hq).
  exists q. split; [done|]. rewrite Hq, query_pairs_names. unfold param.
  match goal with |- context [query_names ?b1 ?b2 ?b3 ?b4 ?b5 ?b6] =>
    destruct (query_names_member b1 b2 b3 b4 b5 b6)
      as (_ & _ & _ & _ & _ & N6 & N7 & N8) end.
  split; [exact N6|]. split; [exact N7|]. rewrite N8.
  change (prop (VObj (cache_of (prop firstBid "params") bidderRequest)) "sspUserId")
    with (if truthy (prop (prop firstBid "params") "sspUserId")
          then prop (prop firstBid "params") "sspUserId"
          else if truthy (first_party_user_id bidderRequest)
               then first_party_user_id bidderRequest else VNull).
  destruct (truthy (prop (prop firstBid "params") "sspUserId")) eqn:E1;
    [rewrite E1; split; [by left|done]|].
  destruct (truthy (first_party_user_id bidderRequest)) eqn:E2;
    [rewrite E2; split; [by right|done]|].
  cbn [truthy]. split; [done|by intros [?|?]].
Qed.

(** ** A further property of the validator *)

(** X23. The validator's verdict on a descriptor depends on the video
    spec it declares and on nothing else: two descriptors with the same
    [mediaTypes.video] (or both with none) get the same verdict,
    whatever their banner specs, [params] or other fields. *)
Theorem isBidRequestValid_reads_video_only (bid1 bid2 : value) :
  nullish bid1 = false → nullish bid2 = false →
  video_of bid1 = video_of bid2 →
  isBidRequestValid bid1 = isBidRequestValid bid2.
Proof.
  assert (∀ bid, nullish bid = false →
            isBidRequestValid bid
            = if truthy (video_of bid) then
                let video := video_of bid in
                let mimes := prop video "mimes" in
                if negb (truthy mimes) || negb (isArray mimes)
                   || strict_eq_num (prop mimes "length") 0
                then Ok false
                else if negb (nullish (prop video "w"))
                        && le_zero NumberToString StringToNumber (prop video "w")
                then Ok false
                else if negb (nullish (prop video "h"))
                        && le_zero NumberToString StringToNumber (prop video "h")
                then Ok false
                else Ok true
              else Ok true) as E.
  { intros bid Hn. unfold isBidRequestValid, video_of.
    rewrite (get_Ok _ _ Hn). cbn [mbind result_bind].
    destruct (truthy (get_opt (prop bid "mediaTypes") VIDEO)) eqn:T; [|done].
    apply get_opt_truthy in T as [Hm ->]. by rewrite (get_Ok _ _ Hm). }
  intros H1 H2 Hv. by rewrite (E _ H1), (E _ H2), Hv.
Qed.

(** ** The extension block beside the scanned fields *)

Lemma set_ext_fields (r r' : gmap string value) (k : string) (v : value) :
  plain_block (prop (VObj r) "ext") →
  set_ext r k v = Ok r' →
  plain_block (prop (VObj r') "ext")
  ∧ ∀ k', k' ≠ k → ext_fields r' !! k' = ext_fields r !! k'.
Proof.
  intros Hp H. rewrite (set_ext_plain _ _ _ Hp) in H. injection H as <-.
  rewrite prop_insert_eq, ext_fields_insert_ext.
  split; [apply plain_block_object|]. intros k' Hk. by rewrite lookup_insert_ne.
Qed.

Lemma scan_bids_ext_frame (r3 r6 : gmap string value) (bidderRequest : value) :
  plain_block (prop (VObj r3) "ext") →
  scan_bids r3 bidderRequest = Ok r6 →
  ∀ k, k ≠ "test" → k ≠ "sspId" → k ≠ "siteId" →
       ext_fields r6 !! k = ext_fields r3 !! k.
Proof.
  unfold scan_bids. intros P3 H k K1 K2 K3.
  destruct (prop bidderRequest "bids") as [| | | | |bids|];
    try by injection H as <-.
  apply bind_Ok in H as (b & _ & H). apply bind_Ok in H as (r4 & H4 & H).
  apply bind_Ok in H as (x & _ & H). apply bind_Ok in H as (r5 & H5 & H).
  apply bind_Ok in H as (y & _ & H).
  assert (plain_block (prop (VObj r4) "ext")
          ∧ ext_fields r4 !! k = ext_fields r3 !! k) as [P4 E4].
  { destruct b; [|by injection H4 as <-].
    destruct (set_ext_fields _ _ _ _ P3 H4) as [? E]. split; [done|by apply E]. }
  assert (plain_block (prop (VObj r5) "ext")
          ∧ ext_fields r5 !! k = ext_fields r4 !! k) as [P5 E5].
  { destruct (truthy x); [|by injection H5 as <-].
    destruct (set_ext_fields _ _ _ _ P4 H5) as [? E]. split; [done|by apply E]. }
  assert (ext_fields r6 !! k = ext_fields r5 !! k) as E6.
  { destruct (truthy y); [|by injection H as <-].
    destruct (set_ext_fields _ _ _ _ P5 H) as [_ E]. by apply E. }
  congruence.
Qed.

(** X24. The scans over the context's bids merge into the extension
    block: apart from [test], [sspId] and [siteId], every field of the
    request's [ext] is the one the library's builder put there, and
    the override adds no other field (the library's [ext] being absent
    or a plain object). *)
Theorem request_ext_keeps_library_fields buildRequest (imps : list value)
    (bidderRequest context : value) (base r : gmap string value) :
  buildRequest imps bidderRequest context = Ok base →
  plain_block (prop (VObj base) "ext") →
  request buildRequest imps bidderRequest context = Ok r →
  ∀ k, k ∉ ["test"; "sspId"; "siteId"] →
       ext_fields r !! k = ext_fields base !! k.
Proof.
  intros Hbase Hext (base' & r6 & Hbase' & _ & H6 & H)%request_Ok_steps k Hk.
  assert (base' = base) as -> by congruence.
  rewrite !not_elem_of_cons in Hk. destruct Hk as (K1 & K2 & K3 & _).
  assert (ext_fields r = ext_fields r6) as ->.
  { unfold ext_fields. cbn [prop].
    by rewrite (add_usp_lookup _ _ _ _ H), add_gdpr_lookup. }
  match type of H6 with scan_bids ?m _ = _ => set (r3 := m) in * end.
  assert (prop (VObj r3) "ext" = prop (VObj base) "ext") as E3.
  { subst r3. cbn [prop]. by rewrite !lookup_insert_ne. }
  rewrite (scan_bids_ext_frame r3 r6 bidderRequest) by (by rewrite ?E3).
  unfold ext_fields. by rewrite E3.
Qed.

(** ** The impressions of the request and the outcome of [build] *)

Lemma built_impression_eligible (bidRequests : list value) :
  Forall2 (λ bid i, built_impression bid = Some i)
    (eligible bidRequests) (omap built_impression bidRequests).
Proof.
  unfold eligible. induction bidRequests as [|bid rest IH]; [constructor|].
  rewrite filter_cons. cbn [omap list_omap].
  destruct (decide (is_Some (built_impression bid))) as [[i Hi]|Hn].
  - rewrite Hi. by constructor.
  - destruct (built_impression bid) as [i|]; [|done]. destruct Hn. by eexists.
Qed.

Lemma built_impression_override (bid : value) (i : gmap string value) :
  built_impression bid = Some i →
  ∃ imp0,
    lib_buildImp bid converter_context = Ok imp0 ∧ override_applied bid imp0 i.
Proof.
  unfold built_impression.
  destruct (imp lib_buildImp bid converter_context) as [i'|e] eqn:E; [|done].
  intros [= ->]. apply imp_Ok_shape in E as (imp0 & Himp0 & _ & H).
  exists imp0. split; [done|]. unfold override_applied. cbv zeta in H.
  assert (∀ k, k ≠ "bidfloor" →
            (if truthy (param "bidfloor" bid)
             then <["bidfloor" := param "bidfloor" bid]> imp0 else imp0) !! k
            = imp0 !! k) as F.
  { intros k Hk. destruct (truthy (param "bidfloor" bid)); [|done].
    by rewrite lookup_insert_ne. }
  destruct (truthy (media_spec BANNER bid)).
  - destruct H as (format & _ & ->).
    rewrite lookup_insert_eq, lookup_insert_ne, F by done. split; [by eexists|done].
  - destruct (truthy (media_spec VIDEO bid)); subst i.
    + by rewrite lookup_insert_ne, lookup_insert_eq, F.
    + by rewrite !F.
Qed.

(** The impression list of the payload is the library's, which holds
    the impressions [build] made. *)
Lemma buildRequests_imp_list (validBidRequests : list value)
    (bidderRequest : value) (syncParams : gmap string value) (out : value) :
  base_request_lists_imps →
  fst (buildRequests validBidRequests bidderRequest syncParams) = Ok out →
  prop (prop out "data") "imp"
  = VArr (VObj <$> omap built_impression validBidRequests).
Proof.
  intros Hlists (imps & data & -> & Hdata & ->)%buildRequests_Ok_inv.
  apply request_Ok_steps in Hdata as (base & r6 & Hbase & _ & H6 & H).
  cbn [prop]. rewrite (add_usp_lookup _ _ _ _ H), add_gdpr_lookup by done.
  rewrite (scan_bids_frame _ _ _ H6) by done.
  rewrite !lookup_insert_ne by done. by rewrite (Hlists _ _ _ _ Hbase).
Qed.

(** C5 (as the code has it). The impression list of the request
    [build] returns holds one impression for each descriptor on which
    the [imp] override returns, in order.  With a banner spec declared
    the impression carries a banner block, and its video entry is the
    one the library's builder produced: the override writes a video
    block (a copy of the declared video spec) only for a descriptor
    that declares a video spec and no banner spec, and it never removes
    a block.  So the impression of a two-format descriptor has a banner
    key, and has no video key exactly when the library's builder put
    none.  The library's request builder is taken to list the
    impressions it is handed. *)
Theorem build_impression_banner_before_video
    (validBidRequests : list value) (bidderRequest : value)
    (syncParams : gmap string value) (out : value) :
  base_request_lists_imps →
  fst (buildRequests validBidRequests bidderRequest syncParams) = Ok out →
  ∃ imps,
    prop (prop out "data") "imp" = VArr (VObj <$> imps)
    ∧ Forall2 (λ bid i,
         ∃ imp0,
           lib_buildImp bid converter_context = Ok imp0
           ∧ override_applied bid imp0 i
           ∧ (truthy (media_spec BANNER bid) = true →
              is_Some (i !! "banner")
              ∧ (i !! "video" = None ↔ imp0 !! "video" = None)))
        (eligible validBidRequests) imps.
Proof.
  intros Hlists Hout. exists (omap built_impression validBidRequests).
  split; [by eapply buildRequests_imp_list|].
  eapply Forall2_impl; [apply built_impression_eligible|].
  intros bid i (imp0 & Himp0 & Ho)%built_impression_override.
  exists imp0. split; [done|]. split; [done|]. intros Hb.
  unfold override_applied in Ho. rewrite Hb in Ho. destruct Ho as [Hbanner Hvideo].
  split; [done|]. by rewrite Hvideo.
Qed.



End Adapter.

(** ** The properties on sample inputs *)

Lemma base_buildRequest_lists_imps : base_request_lists_imps base_buildRequest.
Proof. intros imps bidderRequest context base [= <-]. reflexivity. Qed.

Lemma base_buildRequest_ext_plain : base_ext_plain base_buildRequest.
Proof. intros imps bidderRequest context base [= <-]. by left. Qed.

Lemma base_buildRequest_regs_plain : base_regs_plain base_buildRequest.
Proof. intros imps bidderRequest context base [= <-]. split; by left. Qed.

Lemma base_builders_do_return : base_builders_return base_buildImp base_buildRequest.
Proof. split; intros; by eexists. Qed.

(** C1 on a video spec of width 0: the validator rejects it. *)
Lemma isBidRequestValid_spec_witness :
  nullish video_bid_zero_width = false
  ∧ declares_video video_bid_zero_width
  ∧ isBidRequestValid sample_NumberToString sample_StringToNumber
      video_bid_zero_width = Ok false.
Proof.
  assert (Hn : nullish video_bid_zero_width = false) by reflexivity.
  assert (Hd : declares_video video_bid_zero_width) by reflexivity.
  split; [exact Hn|]. split; [exact Hd|].
  destruct (isBidRequestValid_spec sample_NumberToString sample_StringToNumber
              video_bid_zero_width Hn) as (_ & Hv & _).
  destruct (Hv Hd) as [Hiff _]. apply Hiff. right; left.
  unfold dimension_rejected. split; [|split].
  - intros H. vm_compute in H. discriminate H.
  - intros H. vm_compute in H. discriminate H.
  - reflexivity.
Defined.




(** C4 on the same response: its accepted records carry the codes 1, 2
    and 999. *)
Lemma interpretResponse_media_type_witness :
  seat_groups_formed sample_seatbids
  ∧ ∃ out,
      interpretResponse sample_response VUndefined = Ok out
      ∧ Forall2 media_type_resolved (accepted_records sample_seatbids) out.
Proof.
  assert (Hf : seat_groups_formed sample_seatbids).
  { split; vm_compute; repeat constructor. }
  split; [exact Hf|].
  exact (interpretResponse_media_type sample_response VUndefined sample_seatbids
           eq_refl eq_refl eq_refl Hf).
Defined.

(** Against C5 as the specification states it: the override sets the
    banner block of a two-format descriptor's impression and leaves its
    video entry alone, so with any library builder that has put a video
    block on the impression the request carries an impression with
    both; so it is with a builder that fills the video block from the
    declared video spec. *)
Lemma build_keeps_library_video_block :
  truthy (media_spec BANNER multi_format_bid) = true
  ∧ truthy (media_spec VIDEO multi_format_bid) = true
  ∧ (∀ lib_buildImp lib_buildRequest bidderRequest syncParams out imp0,
       lib_buildImp multi_format_bid converter_context = Ok imp0 →
       base_request_lists_imps lib_buildRequest →
       fst (buildRequests lib_buildImp lib_buildRequest [multi_format_bid]
              bidderRequest syncParams) = Ok out →
       ∃ i,
         prop (prop out "data") "imp" = VArr [VObj i]
         ∧ is_Some (i !! "banner")
         ∧ i !! "video" = imp0 !! "video")
  ∧ ∃ out i,
      fst (buildRequests filling_buildImp base_buildRequest [multi_format_bid]
             context_plain syncParams_init) = Ok out
      ∧ prop (prop out "data") "imp" = VArr [VObj i]
      ∧ is_Some (i !! "banner")
      ∧ i !! "video" = Some (video_spec (num 640)).
Proof.
  split; [reflexivity|]. split; [reflexivity|]. split.
  - intros bI bR bidderRequest syncParams out imp0 Himp0 Hlists Hout.
    rewrite (buildRequests_imp_list bI bR _ _ _ _ Hlists Hout).
    cbn [omap list_omap].
    destruct (built_impression bI multi_format_bid) as [i|] eqn:E.
    + destruct (built_impression_override bI _ _ E) as (imp0' & Himp0' & Ho).
      assert (imp0' = imp0) as -> by congruence.
      exists i. split; [done|]. exact Ho.
    + unfold built_impression, imp in E. rewrite Himp0 in E. discriminate E.
  - eexists _, _. split; [vm_compute; reflexivity|].
    split; [reflexivity|]. split; [by eexists|reflexivity].
Qed.

(** C5 as amended, on a two-format descriptor, a descriptor without
    [mediaTypes] and a video descriptor, with a library builder that
    sets the impression id alone. *)
Lemma build_impression_banner_before_video_witness :
  ∃ out i1 i2,
    fst (buildRequests base_buildImp base_buildRequest
           [multi_format_bid; bid_without_mediaTypes; video_bid] context_plain
           syncParams_init) = Ok out
    ∧ eligible base_buildImp
        [multi_format_bid; bid_without_mediaTypes; video_bid]
      = [multi_format_bid; video_bid]
    ∧ prop (prop out "data") "imp" = VArr [VObj i1; VObj i2]
    ∧ is_Some (i1 !! "banner") ∧ i1 !! "video" = None
    ∧ i2 !! "banner" = None ∧ i2 !! "video" = Some (video_spec (num 640)).
Proof.
  assert (∃ out,
            fst (buildRequests base_buildImp base_buildRequest
                   [multi_format_bid; bid_without_mediaTypes; video_bid]
                   context_plain syncParams_init) = Ok out) as [out Hout].
  { eexists. vm_compute. reflexivity. }
  assert (eligible base_buildImp
            [multi_format_bid; bid_without_mediaTypes; video_bid]
          = [multi_format_bid; video_bid]) as He.
  { vm_compute. reflexivity. }
  destruct (build_impression_banner_before_video base_buildImp base_buildRequest
              _ _ _ out base_buildRequest_lists_imps Hout) as (imps & Himps & Hf).
  rewrite He in Hf.
  apply Forall2_cons_inv_l in Hf as (i1 & rest & H1 & Hf & ->).
  apply Forall2_cons_inv_l in Hf as (i2 & rest' & H2 & Hf & ->).
  apply Forall2_nil_inv_l in Hf as ->.
  exists out, i1, i2. split; [exact Hout|]. split; [exact He|].
  split; [exact Himps|].
  destruct H1 as (imp01 & E1 & _ & K1). destruct H2 as (imp02 & E2 & O2 & _).
  destruct (K1 eq_refl) as [Hb1 Hv1].
  injection E1 as <-. injection E2 as <-.
  split; [exact Hb1|]. split; [by apply Hv1|]. exact O2.
Defined.

(** Against C6 as the specification states it: for a consent object
    without a consent string the [consent] key of the built [user.ext]
    holds [undefined], not an empty value, and the JSON serialization
    of the block leaves the key out. *)
Lemma build_consent_undefined_left_out :
  prop (prop context_gdpr "gdprConsent") "consentString" = VUndefined
  ∧ ∃ out user_ext,
      fst (buildRequests base_buildImp base_buildRequest [banner_bid]
             context_gdpr syncParams_init) = Ok out
      ∧ prop (prop (prop out "data") "user") "ext" = VObj user_ext
      ∧ user_ext !! "consent" = Some VUndefined
      ∧ user_ext !! "consent" ≠ Some (VStr "")
      ∧ json_members user_ext !! "consent" = None.
Proof.
  split; [reflexivity|]. eexists _, _.
  split; [vm_compute; reflexivity|]. split; [vm_compute; reflexivity|].
  split; [vm_compute; reflexivity|]. split; [|vm_compute; reflexivity].
  intros H. vm_compute in H. discriminate H.
Qed.

(** C6 as amended, on a context whose GDPR consent object has no
    consent string. *)
Lemma build_gdpr_blocks_witness :
  truthy (prop context_gdpr "gdprConsent") = true
  ∧ prop (prop context_gdpr "gdprConsent") "consentString" = VUndefined
  ∧ ∃ out regs_ext user_ext,
      fst (buildRequests base_buildImp base_buildRequest [banner_bid]
             context_gdpr syncParams_init) = Ok out
      ∧ prop (prop (prop out "data") "regs") "ext" = VObj regs_ext
      ∧ regs_ext !! "gdpr" = Some (num 1)
      ∧ prop (prop (prop out "data") "user") "ext" = VObj user_ext
      ∧ user_ext !! "consent" = Some VUndefined
      ∧ json_members user_ext !! "consent" = None.
Proof.
  assert (Hg : truthy (prop context_gdpr "gdprConsent") = true) by reflexivity.
  assert (Hc : prop (prop context_gdpr "gdprConsent") "consentString" = VUndefined)
    by reflexivity.
  split; [exact Hg|]. split; [exact Hc|].
  assert (∃ out,
            fst (buildRequests base_buildImp base_buildRequest [banner_bid]
                   context_gdpr syncParams_init) = Ok out) as [out Hout].
  { eexists. vm_compute. reflexivity. }
  exists out.
  destruct (build_gdpr_blocks base_buildImp base_buildRequest _ _ _ out Hout Hg)
    as (regs_ext & user_ext & H1 & H2 & H3 & _ & H5).
  exists regs_ext, user_ext.
  split; [exact Hout|]. split; [exact H1|]. split; [exact H2|].
  split; [exact H3|exact (H5 Hc)].
Defined.

(** Against C7 as the specification states it: the only descriptor of
    the batch carries [testMode = 1], an [sspId] and a [siteId], the
    context has no [bids] list, and the built request has no [ext]
    block at all. *)
Lemma build_ext_ignores_descriptor_list :
  test_mode bid_with_partner_params
  ∧ truthy (param "sspId" bid_with_partner_params) = true
  ∧ truthy (param "siteId" bid_with_partner_params) = true
  ∧ ∃ out data,
      fst (buildRequests base_buildImp base_buildRequest
             [bid_with_partner_params] context_plain syncParams_init) = Ok out
      ∧ prop out "data" = VObj data
      ∧ data !! "ext" = None.
Proof.
  split; [reflexivity|]. split; [reflexivity|]. split; [reflexivity|].
  eexists _, _. split; [vm_compute; reflexivity|].
  split; [vm_compute; reflexivity|]. vm_compute. reflexivity.
Qed.

(** C7 as amended, on a context whose [bids] list holds a descriptor
    without partner identifiers followed by one with them. *)
Lemma build_ext_scans_context_bids_witness :
  prop context_bids "bids" = VArr [banner_bid; bid_with_partner_params]
  ∧ ∃ out imps base data,
      fst (buildRequests base_buildImp base_buildRequest [banner_bid]
             context_bids syncParams_init) = Ok out
      ∧ base_buildRequest imps context_bids converter_context = Ok base
      ∧ prop out "data" = VObj data
      ∧ ((Exists test_mode [banner_bid; bid_with_partner_params]
          ∧ ext_fields data !! "test" = Some (num 1))
         ∨ (Forall (λ bid, ¬ test_mode bid) [banner_bid; bid_with_partner_params]
            ∧ ext_fields data !! "test" = ext_fields base !! "test"))
      ∧ (∀ k, k = "sspId" ∨ k = "siteId" →
         (∃ bid, first_carrying k [banner_bid; bid_with_partner_params] bid
                 ∧ ext_fields data !! k = Some (param k bid))
         ∨ (none_carrying k [banner_bid; bid_with_partner_params]
            ∧ ext_fields data !! k = ext_fields base !! k)).
Proof.
  assert (Hb : prop context_bids "bids" = VArr [banner_bid; bid_with_partner_params])
    by reflexivity.
  split; [exact Hb|].
  assert (∃ out,
            fst (buildRequests base_buildImp base_buildRequest [banner_bid]
                   context_bids syncParams_init) = Ok out) as [out Hout].
  { eexists. vm_compute. reflexivity. }
  exists out.
  destruct (build_ext_scans_context_bids base_buildImp base_buildRequest _ _ _ out _
              base_buildRequest_ext_plain Hout Hb)
    as (imps & base & data & H1 & H2 & H3 & H4 & _).
  exists imps, base, data. repeat (split; [assumption|]). exact H4.
Defined.

(** C8 on a first descriptor with [sspUserId = "A"] and a context with
    [ortb2.user.id = "B"]. *)
Lemma build_stores_sync_params_witness :
  nullish bid_with_partner_params = false
  ∧ truthy (prop bid_with_partner_params "params") = true
  ∧ prop (prop bid_with_partner_params "params") "sspUserId" = VStr "A"
  ∧ first_party_user_id context_first_party = VStr "B"
  ∧ sync_enabled (obj [("iframeEnabled", VBool true)])
  ∧ sections_listed VUndefined
  ∧ ∃ ty url,
      getUserSyncs sample_NumberToString
        (snd (buildRequests base_buildImp base_buildRequest
                [bid_with_partner_params; banner_bid] context_first_party
                syncParams_init))
        (obj [("iframeEnabled", VBool true)]) (VArr []) VUndefined VUndefined
        VUndefined
      = Ok [obj [("type", VStr ty); ("url", VStr url)]]
      ∧ contains "ssp_user_id=A" url.
Proof.
  assert (Hn : nullish bid_with_partner_params = false) by reflexivity.
  assert (Hp : truthy (prop bid_with_partner_params "params") = true) by reflexivity.
  assert (HA : prop (prop bid_with_partner_params "params") "sspUserId" = VStr "A")
    by reflexivity.
  assert (HB : first_party_user_id context_first_party = VStr "B") by reflexivity.
  assert (He : sync_enabled (obj [("iframeEnabled", VBool true)]))
    by (left; reflexivity).
  assert (Hs : sections_listed VUndefined) by (left; reflexivity).
  repeat (split; [assumption|]).
  destruct (build_stores_sync_params sample_NumberToString base_buildImp
              base_buildRequest bid_with_partner_params [banner_bid]
              context_first_party syncParams_init Hn Hp) as (_ & _ & _ & H).
  exact (H HA HB _ (VArr []) VUndefined VUndefined VUndefined He Hs).
Defined.

(** C9 on a descriptor carrying [testMode], [sspId] and [siteId] and a
    context without a [bids] list. *)
Lemma build_ext_untouched_without_context_bids_witness :
  isArray (prop context_plain "bids") = false
  ∧ ∃ out imps base data,
      fst (buildRequests base_buildImp base_buildRequest
             [bid_with_partner_params] context_plain syncParams_init) = Ok out
      ∧ base_buildRequest imps context_plain converter_context = Ok base
      ∧ prop out "data" = VObj data
      ∧ data !! "ext" = base !! "ext".
Proof.
  assert (Hb : isArray (prop context_plain "bids") = false) by reflexivity.
  split; [exact Hb|].
  assert (∃ out,
            fst (buildRequests base_buildImp base_buildRequest
                   [bid_with_partner_params] context_plain syncParams_init)
            = Ok out) as [out Hout].
  { eexists. vm_compute. reflexivity. }
  exists out.
  destruct (build_ext_untouched_without_context_bids base_buildImp
              base_buildRequest _ _ _ out Hout Hb) as (imps & base & data & H).
  exists imps, base, data. split; [exact Hout|exact H].
Defined.

(** C10 on a first descriptor without [params], after an earlier build
    stored three values. *)
Lemma build_without_params_keeps_sync_params_witness :
  nullish video_bid = false
  ∧ truthy (prop video_bid "params") = false
  ∧ snd (buildRequests base_buildImp base_buildRequest [video_bid; banner_bid]
           context_plain stored_params) = stored_params.
Proof.
  assert (Hn : nullish video_bid = false) by reflexivity.
  assert (Hp : truthy (prop video_bid "params") = false) by reflexivity.
  split; [exact Hn|]. split; [exact Hp|].
  destruct (build_without_params_keeps_sync_params sample_NumberToString
              base_buildImp base_buildRequest video_bid [banner_bid] context_plain
              stored_params Hn Hp) as (H & _).
  exact H.
Defined.

Lemma imp_bidfloor_witness :
  ∃ i imp0,
    imp base_buildImp bid_with_floor converter_context = Ok i
    ∧ base_buildImp bid_with_floor converter_context = Ok imp0
    ∧ i !! "bidfloor" = Some (VNum (Fin (Q2Qc (1 # 2))))
    ∧ imp0 !! "bidfloor" = None.
Proof.
  assert (∃ i, imp base_buildImp bid_with_floor converter_context = Ok i)
    as [i Hi].
  { eexists. vm_compute. reflexivity. }
  destruct (imp_bidfloor base_buildImp _ _ i Hi) as (imp0 & Himp0 & Hfloor).
  exists i, imp0. split; [done|]. split; [done|]. split; [exact Hfloor|].
  injection Himp0 as <-. reflexivity.
Defined.

Lemma imp_keeps_library_fields_witness :
  ∃ i, imp base_buildImp bid_with_floor converter_context = Ok i
       ∧ i !! "id" = Some (VStr "7abc") ∧ i !! "tagid" = None.
Proof.
  assert (∃ i, imp base_buildImp bid_with_floor converter_context = Ok i)
    as [i Hi].
  { eexists. vm_compute. reflexivity. }
  destruct (imp_keeps_library_fields base_buildImp _ _ i Hi) as (imp0 & Himp0 & Hk).
  exists i. split; [done|]. injection Himp0 as <-.
  split; rewrite Hk by done; reflexivity.
Defined.

Lemma imp_banner_format_witness :
  ∃ i, imp base_buildImp banner_bid converter_context = Ok i
       ∧ i !! "banner"
         = Some (obj [("format",
                       VArr [obj [("w", num 300); ("h", num 250)];
                             obj [("w", num 728); ("h", num 90)]])]).
Proof.
  assert (∃ i, imp base_buildImp banner_bid converter_context = Ok i) as [i Hi].
  { eexists. vm_compute. reflexivity. }
  destruct (imp_banner_format base_buildImp _ _ i Hi eq_refl)
    as (sizes & format & Hs & Hb & _ & Hf).
  exists i. split; [done|]. rewrite Hb. injection Hs as <-.
  apply Forall2_cons_inv_l in Hf as (f1 & fs & H1 & Hf & ->).
  apply Forall2_cons_inv_l in Hf as (f2 & fs' & H2 & Hf & ->).
  apply Forall2_nil_inv_l in Hf as ->.
  by rewrite (H1 _ eq_refl), (H2 _ eq_refl).
Defined.

Lemma imp_video_block_witness :
  ∃ i, imp base_buildImp video_bid converter_context = Ok i
       ∧ i !! "video" = Some (video_spec (num 640))
       ∧ prop (video_spec (num 640)) "mimes" = VArr [VStr "video/mp4"].
Proof.
  assert (∃ i, imp base_buildImp video_bid converter_context = Ok i) as [i Hi].
  { eexists. vm_compute. reflexivity. }
  destruct (imp_video_block sample_NumberToString sample_StringToNumber
              base_buildImp video_bid converter_context i
              (list_to_map [("mimes", VArr [VStr "video/mp4"]); ("w", num 640);
                            ("h", num 480)]) Hi eq_refl eq_refl)
    as [Hv Hvalid].
  exists i. split; [done|]. split; [exact Hv|].
  destruct (Hvalid eq_refl) as [(m & ms & Hm) _]. reflexivity.
Defined.

Lemma build_envelope_and_payload_constants_witness :
  ∃ out data,
    fst (buildRequests base_buildImp base_buildRequest [banner_bid] context_plain
           syncParams_init) = Ok out
    ∧ prop out "method" = VStr "POST"
    ∧ prop out "data" = VObj data
    ∧ data !! "cur" = Some (VArr [VStr "USD"])
    ∧ data !! "tmax" = Some (num 3000)
    ∧ data !! "test" = Some (num 0).
Proof.
  assert (∃ out, fst (buildRequests base_buildImp base_buildRequest [banner_bid]
                        context_plain syncParams_init) = Ok out) as [out Hout].
  { eexists. vm_compute. reflexivity. }
  destruct (build_envelope_and_payload_constants base_buildImp base_buildRequest
              _ _ _ out Hout) as (data & -> & Hcur & Htmax & Htest).
  eexists; exists data. split; [exact Hout|]. split; [reflexivity|].
  split; [reflexivity|]. split; [exact Hcur|]. split; [exact Htmax|exact Htest].
Defined.

Lemma request_keeps_library_fields_witness :
  ∃ r,
    request rich_buildRequest [VObj ∅] context_gdpr converter_context = Ok r
    ∧ r !! "imp" = Some (VArr [VObj ∅])
    ∧ r !! "site" = Some (obj [("page", VStr "https://example.com/")])
    ∧ r !! "device" = None.
Proof.
  assert (∃ r, request rich_buildRequest [VObj ∅] context_gdpr converter_context
               = Ok r) as [r Hr].
  { eexists. vm_compute. reflexivity. }
  destruct (request_keeps_library_fields rich_buildRequest _ _ _ r Hr)
    as (base & Hbase & Hk).
  assert (∀ k : string,
            bool_decide (k ∈ ["cur"; "tmax"; "test"; "ext"; "regs"; "user"]) = false →
            k ∉ ["cur"; "tmax"; "test"; "ext"; "regs"; "user"]) as Hout.
  { intros k Hb Hin. apply bool_decide_eq_false in Hb. by apply Hb. }
  exists r. split; [exact Hr|]. injection Hbase as <-.
  rewrite !Hk by (apply Hout; vm_compute; reflexivity).
  repeat split; vm_compute; reflexivity.
Defined.

Lemma request_without_consent_witness :
  ∃ r,
    request rich_buildRequest [] context_plain converter_context = Ok r
    ∧ r !! "regs" = Some (obj [("coppa", num 1); ("ext", obj [("dsa", num 2)])])
    ∧ r !! "user" = Some (obj [("id", VStr "B")]).
Proof.
  assert (∃ r, request rich_buildRequest [] context_plain converter_context = Ok r)
    as [r Hr].
  { eexists. vm_compute. reflexivity. }
  destruct (request_without_consent rich_buildRequest _ _ _ r Hr eq_refl eq_refl)
    as (base & Hbase & Hregs & Huser).
  exists r. split; [exact Hr|]. injection Hbase as <-.
  rewrite Hregs, Huser. split; vm_compute; reflexivity.
Defined.

Lemma request_gdpr_replaces_blocks_witness :
  ∃ r,
    request rich_buildRequest [] context_gdpr converter_context = Ok r
    ∧ r !! "user" = Some (obj [("ext", obj [("consent", VUndefined)])])
    ∧ r !! "regs"
      = Some (obj [("ext", obj [("gdpr", num 1); ("us_privacy", VStr "1YNN")])]).
Proof.
  assert (∃ r, request rich_buildRequest [] context_gdpr converter_context = Ok r)
    as [r Hr].
  { eexists. vm_compute. reflexivity. }
  destruct (request_gdpr_replaces_blocks rich_buildRequest _ _ _ r Hr eq_refl)
    as [Huser Hregs].
  exists r. split; [exact Hr|]. split; [exact Huser|exact Hregs].
Defined.

Lemma request_usp_merges_witness :
  ∃ r,
    request rich_buildRequest [] context_usp converter_context = Ok r
    ∧ r !! "regs"
      = Some (obj [("coppa", num 1);
                   ("ext", obj [("dsa", num 2); ("us_privacy", VStr "1YNN")])])
    ∧ r !! "user" = Some (obj [("id", VStr "B")]).
Proof.
  assert (∃ r, request rich_buildRequest [] context_usp converter_context = Ok r)
    as [r Hr].
  { eexists. vm_compute. reflexivity. }
  assert (∃ base, rich_buildRequest [] context_usp converter_context = Ok base)
    as [base Hbase] by (by eexists).
  assert (plain_block (prop (VObj base) "regs")) as P1.
  { injection Hbase as <-. right. eexists. reflexivity. }
  assert (plain_block (prop (prop (VObj base) "regs") "ext")) as P2.
  { injection Hbase as <-. right. eexists. reflexivity. }
  destruct (request_usp_merges rich_buildRequest _ _ _ base r Hbase P1 P2 Hr
              eq_refl eq_refl) as [Hregs Huser].
  exists r. split; [exact Hr|]. rewrite Hregs, Huser. injection Hbase as <-.
  split; reflexivity.
Defined.

Lemma build_throws_without_context_witness :
  fst (buildRequests base_buildImp base_buildRequest [bid_with_partner_params]
         VUndefined stored_params) = Throw TypeError
  ∧ snd (buildRequests base_buildImp base_buildRequest [bid_with_partner_params]
           VUndefined stored_params)
    = list_to_map [("sspId", VStr "ssp123"); ("siteId", VStr "site456");
                   ("sspUserId", VStr "A")].
Proof.
  split; [|vm_compute; reflexivity].
  apply (build_throws_without_context base_buildImp base_buildRequest
           [bid_with_partner_params] VUndefined stored_params eq_refl).
  - apply base_builders_do_return.
  - repeat constructor. intros _. eexists. split; [reflexivity|].
    repeat constructor.
Defined.

Lemma interpretResponse_field_mapping_witness :
  ∃ r1 r2,
    interpretResponse deal_response VUndefined = Ok [r1; r2]
    ∧ prop r1 "requestId" = VStr "1abc"
    ∧ prop r1 "currency" = VStr "EUR"
    ∧ prop r1 "cpm" = num 2
    ∧ prop (prop r1 "meta") "advertiserDomains" = VArr [VStr "example.com"]
    ∧ prop r2 "cpm" = VUndefined
    ∧ prop (prop r2 "meta") "advertiserDomains" = VArr [].
Proof.
  assert (∃ out, interpretResponse deal_response VUndefined = Ok out) as [out Hout].
  { eexists. vm_compute. reflexivity. }
  pose proof (interpretResponse_field_mapping deal_response VUndefined out Hout)
    as Hf.
  apply Forall2_cons_inv_l in Hf as (r1 & rest & H1 & Hf & ->).
  apply Forall2_cons_inv_l in Hf as (r2 & rest' & H2 & Hf & ->).
  apply Forall2_nil_inv_l in Hf as ->.
  exists r1, r2. split; [exact Hout|].
  destruct H1 as (o1 & -> & Hid & Hcpm & Hcur & _ & _ & _ & _ & _ & _ & Hmeta).
  destruct H2 as (o2 & -> & _ & Hcpm2 & _ & _ & _ & _ & _ & _ & _ & Hmeta2).
  cbn [prop]. rewrite Hid, Hcpm, Hcur, Hmeta, Hcpm2, Hmeta2.
  repeat split; vm_compute; reflexivity.
Defined.

Lemma interpretResponse_deal_id_witness :
  ∃ o1 o2,
    interpretResponse deal_response VUndefined = Ok [VObj o1; VObj o2]
    ∧ o1 !! "dealId" = Some (VStr "deal123")
    ∧ o2 !! "dealId" = None.
Proof.
  assert (∃ out, interpretResponse deal_response VUndefined = Ok out) as [out Hout].
  { eexists. vm_compute. reflexivity. }
  pose proof (interpretResponse_deal_id deal_response VUndefined out Hout) as Hf.
  apply Forall2_cons_inv_l in Hf as (r1 & rest & H1 & Hf & ->).
  apply Forall2_cons_inv_l in Hf as (r2 & rest' & H2 & Hf & ->).
  apply Forall2_nil_inv_l in Hf as ->.
  destruct H1 as (o1 & -> & Hd1). destruct H2 as (o2 & -> & Hd2).
  exists o1, o2. split; [exact Hout|]. split; [exact Hd1|exact Hd2].
Defined.

Lemma interpretResponse_vast_xml_witness :
  ∃ o1 o2,
    interpretResponse deal_response VUndefined = Ok [VObj o1; VObj o2]
    ∧ o1 !! "vastXml" = None
    ∧ o2 !! "vastXml" = Some (VStr "<VAST/>").
Proof.
  assert (∃ out, interpretResponse deal_response VUndefined = Ok out) as [out Hout].
  { eexists. vm_compute. reflexivity. }
  pose proof (interpretResponse_vast_xml deal_response VUndefined out Hout) as Hf.
  apply Forall2_cons_inv_l in Hf as (r1 & rest & H1 & Hf & ->).
  apply Forall2_cons_inv_l in Hf as (r2 & rest' & H2 & Hf & ->).
  apply Forall2_nil_inv_l in Hf as ->.
  destruct H1 as (o1 & -> & _ & Hv1). destruct H2 as (o2 & -> & Hv2 & _).
  exists o1, o2. split; [exact Hout|]. split.
  - apply Hv1. intros E. vm_compute in E. discriminate E.
  - apply (Hv2 eq_refl).
Defined.

Lemma getUserSyncs_one_sync_witness :
  ∃ q,
    getUserSyncs sample_NumberToString stored_params sync_pixel (VArr [])
      VUndefined VUndefined VUndefined
    = Ok [obj [("type", VStr "image");
               ("url", VStr ("https://ads.adsmartx.com/sync?" +:+ q))]]
    ∧ last (parse_query q) = Some ("iframe_enabled", "false").
Proof.
  assert (∃ syncs,
            getUserSyncs sample_NumberToString stored_params sync_pixel (VArr [])
              VUndefined VUndefined VUndefined = Ok syncs) as [syncs Hs].
  { eexists. vm_compute. reflexivity. }
  destruct (getUserSyncs_one_sync sample_NumberToString _ _ _ _ _ _ syncs Hs)
    as [_ Hone].
  destruct Hone as (q & -> & Hlast); [right; reflexivity|].
  exists q. split; [exact Hs|exact Hlast].
Defined.

Lemma getUserSyncs_query_round_trip_witness :
  ∃ q,
    getUserSyncs sample_NumberToString hostile_params sync_iframe (VArr [])
      gdpr_sample (VStr "1YNN") gpp_sample
    = Ok [sync_for sync_iframe q]
    ∧ parse_query q
      = [("gdpr", "1"); ("gdpr_consent", "CO%2FNS"); ("us_privacy", "1YNN");
         ("gpp", "GPP_STRING"); ("gpp_sid", "7%2C8");
         ("ssp_id", "a%26gdpr%3D0"); ("ssp_site_id", "s%201");
         ("iframe_enabled", "true")].
Proof.
  assert (∃ syncs,
            getUserSyncs sample_NumberToString hostile_params sync_iframe (VArr [])
              gdpr_sample (VStr "1YNN") gpp_sample = Ok syncs) as [syncs Hs].
  { eexists. vm_compute. reflexivity. }
  destruct (getUserSyncs_query_round_trip sample_NumberToString _ _ _ _ _ _ syncs Hs)
    as (q & -> & Hq & _ & _); [left; reflexivity|].
  exists q. split; [exact Hs|]. rewrite Hq. vm_compute. reflexivity.
Defined.

Lemma getUserSyncs_gdpr_parameters_witness :
  ∃ q,
    getUserSyncs sample_NumberToString syncParams_init sync_iframe (VArr [])
      gdpr_without_string VUndefined VUndefined
    = Ok [sync_for sync_iframe q]
    ∧ ("gdpr", "0") ∈ parse_query q
    ∧ ("gdpr_consent", "") ∈ parse_query q.
Proof.
  assert (∃ syncs,
            getUserSyncs sample_NumberToString syncParams_init sync_iframe (VArr [])
              gdpr_without_string VUndefined VUndefined = Ok syncs) as [syncs Hs].
  { eexists. vm_compute. reflexivity. }
  destruct (getUserSyncs_gdpr_parameters sample_NumberToString _ _ _ _ _ _ syncs Hs)
    as (q & -> & Hg & _); [left; reflexivity|].
  destruct (Hg eq_refl) as (Hgdpr & _ & Hempty).
  exists q. split; [exact Hs|]. split; [exact Hgdpr|exact (Hempty eq_refl)].
Defined.

Lemma getUserSyncs_gpp_parameters_witness :
  ∃ q,
    getUserSyncs sample_NumberToString syncParams_init sync_iframe (VArr [])
      VUndefined VUndefined gpp_sample
    = Ok [sync_for sync_iframe q]
    ∧ ("gpp", "GPP_STRING") ∈ parse_query q
    ∧ ("gpp_sid", "7%2C8") ∈ parse_query q.
Proof.
  assert (∃ syncs,
            getUserSyncs sample_NumberToString syncParams_init sync_iframe (VArr [])
              VUndefined VUndefined gpp_sample = Ok syncs) as [syncs Hs].
  { eexists. vm_compute. reflexivity. }
  destruct (getUserSyncs_gpp_parameters sample_NumberToString _ _ _ _ _ _ syncs Hs)
    as (q & -> & _ & _ & Hg); [left; reflexivity|].
  destruct (Hg eq_refl) as (section & sections & E & Hgpp & Hsid).
  exists q. split; [exact Hs|]. split; [exact Hgpp|].
  vm_compute in E. injection E as <- <-. exact Hsid.
Defined.

Lemma build_then_sync_identifiers_witness :
  ∃ q,
    getUserSyncs sample_NumberToString
      (snd (buildRequests base_buildImp base_buildRequest [bid_with_site_only]
              context_first_party stored_params))
      sync_iframe (VArr []) VUndefined VUndefined VUndefined
    = Ok [sync_for sync_iframe q]
    ∧ "ssp_site_id" ∈ (parse_query q).*1
    ∧ "ssp_user_id" ∈ (parse_query q).*1
    ∧ "ssp_id" ∉ (parse_query q).*1.
Proof.
  assert (∃ syncs,
            getUserSyncs sample_NumberToString
              (snd (buildRequests base_buildImp base_buildRequest
                      [bid_with_site_only] context_first_party stored_params))
              sync_iframe (VArr []) VUndefined VUndefined VUndefined = Ok syncs)
    as [syncs Hs].
  { eexists. vm_compute. reflexivity. }
  destruct (build_then_sync_identifiers sample_NumberToString base_buildImp
              base_buildRequest bid_with_site_only [] context_first_party
              stored_params sync_iframe (VArr []) VUndefined VUndefined VUndefined
              syncs eq_refl Hs)
    as (q & -> & Hid & Hsite & Huser); [left; reflexivity|].
  exists q. split; [exact Hs|]. split; [by apply Hsite|].
  split; [apply Huser; by right|]. intros Hin%Hid. discriminate Hin.
Defined.

Lemma isBidRequestValid_reads_video_only_witness :
  video_of video_bid = video_of multi_format_bid
  ∧ isBidRequestValid sample_NumberToString sample_StringToNumber video_bid
    = isBidRequestValid sample_NumberToString sample_StringToNumber multi_format_bid.
Proof.
  split; [reflexivity|].
  apply (isBidRequestValid_reads_video_only sample_NumberToString
           sample_StringToNumber video_bid multi_format_bid eq_refl eq_refl eq_refl).
Defined.

Lemma request_ext_keeps_library_fields_witness :
  ∃ r,
    request ext_buildRequest [] context_bids converter_context = Ok r
    ∧ ext_fields r !! "source" = Some (VStr "host")
    ∧ ext_fields r !! "sspId" = Some (VStr "ssp123")
    ∧ ext_fields r !! "other" = None.
Proof.
  assert (∃ r, request ext_buildRequest [] context_bids converter_context = Ok r)
    as [r Hr].
  { eexists. vm_compute. reflexivity. }
  assert (∃ base, ext_buildRequest [] context_bids converter_context = Ok base)
    as [base Hbase] by (by eexists).
  assert (plain_block (prop (VObj base) "ext")) as P.
  { injection Hbase as <-. right. eexists. reflexivity. }
  pose proof (request_ext_keeps_library_fields ext_buildRequest _ _ _ base r
                Hbase P Hr) as Hk.
  assert (∀ k : string,
            bool_decide (k ∈ ["test"; "sspId"; "siteId"]) = false →
            k ∉ ["test"; "sspId"; "siteId"]) as Hout.
  { intros k Hb Hin. apply bool_decide_eq_false in Hb. by apply Hb. }
  exists r. split; [exact Hr|].
  rewrite (Hk "source"), (Hk "other") by (apply Hout; vm_compute; reflexivity).
  injection Hbase as <-. split; [vm_compute; reflexivity|].
  split; [|vm_compute; reflexivity].
  injection Hr as <-. vm_compute. reflexivity.
Defined.

(** X17 on [null] options, on options that enable nothing, and on
    applicable sections given as a string. *)
Lemma getUserSyncs_disabled_or_malformed_witness :
  getUserSyncs sample_NumberToString stored_params VNull (VArr []) gdpr_sample
    (VStr "1YNN") gpp_sample = Throw TypeError
  ∧ getUserSyncs sample_NumberToString stored_params (obj []) (VArr []) gdpr_sample
      (VStr "1YNN") gpp_sections_text = Ok []
  ∧ ∃ e,
      getUserSyncs sample_NumberToString stored_params sync_iframe (VArr [])
        VUndefined VUndefined gpp_sections_text = Throw e.
Proof.
  split; [|split].
  - apply (getUserSyncs_disabled_or_malformed sample_NumberToString stored_params
             VNull (VArr []) gdpr_sample (VStr "1YNN") gpp_sample).
    reflexivity.
  - apply (getUserSyncs_disabled_or_malformed sample_NumberToString stored_params
             (obj []) (VArr []) gdpr_sample (VStr "1YNN") gpp_sections_text).
    + reflexivity.
    + intros [H|H]; vm_compute in H; discriminate H.
  - apply (getUserSyncs_disabled_or_malformed sample_NumberToString stored_params
             sync_iframe (VArr []) VUndefined VUndefined gpp_sections_text).
    + left. reflexivity.
    + reflexivity.
    + reflexivity.
Defined.
